(** * useful_scripts: a shallow embedding of the repository audit scripts

    The scripts under [git_group_actions/], [github/], [pypi_tools/] and
    [python_themed/] walk the immediate sub-directories of a root, ask
    [git], [gh] or PyPI one question per directory and print a report.

    Modelling conventions.
    - Python [str] values are [string]s whose characters are code points
      below 256; [isspace], [lower] and [splitlines] follow CPython on
      that range.  Report lines are kept as the literal text of the source.
    - What the outside world answers (a directory listing, the result of a
      subprocess, an HTTP response) is an argument of the embedded
      function, so that every function below is total and executable.
    - [print] appends a line to an output list that is threaded through
      the function; a [main] returns the printed lines and, where the
      source returns one, the exit status.
    - A [dict] decoded from JSON is a [gmap string json]; a [set] of
      strings is a [gset string]. *)

From Stdlib Require Import ZArith NArith List Ascii String Lia Bool.
From Stdlib Require Import Sorting.Sorted Sorting.Permutation DecimalString.
From stdpp Require Import base option strings gmap sets list.

Local Open Scope string_scope.
Local Open Scope list_scope.
Local Open Scope Z_scope.

(** ** Python text primitives *)

Module Py.

Definition ord (c : ascii) : N := N_of_ascii c.

Definition between (lo hi n : N) : bool := ((lo <=? n) && (n <=? hi))%N.

(** [str.isspace] on one character: TAB..CR, FS..US, SPACE, NEL, NBSP. *)
Definition isspace (c : ascii) : bool :=
  let n := ord c in
  between 9 13 n || between 28 32 n || (n =? 133)%N || (n =? 160)%N.

(** [str.isdigit] restricted to what [\d] and [int] accept below 256. *)
Definition isdigit (c : ascii) : bool := between 48 57 (ord c).

Definition is_empty (s : string) : bool :=
  match s with EmptyString => true | String _ _ => false end.

(** Truthiness of a [str]. *)
Definition truthy_str (s : string) : bool := negb (is_empty s).

Fixpoint lstrip_with (p : ascii -> bool) (s : string) : string :=
  match s with
  | EmptyString => EmptyString
  | String c r => if p c then lstrip_with p r else s
  end.

Fixpoint rstrip_with (p : ascii -> bool) (s : string) : string :=
  match s with
  | EmptyString => EmptyString
  | String c r =>
      let r' := rstrip_with p r in
      if p c && is_empty r' then EmptyString else String c r'
  end.

Definition lstrip : string -> string := lstrip_with isspace.
Definition rstrip : string -> string := rstrip_with isspace.
Definition strip (s : string) : string := lstrip (rstrip s).

(** [s.rstrip("\n")] *)
Definition rstrip_newline : string -> string :=
  rstrip_with (fun c => (ord c =? 10)%N).

Definition lower_char (c : ascii) : ascii :=
  let n := ord c in
  if between 65 90 n || (between 192 222 n && negb (n =? 215)%N)
  then ascii_of_N (n + 32) else c.

Fixpoint lower (s : string) : string :=
  match s with
  | EmptyString => EmptyString
  | String c r => String (lower_char c) (lower r)
  end.

Definition startswith (s pre : string) : bool := String.prefix pre s.

(** [needle in s] *)
Fixpoint contains (needle s : string) : bool :=
  String.prefix needle s ||
  match s with
  | EmptyString => false
  | String _ r => contains needle r
  end.

(** [s.split(sep, 1)] for a one-character separator that occurs in [s]:
    the text before and after its first occurrence; [None] when [sep]
    does not occur (the source never unpacks the result in that case). *)
Fixpoint split_once (sep : ascii) (s : string) : option (string * string) :=
  match s with
  | EmptyString => None
  | String c r =>
      if Ascii.eqb c sep then Some (EmptyString, r)
      else match split_once sep r with
           | Some (a, b) => Some (String c a, b)
           | None => None
           end
  end.

(** [s.split(sep)] for a one-character separator. *)
Fixpoint split_on (sep : ascii) (cur s : string) : list string :=
  match s with
  | EmptyString => [cur]
  | String c r =>
      if Ascii.eqb c sep then cur :: split_on sep EmptyString r
      else split_on sep (cur +:+ String c EmptyString) r
  end.

Definition split (sep : ascii) (s : string) : list string :=
  split_on sep EmptyString s.

(** Line boundaries of [str.splitlines]: LF, VT, FF, CR, FS, GS, RS, NEL
    (and CR LF as one boundary). *)
Definition is_linebreak (c : ascii) : bool :=
  let n := ord c in
  between 10 13 n || between 28 30 n || (n =? 133)%N.

Fixpoint splitlines_from (cur s : string) : list string :=
  match s with
  | EmptyString => if is_empty cur then [] else [cur]
  | String c r =>
      if (ord c =? 13)%N then
        match r with
        | String c' r' =>
            if (ord c' =? 10)%N then cur :: splitlines_from EmptyString r'
            else cur :: splitlines_from EmptyString r
        | EmptyString => cur :: splitlines_from EmptyString r
        end
      else if is_linebreak c then cur :: splitlines_from EmptyString r
      else splitlines_from (cur +:+ String c EmptyString) r
  end.

Definition splitlines (s : string) : list string :=
  splitlines_from EmptyString s.

Definition digit_val (c : ascii) : option N :=
  if isdigit c then Some (ord c - 48)%N else None.

(** The digit part of an integer literal: digits, with single
    underscores allowed between two digits. *)
Fixpoint parse_digits (acc : N) (after_digit : bool) (s : string)
  : option N :=
  match s with
  | EmptyString => if after_digit then Some acc else None
  | String c r =>
      match digit_val c with
      | Some d => parse_digits (acc * 10 + d) true r
      | None =>
          if Ascii.eqb c "_" && after_digit then parse_digits acc false r
          else None
      end
  end.

(** [int(s)]: surrounding whitespace is dropped, one sign is allowed;
    [None] stands for [ValueError]. *)
Definition int (s : string) : option Z :=
  match strip s with
  | EmptyString => None
  | String c r =>
      if Ascii.eqb c "+" then Z.of_N <$> parse_digits 0 false r
      else if Ascii.eqb c "-"
      then (fun n => - Z.of_N n) <$> parse_digits 0 false r
      else Z.of_N <$> parse_digits 0 false (String c r)
  end.

(** [str(n)] for a natural number. *)
Definition str_nat (n : nat) : string :=
  NilEmpty.string_of_uint (Nat.to_uint n).

Definition str_Z (z : Z) : string :=
  if z <? 0 then "-" +:+ str_nat (Z.to_nat (- z)) else str_nat (Z.to_nat z).

(** [sorted(l, key=key)] with keys compared by [leb]: the stable sort. *)
Section Sorted.
Context {A K : Type} (key : A -> K) (leb : K -> K -> bool).

(** [x] goes in front of the first element whose key is not below
    its own, so that equal keys keep the order of the input. *)
Fixpoint insert_front (x : A) (l : list A) : list A :=
  match l with
  | [] => [x]
  | y :: l' =>
      if leb (key x) (key y) then x :: l
      else y :: insert_front x l'
  end.

Definition sorted (l : list A) : list A :=
  fold_right insert_front [] l.
End Sorted.

End Py.

(** ** The outside world: directory listings and subprocess results *)

Inductive Kind : Type := Missing | File | Dir.

Definition exists_ (k : Kind) : bool :=
  match k with Missing => false | _ => true end.

Definition is_dir_kind (k : Kind) : bool :=
  match k with Dir => true | _ => false end.

(** One entry of [root.iterdir()], with what the scripts ask about it. *)
Record Path : Type := mkPath {
  name : string;        (* [p.name] *)
  full_path : string;   (* [str(p)] *)
  is_dir : bool;        (* [p.is_dir()] *)
  dot_git : Kind;       (* [p / ".git"] *)
  dot_venv : Kind       (* [p / ".venv"] *)
}.

(** A [subprocess.CompletedProcess] run with captured text output. *)
Record Completed : Type := mkCompleted {
  returncode : Z;
  stdout : string;
  stderr : string
}.

(** [subprocess.run(..., check=False)] as the scripts guard it: the
    process ran, or the one exception the caller catches was raised. *)
Inductive RunResult : Type :=
  | Ran (proc : Completed)
  | Raised (exc : string).

Definition nl : string := String (ascii_of_nat 10) EmptyString.

(** ** git_group_actions/git_it.py *)

Module GitIt.

(** The module-level flag [HAD_ERRORS] together with what has been
    written to standard error. *)
Record State : Type := mkState {
  HAD_ERRORS : bool;
  err_lines : list string
}.

Definition initial : State := mkState false [].

Definition join (sep : string) (l : list string) : string :=
  String.concat sep l.

Definition report_error (repo : option Path) (cmd : list string)
    (code : Z) (stderr_text : string) (st : State) : State :=
  let target := match repo with Some p => name p | None => "." end in
  let command_str := join " " cmd in
  let first :=
    "❌ [" +:+ target +:+ "] Command failed (exit " +:+ Py.str_Z code +:+ "): "
      +:+ command_str +:+ nl in
  let more :=
    if Py.truthy_str (Py.strip stderr_text)
    then ["   ↳ " +:+ Py.strip stderr_text +:+ nl] else [] in
  mkState true (err_lines st ++ first :: more).

(** [run_cmd]: [Raised] is the [FileNotFoundError] branch. *)
Definition run_cmd (world : RunResult) (args : list string) (cwd : Path)
    (st : State) : (Z * string * string) * State :=
  match world with
  | Ran result => ((returncode result, stdout result, stderr result), st)
  | Raised exc =>
      ((127, "", exc),
       report_error (Some cwd) args 127 ("Executable not found: " +:+ exc) st)
  end.

Definition is_git_repo (path : Path) : bool := exists_ (dot_git path).

Definition rev_list_cmd : list string :=
  ["git"; "rev-list"; "--count"; "@{u}..HEAD"].

(** [None] is Python's [None]: the count could not be determined. *)
Definition get_unpushed_commit_count (world : RunResult) (path : Path)
    (st : State) : option Z * State :=
  let '((code, out, err), st) := run_cmd world rev_list_cmd path st in
  if negb (code =? 0) then
    (None, report_error (Some path) rev_list_cmd code err st)
  else
    let text := Py.strip out in
    match Py.int text with
    | Some n => (Some n, st)
    | None =>
        (None,
         report_error (Some path) rev_list_cmd code
           ("Unexpected output: " +:+ text) st)
    end.

Definition iter_child_dirs (listing : list Path) : list Path :=
  Py.sorted (fun p => Py.lower (name p)) String.leb
    (filter (fun p => is_dir p) listing).

End GitIt.

(** ** git_group_actions/abandoned_repo.py *)

Module AbandonedRepo.

Definition MIN_COMMITS : Z := 10.

Definition is_git_repo (result : Completed) : bool :=
  (returncode result =? 0) && String.eqb (Py.strip (stdout result)) "true".

Definition get_commit_count (result : Completed) : Z :=
  if negb (returncode result =? 0) then 0
  else match Py.int (Py.strip (stdout result)) with
       | Some n => n
       | None => 0
       end.

(** [rev_parse] and [rev_list] are what git answers for an entry. *)
Fixpoint find_small_repos (rev_parse rev_list : Path -> Completed)
    (listing : list Path) (min_commits : Z) : list (Path * Z) :=
  match listing with
  | [] => []
  | entry :: rest =>
      let tail := find_small_repos rev_parse rev_list rest min_commits in
      if negb (is_dir entry) then tail
      else if negb (is_git_repo (rev_parse entry)) then tail
      else
        let commit_count := get_commit_count (rev_list entry) in
        if commit_count <? min_commits then (entry, commit_count) :: tail
        else tail
  end.

Definition main (root : string) (rev_parse rev_list : Path -> Completed)
    (listing : list Path) : list string :=
  let head :=
    ["🔍 Scanning for repos with < " +:+ Py.str_Z MIN_COMMITS
       +:+ " commits in: " +:+ root] in
  let small_repos := find_small_repos rev_parse rev_list listing MIN_COMMITS in
  match small_repos with
  | [] =>
      head ++ ["✅ No repositories with fewer than " +:+ Py.str_Z MIN_COMMITS
                 +:+ " commits found."]
  | _ =>
      head
      ++ [nl +:+ "📉 Repositories with fewer than " +:+ Py.str_Z MIN_COMMITS
            +:+ " commits:" +:+ nl]
      ++ map (fun '(path, count) =>
                "📁 " +:+ name path +:+ ": " +:+ Py.str_Z count
                  +:+ " commit(s) ⚠️") small_repos
      ++ [nl +:+ "📊 Total repos with < " +:+ Py.str_Z MIN_COMMITS
            +:+ " commits: " +:+ Py.str_nat (length small_repos)]
  end.

End AbandonedRepo.

(** ** git_group_actions/how_cloned.py *)

Module HowCloned.

Inductive CloneType : Type := ssh | https | other | none.

Definition iter_git_repos (listing : list Path) : list Path :=
  filter (fun entry => is_dir entry && exists_ (dot_git entry)) listing.

(** Returns the URL (or [None]) and what the call printed. *)
Definition get_origin_url (world : RunResult) (repo : Path)
  : option string * list string :=
  match world with
  | Raised exc =>
      (None,
       ["💥 Error reading origin for " +:+ full_path repo +:+ ": " +:+ exc])
  | Ran proc =>
      if negb (returncode proc =? 0) then (None, [])
      else
        let url := Py.strip (stdout proc) in
        (if Py.truthy_str url then Some url else None, [])
  end.

Definition classify_clone_type (url : option string) : CloneType :=
  match url with
  | None => none
  | Some url =>
      let lowered := Py.lower url in
      if Py.startswith lowered "git@" || Py.startswith lowered "ssh://"
      then ssh
      else if Py.startswith lowered "http://"
              || Py.startswith lowered "https://"
      then https
      else other
  end.

(** The four accumulator lists of [main]. *)
Record Groups : Type := mkGroups {
  ssh_repos : list (Path * option string);
  https_repos : list (Path * option string);
  other_repos : list (Path * option string);
  none_repos : list (Path * option string)
}.

Definition add (repo : Path) (url : option string) (g : Groups) : Groups :=
  match classify_clone_type url with
  | ssh => mkGroups (ssh_repos g ++ [(repo, url)]) (https_repos g)
             (other_repos g) (none_repos g)
  | https => mkGroups (ssh_repos g) (https_repos g ++ [(repo, url)])
               (other_repos g) (none_repos g)
  | other => mkGroups (ssh_repos g) (https_repos g)
               (other_repos g ++ [(repo, url)]) (none_repos g)
  | none => mkGroups (ssh_repos g) (https_repos g) (other_repos g)
              (none_repos g ++ [(repo, url)])
  end.

Fixpoint scan (git : Path -> RunResult) (repos : list Path)
    (g : Groups) (out : list string) : Groups * list string :=
  match repos with
  | [] => (g, out)
  | repo :: rest =>
      let '(url, printed) := get_origin_url (git repo) repo in
      scan git rest (add repo url g) (out ++ printed)
  end.

Definition print_group (show_urls : bool) (title icon : string)
    (items : list (Path * option string)) : list string :=
  (icon +:+ " " +:+ title +:+ ":") ::
  match items with
  | [] => ["   • (none)"]
  | _ =>
      map (fun '(repo, url) =>
             match url with
             | Some u =>
                 if show_urls && Py.truthy_str u
                 then "   • " +:+ name repo +:+ " → " +:+ u
                 else "   • " +:+ name repo
             | None => "   • " +:+ name repo
             end) items
      ++ [""]
  end.

Definition main (show_urls : bool) (git : Path -> RunResult)
    (listing : list Path) : list string * Z :=
  let out := ["🔍 Scanning git repositories for clone type..." +:+ nl] in
  let '(g, out) :=
    scan git (iter_git_repos listing) (mkGroups [] [] [] []) out in
  ((out
   ++ print_group show_urls "SSH clones" "🔐" (ssh_repos g)
   ++ print_group show_urls "HTTPS clones" "🌐" (https_repos g)
   ++ print_group show_urls "Other/unknown URL schemes" "⚙️" (other_repos g)
   ++ print_group show_urls "No origin remote configured" "❓" (none_repos g)
   ++ ["✅ Done."]),
   0).

End HowCloned.

(** ** git_group_actions/uncommited.py *)

Module Uncommited.

Definition iter_git_repos (listing : list Path) : list Path :=
  filter (fun entry => is_dir entry && exists_ (dot_git entry)) listing.

(** [a or b or c] on strings. *)
Definition or_str (a b : string) : string :=
  if Py.truthy_str a then a else b.

(** Returns [(has_changes, lines)] and what the call printed. *)
Definition git_status_porcelain (world : RunResult) (repo : Path)
  : (bool * list string) * list string :=
  match world with
  | Raised exc =>
      ((false, []),
       ["💥 Error inspecting " +:+ full_path repo +:+ ": " +:+ exc])
  | Ran proc =>
      if negb (returncode proc =? 0) then
        let msg :=
          or_str (Py.strip (stderr proc))
            (or_str (Py.strip (stdout proc)) "unknown git error") in
        ((false, []),
         ["💥 Error inspecting " +:+ full_path repo +:+ ": " +:+ msg])
      else
        let lines :=
          map Py.rstrip_newline
            (filter (fun line => Py.truthy_str (Py.strip line))
               (Py.splitlines (stdout proc))) in
        ((negb (match lines with [] => true | _ => false end), lines), [])
  end.

(** The scanning loop of [main]: the [dirty] list and the output. *)
Fixpoint scan (verbose : bool) (git : Path -> RunResult)
    (repos : list Path) (dirty : list (Path * list string))
    (out : list string) : list (Path * list string) * list string :=
  match repos with
  | [] => (dirty, out)
  | repo :: rest =>
      let '((has_changes, lines), printed) :=
        git_status_porcelain (git repo) repo in
      let out := out ++ printed in
      if has_changes then scan verbose git rest (dirty ++ [(repo, lines)]) out
      else if verbose
      then scan verbose git rest dirty
             (out ++ ["✅ " +:+ name repo +:+ " is clean."])
      else scan verbose git rest dirty out
  end.

Definition all_clean : string := "✅ All git repositories are clean.".

Definition report_dirty (entry : Path * list string) : list string :=
  let '(repo, lines) := entry in
  (nl +:+ "📁 " +:+ name repo +:+ " (" +:+ Py.str_nat (length lines)
     +:+ " path(s) changed)")
  :: map (fun line => "   • " +:+ line) lines.

Definition main (verbose : bool) (git : Path -> RunResult)
    (listing : list Path) : list string * Z :=
  let out := ["🔍 Scanning for git repositories with local changes..." +:+ nl] in
  let '(dirty, out) := scan verbose git (iter_git_repos listing) [] out in
  match dirty with
  | [] => (if negb verbose then out ++ [all_clean] else out, 0)
  | _ =>
      ((out
       ++ ["⚠️ Repositories with local changes (would be picked up by `git add -A`):"]
       ++ concat (map report_dirty dirty)
       ++ [nl +:+ "⚠️ Done. At least one repository has local changes."]),
       1)
  end.

End Uncommited.

(** ** github/gha_wrong_python.py *)

Module GhaWrongPython.

Definition PYTHON_VERSION_THRESHOLD : Z * Z * Z := (3, 14, 0).

(** [\d+] at the start of [s], greedy: the digits and the rest. *)
Fixpoint span_digits (s : string) : string * string :=
  match s with
  | EmptyString => (EmptyString, EmptyString)
  | String c r =>
      if Py.isdigit c
      then let '(d, t) := span_digits r in (String c d, t)
      else (EmptyString, s)
  end.

(** [\.\d+] at the start of [s]. *)
Definition dot_digits (s : string) : option (string * string) :=
  match s with
  | String "." r =>
      let '(d, t) := span_digits r in
      if Py.is_empty d then None else Some (String "." d, t)
  | _ => None
  end.

(** [\d+(?:\.\d+){1,2}] at the start of [s]: the matched text and the
    rest.  Greedy matching never has to back off here: a shorter run
    of digits is followed by a digit, not by a dot. *)
Definition match_version (s : string) : option (string * string) :=
  let '(a, r) := span_digits s in
  if Py.is_empty a then None
  else match dot_digits r with
       | None => None
       | Some (b, r1) =>
           match dot_digits r1 with
           | Some (c, r2) => Some (a +:+ b +:+ c, r2)
           | None => Some (a +:+ b, r1)
           end
       end.

(** [re.fullmatch(r"\d+(?:\.\d+){1,2}", s)] *)
Definition fullmatch_version (s : string) : bool :=
  match match_version s with
  | Some (_, EmptyString) => true
  | _ => false
  end.

Definition is_quote (c : ascii) : bool :=
  (Py.ord c =? 34)%N || (Py.ord c =? 39)%N.

(** The optional quote (double, code 34, or single, code 39) at the
    start of [s]. *)
Definition skip_quote (s : string) : string :=
  match s with
  | String c r => if is_quote c then r else s
  | EmptyString => s
  end.

(** The whole pattern of [extract_versions_from_text] at the start of
    [s]: group 1 and the text after the match. *)
Definition match_at (s : string) : option (string * string) :=
  match match_version (skip_quote s) with
  | Some (v, r) => Some (v, skip_quote r)
  | None => None
  end.

(** [pattern.findall]: matches are searched left to right and do not
    overlap; [skip] counts the characters of the last match that are
    still to be passed over. *)
Fixpoint findall_from (skip : nat) (s : string) : list string :=
  match s with
  | EmptyString => []
  | String _ r =>
      match skip with
      | S k => findall_from k r
      | O =>
          match match_at s with
          | Some (v, rest) =>
              v :: findall_from
                     (String.length s - String.length rest - 1) r
          | None => findall_from 0 r
          end
      end
  end.

Definition extract_versions_from_text (text : string) : list string :=
  findall_from 0 text.

(** [[int(p) for p in parts]]; [None] stands for [ValueError]. *)
Fixpoint ints (parts : list string) : option (list Z) :=
  match parts with
  | [] => Some []
  | p :: rest =>
      match Py.int p, ints rest with
      | Some n, Some ns => Some (n :: ns)
      | _, _ => None
      end
  end.

(** [while len(nums) < 3: nums.append(0)] *)
Definition pad3 (nums : list Z) : list Z :=
  nums ++ repeat 0 (3 - length nums).

Definition parse_version (version : string) : option (Z * Z * Z) :=
  let version := Py.strip version in
  if negb (fullmatch_version version) then None
  else
    match ints (Py.split "." version) with
    | None => None
    | Some nums =>
        match pad3 nums with
        | a :: b :: c :: _ => Some (a, b, c)
        | _ => None
        end
    end.

(** Python's [<] on 3-tuples of integers. *)
Definition tuple_ltb (p q : Z * Z * Z) : bool :=
  let '(a, b, c) := p in
  let '(x, y, z) := q in
  (a <? x) || ((a =? x) && ((b <? y) || ((b =? y) && (c <? z)))).

Definition is_legacy_python_version (version : string) : bool :=
  match parse_version version with
  | None => false
  | Some parsed => tuple_ltb parsed PYTHON_VERSION_THRESHOLD
  end.

(** The [for ver in extract_versions_from_text(..)] loops. *)
Definition add_legacy (fragment : string) (legacy_versions : gset string)
  : gset string :=
  fold_left
    (fun acc ver =>
       if is_legacy_python_version ver then acc ∪ {[ ver ]} else acc)
    (extract_versions_from_text fragment) legacy_versions.

(** [len(line) - len(line.lstrip())] *)
Definition indent_of (line : string) : nat :=
  String.length line - String.length (Py.lstrip line).

(** The two nested [while] loops over [lines[i]].  [block] is [None]
    in the outer loop and [Some indent] inside the inner loop of a
    block-style key found at indentation [indent]; the inner loop's
    [break] hands the very same line to the outer loop. *)
Fixpoint scan (block : option nat) (lines : list string)
    (legacy_versions : gset string) : gset string :=
  match lines with
  | [] => legacy_versions
  | line :: rest =>
      let outer :=
        if negb (Py.contains "python-version" line)
           || negb (Py.contains ":" line)
        then scan None rest legacy_versions
        else
          let indent := indent_of line in
          let after_colon :=
            match Py.split_once ":" line with
            | Some (_, after) => Py.strip after
            | None => EmptyString
            end in
          if Py.truthy_str after_colon
          then scan None rest (add_legacy after_colon legacy_versions)
          else scan (Some indent) rest legacy_versions in
      match block with
      | None => outer
      | Some indent =>
          let stripped := Py.strip line in
          if negb (Py.truthy_str stripped) || Py.startswith stripped "#"
          then scan (Some indent) rest legacy_versions
          else if (indent_of line <=? indent)%nat then outer
          else scan (Some indent) rest (add_legacy line legacy_versions)
      end
  end.

Definition find_legacy_python_versions_in_text (text : string)
  : gset string :=
  scan None (Py.splitlines text) ∅.

End GhaWrongPython.

(** ** github/not_mine.py *)

(** Values produced by [json.loads]. A float is kept as a decimal
    mantissa and exponent. *)
#[warnings="-register-all"]
Inductive json : Type :=
  | JNull
  | JBool (b : bool)
  | JInt (z : Z)
  | JFloat (mantissa exponent : Z)
  | JStr (s : string)
  | JArr (l : list json)
  | JObj (m : gmap string json).

(** A call either returns a value or raises. *)
Inductive Outcome (A : Type) : Type :=
  | Returns (a : A)
  | Raises (exc : string).
Arguments Returns {A} a.
Arguments Raises {A} exc.

#[global] Instance outcome_bind : MBind Outcome :=
  fun A B (f : A -> Outcome B) (m : Outcome A) =>
    match m with
    | Returns a => f a
    | Raises exc => Raises exc
    end.

Module NotMine.

Definition GITHUB_USERNAME : string := "matthewdeanmartin".

(** [bool(v)] *)
Definition truthy (v : json) : bool :=
  match v with
  | JNull => false
  | JBool b => b
  | JInt z => negb (z =? 0)
  | JFloat m _ => negb (m =? 0)
  | JStr s => Py.truthy_str s
  | JArr l => match l with [] => false | _ => true end
  | JObj m => negb (bool_decide (m = ∅))
  end.

(** [d.get(key)]: a missing key gives [None], which is JSON's null. *)
Definition dict_get (d : gmap string json) (key : string) : json :=
  default JNull (d !! key).

(** [v or {}] *)
Definition or_empty_dict (v : json) : json :=
  if truthy v then v else JObj ∅.

(** [v.get(key, dflt)]; only a dict has a [get] method. *)
Definition get_default (v : json) (key : string) (dflt : json)
  : Outcome json :=
  match v with
  | JObj m => Returns (default dflt (m !! key))
  | _ => Raises "AttributeError"
  end.

(** [v.get(key)] *)
Definition get (v : json) (key : string) : Outcome json :=
  get_default v key JNull.

(** [v == s] for a [str] [s]. *)
Definition eq_str (v : json) (s : string) : bool :=
  match v with
  | JStr t => String.eqb t s
  | _ => false
  end.

Definition is_fork_of_other_user (repo_info : gmap string json)
    (username : string) : Outcome bool :=
  let is_fork := truthy (dict_get repo_info "isFork") in
  let owner := or_empty_dict (dict_get repo_info "owner") in
  owner_login ← get_default owner "login" (JStr "");
  if negb is_fork then Returns false
  else
    let parent := or_empty_dict (dict_get repo_info "parent") in
    parent_owner_raw ← get parent "owner";
    let parent_owner := or_empty_dict parent_owner_raw in
    parent_owner_login ← get_default parent_owner "login" (JStr "");
    Returns (eq_str owner_login username
             && negb (eq_str parent_owner_login username)).

End NotMine.

(** ** pypi_tools/py314_support.py *)

Module Py314Support.

Definition PY_TAG : string := "Programming Language :: Python :: 3.14".
Definition PY_VERSION_STR : string := "3.14".

Record SupportResult : Type := mkSupportResult {
  name : string;
  supported : bool;
  version : option string;
  reason : string
}.

(** The answer to [GET /pypi/<name>/json]: the status and the keys of
    the ["releases"] object in document order. *)
Record ProjectResponse : Type := mkProjectResponse {
  project_status : Z;
  releases : list string
}.

(** The answer to [GET /pypi/<name>/<version>/json]: the status and the
    two fields of ["info"] that are read; [None] is a missing key or
    JSON null. *)
Record ReleaseResponse : Type := mkReleaseResponse {
  status_code : Z;
  classifiers : option (list string);
  requires_python : option string
}.

Section Packaging.

(** The [packaging] library: [Version(v)] ([None] is
    [InvalidVersion]), the order on versions, the fallback key
    [Version("0!0")], and
    [SpecifierSet(rp).contains(v, prereleases=True)] ([None] is any
    exception raised on the way). *)
Context {V : Type}.
Variable Version : string -> option V.
Variable version_leb : V -> V -> bool.
Variable Version_0_0 : V.
Variable contains_prereleases : string -> string -> option bool.

(** PyPI. *)
Variable get_project : string -> ProjectResponse.
Variable get_release : string -> string -> ReleaseResponse.

Definition key (v : string) : V := default Version_0_0 (Version v).

(** [versions.sort(key=key, reverse=True)]: descending and stable. *)
Definition _releases_sorted (name : string) : list string :=
  let r := get_project name in
  if negb (project_status r =? 200) then []
  else Py.sorted key (fun a b => version_leb b a) (releases r).

Definition _release_supports (name version : string) : bool * string :=
  let r := get_release name version in
  if negb (status_code r =? 200) then (false, "")
  else
    let classifiers := default [] (classifiers r) in
    if bool_decide (PY_TAG ∈ classifiers) then (true, "classifier")
    else
      let rp := Py.strip (default "" (requires_python r)) in
      if Py.truthy_str rp then
        match contains_prereleases rp PY_VERSION_STR with
        | Some true => (true, "requires_python")
        | _ => (false, "")
        end
      else (false, "").

(** The [for v in versions] loop; [fetched] lists the releases whose
    metadata has been requested so far. *)
Fixpoint scan (name : string) (versions fetched : list string)
  : SupportResult * list string :=
  match versions with
  | [] => (mkSupportResult name false None "", fetched)
  | v :: rest =>
      let '(ok, why) := _release_supports name v in
      if ok then (mkSupportResult name true (Some v) why, fetched ++ [v])
      else scan name rest (fetched ++ [v])
  end.

Definition check_project_traced (name : string)
  : SupportResult * list string :=
  scan name (_releases_sorted name) [].

Definition check_project (name : string) : SupportResult :=
  fst (check_project_traced name).

End Packaging.

End Py314Support.

(** ** python_themed/py14.py *)

Module Py14.

(** What probing the interpreter of a [.venv] gives: no executable,
    the text it printed, or an exception (a timeout, for one). *)
Inductive Probe : Type :=
  | NoExecutable
  | Printed (out : string)
  | Failed.

Definition get_python_version (probe : Probe) : option string :=
  match probe with
  | NoExecutable => None
  | Printed out => Some (Py.strip out)
  | Failed => None
  end.

Fixpoint scan (probe : Path -> Probe) (listing : list Path)
    (good : nat) (bad : list (string * string))
  : nat * list (string * string) :=
  match listing with
  | [] => (good, bad)
  | project_dir :: rest =>
      if negb (is_dir project_dir) then scan probe rest good bad
      else if negb (exists_ (dot_venv project_dir))
      then scan probe rest good bad
      else
        match get_python_version (probe project_dir) with
        | None =>
            scan probe rest good
              (bad ++ [(name project_dir, "no python found")])
        | Some version =>
            if Py.contains "3.14" version
            then scan probe rest (S good) bad
            else scan probe rest good (bad ++ [(name project_dir, version)])
        end
  end.

Definition main (probe : Path -> Probe) (listing : list Path)
  : list string :=
  let '(good, bad) := scan probe listing 0%nat [] in
  (match bad with
   | [] => []
   | _ =>
       "Non-3.14 virtual environments detected:"
       :: map (fun '(name, version) => "  " +:+ name +:+ ": " +:+ version)
            bad
   end)
  ++ [nl +:+ Py.str_nat good +:+ " good repos"].

End Py14.

(** ** git_group_actions/not_repo.py *)

Module NotRepo.

Definition find_non_git_repos (listing : list Path) : list Path :=
  filter (fun entry => is_dir entry && negb (is_dir_kind (dot_git entry)))
    listing.

Definition main (listing : list Path) : list string :=
  match find_non_git_repos listing with
  | [] => ["✔️ All subfolders are git repositories."]
  | non_git =>
      "❌ Non-git directories detected:"
      :: map (fun path => "   • " +:+ name path +:+ " 🚫") non_git
  end.

End NotRepo.

(** ** python_themed/still_poetry.py *)

Module StillPoetry.

(** [pyproject.toml] of a repository: not a file, a file that cannot
    be read, or its text. *)
Inductive PyProject : Type :=
  | NoPyProject
  | Unreadable
  | Text (text : string).

Definition is_git_repo (result : Completed) : bool :=
  (returncode result =? 0) && String.eqb (Py.strip (stdout result)) "true".

Definition uses_poetry (poetry_lock_is_file : bool) (pyproject : PyProject)
  : bool :=
  if poetry_lock_is_file then true
  else match pyproject with
       | Text text => Py.contains "[tool.poetry]" text
       | Unreadable => false
       | NoPyProject => false
       end.

Definition find_poetry_repos (rev_parse : Path -> Completed)
    (poetry_lock : Path -> bool) (pyproject : Path -> PyProject)
    (listing : list Path) : list Path :=
  filter
    (fun entry =>
       is_dir entry && is_git_repo (rev_parse entry)
       && uses_poetry (poetry_lock entry) (pyproject entry))
    listing.

Definition main (root : string) (rev_parse : Path -> Completed)
    (poetry_lock : Path -> bool) (pyproject : Path -> PyProject)
    (listing : list Path) : list string :=
  let head := ["🔍 Scanning for Poetry-based repos in: " +:+ root] in
  match find_poetry_repos rev_parse poetry_lock pyproject listing with
  | [] =>
      head
      ++ ["✅ No Poetry-based repos found among immediate subdirectories."]
  | poetry_repos =>
      head
      ++ [nl +:+ "📦 Repos still using Poetry:" +:+ nl]
      ++ map (fun repo => "📁 " +:+ name repo +:+ " 🧪") poetry_repos
      ++ [nl +:+ "📊 Total Poetry repos: "
            +:+ Py.str_nat (length poetry_repos)]
  end.

End StillPoetry.

(** ** Vocabulary of the properties *)

(** Every character satisfies [p]. *)
Fixpoint all_chars (p : ascii -> bool) (s : string) : bool :=
  match s with
  | EmptyString => true
  | String c r => p c && all_chars p r
  end.

(** A non-empty run of decimal digits. *)
Definition numeral (s : string) : Prop :=
  all_chars Py.isdigit s = true /\ s <> EmptyString.

Fixpoint digits_value (acc : N) (s : string) : N :=
  match s with
  | EmptyString => acc
  | String c r => digits_value (acc * 10 + (Py.ord c - 48)) r
  end.

(** The number a numeral denotes. *)
Definition value (s : string) : Z := Z.of_N (digits_value 0 s).

(** A literal made of an optional sign followed by zeros and
    underscores only: the texts [int] maps to 0. *)
Definition zero_literal (s : string) : bool :=
  let zeros := all_chars (fun c => Ascii.eqb c "0" || Ascii.eqb c "_") in
  match s with
  | EmptyString => false
  | String c r =>
      if Ascii.eqb c "+" || Ascii.eqb c "-" then zeros r else zeros s
  end.

(** Lexicographic order on version triples. *)
Definition tuple_lt (p q : Z * Z * Z) : Prop :=
  let '(a, b, c) := p in
  let '(x, y, z) := q in
  a < x \/ (a = x /\ (b < y \/ (b = y /\ c < z))).

(** Directory entries compared by lower-cased name. *)
Definition name_le (p q : Path) : Prop :=
  String.leb (Py.lower (name p)) (Py.lower (name q)) = true.

(** The command behind a git fact did not deliver a number. *)
Definition failed (world : RunResult) : Prop :=
  match world with
  | Raised _ => True
  | Ran proc => returncode proc <> 0 \/ Py.int (Py.strip (stdout proc)) = None
  end.

(** [git status --porcelain] could not be run for a repository. *)
Definition errored (world : RunResult) : Prop :=
  match world with
  | Raised _ => True
  | Ran proc => returncode proc <> 0
  end.

(** [git status --porcelain] succeeded and listed at least one path. *)
Definition has_local_changes (world : RunResult) : Prop :=
  exists proc, world = Ran proc /\ returncode proc = 0 /\
    exists line, In line (Py.splitlines (stdout proc)) /\
                 Py.strip line <> EmptyString.

(** Every pair kept by [how_cloned.main] holds a repository together with
    the very URL git answered for it, in the group of its class. *)
Definition well_grouped (git : Path -> RunResult) (g : HowCloned.Groups)
  : Prop :=
  let kept (c : HowCloned.CloneType) (entry : Path * option string) :=
    snd entry = fst (HowCloned.get_origin_url (git (fst entry)) (fst entry))
    /\ HowCloned.classify_clone_type (snd entry) = c in
  Forall (kept HowCloned.ssh) (HowCloned.ssh_repos g) /\
  Forall (kept HowCloned.https) (HowCloned.https_repos g) /\
  Forall (kept HowCloned.other) (HowCloned.other_repos g) /\
  Forall (kept HowCloned.none) (HowCloned.none_repos g).

(** What one repository contributes to the [dirty] list of
    [uncommited.main]. *)
Definition dirty_entry (git : Path -> RunResult) (repo : Path)
  : list (Path * list string) :=
  let '((has_changes, lines), _) :=
    Uncommited.git_status_porcelain (git repo) repo in
  if has_changes then [(repo, lines)] else [].

(** The remote says the repository is a fork. *)
Definition reports_fork (repo_info : gmap string json) : Prop :=
  NotMine.truthy (NotMine.dict_get repo_info "isFork") = true.

(** The login recorded in an owner object; an absent or null owner, or
    one without a login, has the login [""]. *)
Definition login_of (owner : json) : Outcome json :=
  NotMine.get_default (NotMine.or_empty_dict owner) "login" (JStr "").

Definition owner_login (repo_info : gmap string json) : Outcome json :=
  login_of (NotMine.dict_get repo_info "owner").

Definition parent_owner_login (repo_info : gmap string json)
  : Outcome json :=
  parent_owner ←
    NotMine.get
      (NotMine.or_empty_dict (NotMine.dict_get repo_info "parent")) "owner";
  login_of parent_owner.

(** The parent is missing or null, or it has no owner, a null owner, or
    an owner without a login. *)
Definition lacks_parent_owner_login (repo_info : gmap string json) : Prop :=
  match repo_info !! "parent" with
  | None | Some JNull => True
  | Some (JObj parent) =>
      match parent !! "owner" with
      | None | Some JNull => True
      | Some (JObj owner) => owner !! "login" = None
      | Some _ => False
      end
  | Some _ => False
  end.

(** What [gh repo view --json name,owner,isFork,parent] answers for a
    fork owned by [owner] whose parent belongs to [parent_owner]. *)
Definition fork_record (owner parent_owner : string) : gmap string json :=
  {[ "name" := JStr "project";
     "isFork" := JBool true;
     "owner" := JObj {[ "id" := JStr "U_1"; "login" := JStr owner ]};
     "parent" :=
       JObj {[ "name" := JStr "project";
               "owner" := JObj {[ "login" := JStr parent_owner ]} ]} ]}.

(** Python's truth value of a decoded JSON value: [null], [false], a
    zero, the empty string, the empty list and the empty object are
    false, everything else is true. *)
Definition json_true (v : json) : Prop :=
  match v with
  | JNull => False
  | JBool b => b = true
  | JInt z => z <> 0
  | JFloat mantissa _ => mantissa <> 0
  | JStr s => s <> ""
  | JArr l => l <> []
  | JObj m => m <> ∅
  end.

(** The login an owner field gives: what the object holds under
    ["login"]; the empty string when the field is absent or false, or
    the object has no ["login"]. A true value that is not an object
    gives none. *)
Definition field_login (field : option json) (login : json) : Prop :=
  match field with
  | None => login = JStr ""
  | Some (JObj owner) =>
      match owner !! "login" with
      | Some l => login = l
      | None => login = JStr ""
      end
  | Some v => ~ json_true v /\ login = JStr ""
  end.

(** The owner field of a parent field: that of the object; absent when
    the parent is absent or false. *)
Definition parent_owner_field (parent owner : option json) : Prop :=
  match parent with
  | None => owner = None
  | Some (JObj p) => owner = p !! "owner"
  | Some v => ~ json_true v /\ owner = None
  end.

(** A record that is not a fork: the fork of the example with
    ["isFork"] false. *)
Definition own_record (owner parent_owner : string) : gmap string json :=
  <[ "isFork" := JBool false ]> (fork_record owner parent_owner).

(** The release [a] is at least as new as the release [b]: the order
    of [packaging] on the two parsed version strings, a string that is
    no version counting as [Version("0!0")]. *)
Definition at_least_as_new {V : Type} (Version : string -> option V)
    (version_leb : V -> V -> bool) (Version_0_0 : V) (a b : string) : Prop :=
  version_leb
    match Version b with Some vb => vb | None => Version_0_0 end
    match Version a with Some va => va | None => Version_0_0 end
  = true.

(** A token [major.minor] or [major.minor.patch] of numerals, together
    with the triple it denotes; a missing patch counts as 0. *)
Definition version_token (ver : string) (parsed : Z * Z * Z) : Prop :=
  exists major minor,
    numeral major /\ numeral minor /\
    ((ver = major +:+ "." +:+ minor /\
      parsed = (value major, value minor, 0)) \/
     (exists patch,
         numeral patch /\
         ver = major +:+ "." +:+ minor +:+ "." +:+ patch /\
         parsed = (value major, value minor, value patch))).

Definition dquote : string := String (ascii_of_nat 34) EmptyString.

(** The block-mode example: the key at column 0, its members at
    indentation 2. *)
Definition block_example : string :=
  "python-version:" +:+ nl
  +:+ "  - " +:+ dquote +:+ "3.10" +:+ dquote +:+ nl
  +:+ "  - " +:+ dquote +:+ "3.13.1" +:+ dquote +:+ nl.

(** The same block with the key itself at indentation 2, followed by a
    line that closes the block. *)
Definition indented_block_example : string :=
  "jobs:" +:+ nl
  +:+ "  python-version:" +:+ nl
  +:+ "    - " +:+ dquote +:+ "3.10" +:+ dquote +:+ nl
  +:+ "    # oldest supported" +:+ nl
  +:+ "    - " +:+ dquote +:+ "3.13.1" +:+ dquote +:+ nl
  +:+ "  os: ubuntu-22.04" +:+ nl.

Definition inline_example : string :=
  "python-version: " +:+ dquote +:+ "3.14" +:+ dquote.

(** ** git_group_actions/git_it.py: the stranded and push commands *)

Module GitItCommands.
Import GitIt.

Definition status_cmd : list string := ["git"; "status"; "--porcelain"].

(** [None] is Python's [None]: the status could not be determined. *)
Definition has_uncommitted_changes (world : RunResult) (path : Path)
    (st : State) : option bool * State :=
  let '((code, out, err), st) := run_cmd world status_cmd path st in
  if negb (code =? 0) then
    (None, report_error (Some path) status_cmd code err st)
  else (Some (Py.truthy_str (Py.strip out)), st).

(** The four accumulator lists of [cmd_stranded]. *)
Record Stranded : Type := mkStranded {
  uncommitted : list Path;
  unpushed : list (Path * Z);
  clean : list Path;
  non_git : list Path
}.

(** The [for d in iter_child_dirs(root)] loop of [cmd_stranded]. *)
Fixpoint stranded_scan (status rev_list : Path -> RunResult)
    (dirs : list Path) (acc : Stranded) (st : State) : Stranded * State :=
  match dirs with
  | [] => (acc, st)
  | d :: rest =>
      if negb (is_git_repo d) then
        stranded_scan status rev_list rest
          (mkStranded (uncommitted acc) (unpushed acc) (clean acc)
             (non_git acc ++ [d])) st
      else
        let '(uncomm, st) := has_uncommitted_changes (status d) d st in
        let '(unpushed_count, st) :=
          get_unpushed_commit_count (rev_list d) d st in
        let uncommitted' :=
          match uncomm with
          | Some true => uncommitted acc ++ [d]
          | _ => uncommitted acc
          end in
        let unpushed' :=
          match unpushed_count with
          | Some n => if 0 <? n then unpushed acc ++ [(d, n)]
                      else unpushed acc
          | None => unpushed acc
          end in
        let clean' :=
          match uncomm, unpushed_count with
          | Some false, Some n => if n =? 0 then clean acc ++ [d]
                                  else clean acc
          | _, _ => clean acc
          end in
        stranded_scan status rev_list rest
          (mkStranded uncommitted' unpushed' clean' (non_git acc)) st
  end.

(** [f"commit{'s' if count != 1 else ''}"] *)
Definition commits_word (count : Z) : string :=
  "commit" +:+ (if count =? 1 then "" else "s").

Definition list_names (dirs : list Path) : list string :=
  map (fun d => "  - " +:+ name d) dirs.

(** [cmd_stranded]: what is printed, and the state afterwards. *)
Definition cmd_stranded (status rev_list : Path -> RunResult)
    (listing : list Path) (verbose : bool) (st : State)
  : list string * State :=
  let '(r, st) :=
    stranded_scan status rev_list (iter_child_dirs listing)
      (mkStranded [] [] [] []) st in
  (["🔍 Checking for stranded work…"]
   ++ match uncommitted r with
      | [] => ["✏️ No repos with uncommitted changes found."]
      | _ => "✏️ Repos with uncommitted changes:"
               :: list_names (uncommitted r)
      end
   ++ match unpushed r with
      | [] => ["📤 No repos with unpushed commits found (for branches with an upstream)."]
      | _ => "📤 Repos with unpushed commits:"
               :: map (fun '(d, count) =>
                         "  - " +:+ name d +:+ " (ahead by "
                           +:+ Py.str_Z count +:+ " "
                           +:+ commits_word count +:+ ")")
                    (unpushed r)
      end
   ++ (if verbose then
         match clean r with
         | [] => []
         | _ => "✅ Clean repos (no uncommitted or unpushed work):"
                  :: list_names (clean r)
         end
         ++ match non_git r with
            | [] => []
            | _ => "📁 Non-git directories:" :: list_names (non_git r)
            end
       else []),
   st).

(** The loop of [cmd_push]; [pushed] lists the directories in which
    [git push] has been run. *)
Fixpoint push_scan (rev_list push : Path -> RunResult) (dirs : list Path)
    (pushed : list Path) (out : list string) (st : State)
  : list Path * list string * State :=
  match dirs with
  | [] => (pushed, out, st)
  | d :: rest =>
      if negb (is_git_repo d) then
        push_scan rev_list push rest pushed out st
      else
        let '(count, st) := get_unpushed_commit_count (rev_list d) d st in
        match count with
        | None => push_scan rev_list push rest pushed out st
        | Some n =>
            if n =? 0 then push_scan rev_list push rest pushed out st
            else
              let out :=
                out ++ ["🚀 [" +:+ name d +:+ "] git push (ahead by "
                          +:+ Py.str_Z n +:+ " " +:+ commits_word n +:+ ")"] in
              let '((code, o, err), st) :=
                run_cmd (push d) ["git"; "push"] d st in
              if negb (code =? 0) then
                push_scan rev_list push rest (pushed ++ [d]) out
                  (report_error (Some d) ["git"; "push"] code err st)
              else if Py.truthy_str (Py.strip o) then
                push_scan rev_list push rest (pushed ++ [d])
                  (out ++ [Py.strip o]) st
              else push_scan rev_list push rest (pushed ++ [d]) out st
        end
  end.

Definition cmd_push (rev_list push : Path -> RunResult)
    (listing : list Path) (st : State)
  : list Path * list string * State :=
  push_scan rev_list push (iter_child_dirs listing) []
    ["⬆️  Pushing repositories with unpushed commits…"] st.

End GitItCommands.


(** ** github/find_the_archives.py: remote URL parsing *)

Module FindTheArchives.

(** [s[n:]] *)
Fixpoint drop (n : nat) (s : string) : string :=
  match n, s with
  | O, _ => s
  | S k, String _ r => drop k r
  | S _, EmptyString => EmptyString
  end.

(** [s[:n]] *)
Fixpoint take (n : nat) (s : string) : string :=
  match n, s with
  | S k, String c r => String c (take k r)
  | _, _ => EmptyString
  end.

(** [s[:-k]] for a positive [k] *)
Definition drop_last (k : nat) (s : string) : string :=
  take (String.length s - k) s.

(** [s.endswith(suffix)] *)
Fixpoint endswith (s suffix : string) : bool :=
  String.eqb s suffix ||
  match s with
  | EmptyString => false
  | String _ r => endswith r suffix
  end.

(** [s.split(sep, 1)] for a separator of any length that occurs in
    [s]: the text before and after its first occurrence. *)
Fixpoint split_once_str (sep s : string) : option (string * string) :=
  if String.prefix sep s then Some (EmptyString, drop (String.length sep) s)
  else
    match s with
    | EmptyString => None
    | String c r =>
        match split_once_str sep r with
        | Some (a, b) => Some (String c a, b)
        | None => None
        end
    end.

(** [parts.index(x)]; [None] stands for [ValueError]. *)
Fixpoint index (x : string) (parts : list string) : option nat :=
  match parts with
  | [] => None
  | p :: rest =>
      if String.eqb p x then Some O
      else match index x rest with
           | Some i => Some (S i)
           | None => None
           end
  end.

(** The [for prefix in (...)] loop: the first protocol prefix that
    matches is cut off. *)
Fixpoint strip_protocol (prefixes : list string) (remote_url : string)
  : string :=
  match prefixes with
  | [] => remote_url
  | prefix :: rest =>
      if Py.startswith remote_url prefix
      then drop (String.length prefix) remote_url
      else strip_protocol rest remote_url
  end.

Definition parse_github_remote (remote_url : string)
  : option (string * string) :=
  let remote_url := Py.strip remote_url in
  if negb (Py.contains "github.com" remote_url) then None
  else
    let normalized :=
      if Py.contains ":" remote_url
         && Py.startswith remote_url "git@github.com"
      then
        match split_once_str "git@github.com" remote_url with
        | Some (_, after) =>
            "github.com/"
              +:+ Py.lstrip_with (fun c => Ascii.eqb c ":") after
        | None => remote_url
        end
      else
        strip_protocol ["https://"; "http://"; "ssh://"; "git://"]
          remote_url in
    let parts := Py.split "/" normalized in
    match index "github.com" parts with
    | None => None
    | Some idx =>
        if (length parts <? idx + 3)%nat then None
        else
          match parts !! (idx + 1)%nat, parts !! (idx + 2)%nat with
          | Some owner, Some repo =>
              Some (owner,
                    if endswith repo ".git" then drop_last 4 repo else repo)
          | _, _ => None
          end
    end.

(** [run_command]: the standard output, or [None] when the command
    fails ([check=True] turns a non-zero exit into the exception that
    is caught). *)
Definition run_command (world : RunResult) : option string :=
  match world with
  | Ran proc => if returncode proc =? 0 then Some (stdout proc) else None
  | Raised _ => None
  end.

Definition get_repo_remote_owner_name (world : RunResult)
  : option (string * string) :=
  match run_command world with
  | None => None
  | Some stdout => parse_github_remote (Py.strip stdout)
  end.

Definition find_git_repos (listing : list Path) : list Path :=
  filter (fun entry => is_dir entry && is_dir_kind (dot_git entry)) listing.

End FindTheArchives.


(** ** github/find_archives.py: repositories that are not cloned *)

Module FindArchives.

(** [p.name] of a directory entry. *)
Definition dir_name (p : Path) : string := name p.

(** [updated_at] is a timezone-aware [datetime]; such values are
    ordered by the instant they denote, kept here as microseconds since
    the epoch. *)
Record RepoInfo : Type := mkRepoInfo {
  name : string;
  is_fork : bool;
  is_archived : bool;
  updated_at : Z;
  url : string
}.

Definition find_local_dirs (listing : list Path) : gset string :=
  list_to_set (map dir_name (filter (fun p => is_dir p) listing)).

(** The comprehension, then [filtered.sort(key=updated_at, reverse=True)]. *)
Definition compute_uncloned_repos (repos : list RepoInfo)
    (local_dir_names : gset string) : list RepoInfo :=
  let filtered :=
    filter
      (fun r => negb (is_fork r) && negb (is_archived r)
                && negb (bool_decide (name r ∈ local_dir_names)))
      repos in
  Py.sorted updated_at (fun a b => b <=? a) filtered.

End FindArchives.

(** ** github/clean_up_actions.py: deleting pre-commit.ci runs

    The log lines are not part of the model; the calls of [gh] are. *)

Module CleanUpActions.

Definition DRY_RUN : bool := false.

(** [run_gh]: the standard output, or [None] when [gh] is missing or
    exits with an error. *)
Definition run_gh (world : RunResult) : option string :=
  match world with
  | Raised _ => None
  | Ran result =>
      if negb (returncode result =? 0) then None else Some (stdout result)
  end.

(** [for run in runs]: what iterating over a decoded JSON value
    yields.  A dict yields its keys and a string its characters (their
    order plays no role below); the other values are not iterable. *)
Definition iterate (runs : json) : Outcome (list json) :=
  match runs with
  | JArr l => Returns l
  | JObj m => Returns (map (fun kv => JStr (fst kv)) (map_to_list m))
  | JStr s =>
      Returns (map (fun c => JStr (String c EmptyString))
                 (list_ascii_of_string s))
  | _ => Raises "TypeError"
  end.

(** [title.startswith(prefix)]; only a [str] has the method. *)
Definition startswith (title : json) (prefix : string) : Outcome bool :=
  match title with
  | JStr s => Returns (Py.startswith s prefix)
  | _ => Raises "AttributeError"
  end.

(** The loop of [list_precommit_runs]. *)
Fixpoint matching (runs : list json) (matches : list json)
  : Outcome (list json) :=
  match runs with
  | [] => Returns matches
  | run :: rest =>
      raw ← NotMine.get run "displayTitle";
      let title := if NotMine.truthy raw then raw else JStr "" in
      match startswith title "[pre-commit.ci]" with
      | Raises exc => Raises exc
      | Returns hit =>
          if hit then matching rest (matches ++ [run])
          else matching rest matches
      end
  end.

(** [loads] is [json.loads]; [None] stands for [JSONDecodeError]. *)
Definition list_precommit_runs (loads : string -> option json)
    (world : RunResult) : Outcome (list json) :=
  match run_gh world with
  | None => Returns []
  | Some stdout =>
      match loads stdout with
      | None => Returns []
      | Some runs => l ← iterate runs; matching l []
      end
  end.

(** The loop of [process_repo]: the run ids handed to [delete_run],
    which calls [gh run delete] for each of them since [DRY_RUN] is
    off, and the exception that ended the loop, if any. *)
Fixpoint deletions (runs : list json) : list json * option string :=
  match runs with
  | [] => ([], None)
  | run :: rest =>
      match NotMine.get run "databaseId" with
      | Raises exc => ([], Some exc)
      | Returns run_id =>
          let '(more, exc) := deletions rest in
          (match run_id with
           | JNull => more
           | _ => if DRY_RUN then more else run_id :: more
           end, exc)
      end
  end.

Definition process_repo (loads : string -> option json)
    (world : RunResult) : list json * option string :=
  match list_precommit_runs loads world with
  | Raises exc => ([], Some exc)
  | Returns runs => deletions runs
  end.

End CleanUpActions.


(** Whether the working tree is dirty, as far as [git status] tells. *)
Definition uncommitted_fact (world : RunResult) : option bool :=
  match world with
  | Raised _ => None
  | Ran proc =>
      if returncode proc =? 0
      then Some (Py.truthy_str (Py.strip (stdout proc)))
      else None
  end.

(** The number of commits ahead of upstream, as far as [git rev-list]
    tells. *)
Definition ahead_fact (world : RunResult) : option Z :=
  match world with
  | Raised _ => None
  | Ran proc =>
      if returncode proc =? 0 then Py.int (Py.strip (stdout proc)) else None
  end.

(** A URL paired with each repository, as [how_cloned.main] reads them. *)
Definition clone_entries (git : Path -> RunResult) (repos : list Path)
  : list (Path * option string) :=
  map (fun repo => (repo, fst (HowCloned.get_origin_url (git repo) repo)))
    repos.

Definition is_class (c : HowCloned.CloneType)
    (entry : Path * option string) : bool :=
  match HowCloned.classify_clone_type (snd entry), c with
  | HowCloned.ssh, HowCloned.ssh
  | HowCloned.https, HowCloned.https
  | HowCloned.other, HowCloned.other
  | HowCloned.none, HowCloned.none => true
  | _, _ => false
  end.


(** A part of a GitHub URL: no white space, no slash, no colon. *)
Definition url_segment (s : string) : Prop :=
  all_chars
    (fun c => negb (Py.isspace c) && negb (Ascii.eqb c "/")
              && negb (Ascii.eqb c ":")) s = true.

Definition slash_free (s : string) : Prop :=
  all_chars (fun c => negb (Ascii.eqb c "/")) s = true.

(** A workflow run that [list_precommit_runs] keeps: a dict whose
    [displayTitle] is a string starting with the pre-commit.ci tag. *)
Definition precommit_run (run : json) : Prop :=
  exists m title,
    run = JObj m /\ m !! "displayTitle" = Some (JStr title) /\
    Py.startswith title "[pre-commit.ci]" = true.

(** A line of a workflow file that holds the [python-version] key. *)
Definition key_line (line : string) : bool :=
  Py.contains "python-version" line && Py.contains ":" line.

(** The text after the first colon of a line, stripped. *)
Definition inline_value (line : string) : string :=
  match Py.split_once ":" line with
  | Some (_, after) => Py.strip after
  | None => EmptyString
  end.

(** What one directory adds to each list of [cmd_stranded], and to the
    directories [cmd_push] pushes. *)
Definition row_uncommitted (status : Path -> RunResult) (d : Path)
  : list Path :=
  if GitIt.is_git_repo d then
    match uncommitted_fact (status d) with
    | Some true => [d]
    | _ => []
    end
  else [].

Definition row_unpushed (rev_list : Path -> RunResult) (d : Path)
  : list (Path * Z) :=
  if GitIt.is_git_repo d then
    match ahead_fact (rev_list d) with
    | Some n => if 0 <? n then [(d, n)] else []
    | None => []
    end
  else [].

Definition row_clean (status rev_list : Path -> RunResult) (d : Path)
  : list Path :=
  if GitIt.is_git_repo d then
    match uncommitted_fact (status d), ahead_fact (rev_list d) with
    | Some false, Some n => if n =? 0 then [d] else []
    | _, _ => []
    end
  else [].

Definition row_non_git (d : Path) : list Path :=
  if GitIt.is_git_repo d then [] else [d].

Definition row_pushed (rev_list : Path -> RunResult) (d : Path)
  : list Path :=
  if GitIt.is_git_repo d then
    match ahead_fact (rev_list d) with
    | Some n => if n =? 0 then [] else [d]
    | None => []
    end
  else [].

(** A line without line-break characters. *)
Definition no_break (s : string) : Prop :=
  all_chars (fun c => negb (Py.is_linebreak c)) s = true.


(** ** github/not_mine.py: scanning the child directories *)

Module NotMineScan.
Import NotMine.

(** [Raised] is the [OSError] branch. *)
Definition is_git_repo (world : RunResult) : bool :=
  match world with
  | Ran result =>
      (returncode result =? 0)
      && String.eqb (Py.strip (stdout result)) "true"
  | Raised _ => false
  end.

(** [gh_repo_view]: the decoded answer of [gh repo view], or [None],
    and what was printed.  [loads] is [json.loads], raising the
    [JSONDecodeError] whose text it returns; [path] is [str(path)]. *)
Definition gh_repo_view (loads : string -> Outcome json)
    (world : RunResult) (path : string) (entry : Path)
  : option json * list string :=
  match world with
  | Raised _ =>
      (None, ["⚠️  gh command not found when processing " +:+ path])
  | Ran result =>
      if negb (returncode result =? 0) then
        (None,
         ["⚠️  Failed to query GitHub for " +:+ name entry +:+ ": "
            +:+ Py.strip (stderr result)])
      else
        match loads (stdout result) with
        | Raises exc =>
            (None,
             ["⚠️  Failed to parse JSON for " +:+ name entry +:+ ": "
                +:+ exc])
        | Returns data => (Some data, [])
        end
  end.

(** [is_fork_of_other_user(repo_info, username)] on whatever was
    decoded: only a dict has [get]. *)
Definition classify (repo_info : json) (username : string) : Outcome bool :=
  match repo_info with
  | JObj m => is_fork_of_other_user m username
  | _ => Raises "AttributeError"
  end.

(** The loop of [find_forked_repos]: the results, or the exception that
    ended the scan, and what was printed. *)
Fixpoint find_forked_repos (loads : string -> Outcome json)
    (rev_parse gh : Path -> RunResult) (str_of : Path -> string)
    (listing : list Path) (username : string)
    (results : list (Path * json)) (out : list string)
  : Outcome (list (Path * json)) * list string :=
  match listing with
  | [] => (Returns results, out)
  | entry :: rest =>
      if negb (is_dir entry) then
        find_forked_repos loads rev_parse gh str_of rest username results out
      else if negb (is_git_repo (rev_parse entry)) then
        find_forked_repos loads rev_parse gh str_of rest username results out
      else
        let '(repo_info, printed) :=
          gh_repo_view loads (gh entry) (str_of entry) entry in
        let out := out ++ printed in
        match repo_info with
        | None =>
            find_forked_repos loads rev_parse gh str_of rest username
              results out
        | Some info =>
            if negb (truthy info) then
              find_forked_repos loads rev_parse gh str_of rest username
                results out
            else
              match classify info username with
              | Raises exc => (Raises exc, out)
              | Returns true =>
                  find_forked_repos loads rev_parse gh str_of rest username
                    (results ++ [(entry, info)]) out
              | Returns false =>
                  find_forked_repos loads rev_parse gh str_of rest username
                    results out
              end
        end
  end.

End NotMineScan.


(** [str(v)] of a decoded JSON value: a [str] is its own text; [repr]
    gives the text of the other values. *)
Definition str_of (repr : json -> string) (v : json) : string :=
  match v with
  | JStr s => s
  | _ => repr v
  end.

(** ** git_group_actions/git_it.py: the pull and failing commands, [main] *)

Module GitItMain.
Import GitIt GitItCommands.

(** One [git] call of [cmd_pull] and what follows it. *)
Definition pull_step (world : RunResult) (cmd : list string) (d : Path)
    (out : list string) (st : State) : list string * State :=
  let '((code, o, err), st) := run_cmd world cmd d st in
  if negb (code =? 0) then (out, report_error (Some d) cmd code err st)
  else if Py.truthy_str (Py.strip o) then (out ++ [Py.strip o], st)
  else (out, st).

(** The loop of [cmd_pull]. *)
Fixpoint pull_scan (fetch pull : Path -> RunResult) (dirs : list Path)
    (out : list string) (st : State) : list string * State :=
  match dirs with
  | [] => (out, st)
  | d :: rest =>
      if negb (is_git_repo d) then pull_scan fetch pull rest out st
      else
        let out := out ++ ["📥 [" +:+ name d +:+ "] git fetch && git pull"] in
        let '(out, st) :=
          pull_step (fetch d) ["git"; "fetch"; "--all"] d out st in
        let '(out, st) := pull_step (pull d) ["git"; "pull"] d out st in
        pull_scan fetch pull rest out st
  end.

Definition cmd_pull (fetch pull : Path -> RunResult) (listing : list Path)
    (st : State) : list string * State :=
  pull_scan fetch pull (iter_child_dirs listing)
    ["⬇️  Fetching and pulling all repositories…"] st.

Definition run_list_cmd : list string :=
  ["gh"; "run"; "list"; "--limit"; "1"; "--json";
   "status,conclusion,name,headBranch,headSha"].

(** [run = data[0]] for a truthy [data], as far as the [run.get] calls
    that follow let it through: the first element of a list, if it is a
    dict.  A dict has no key [0], a number or [True] has no items, and
    an element or character that is no dict has no [get]. *)
Definition first_run (data : json) : Outcome (gmap string json) :=
  match data with
  | JArr (JObj run :: _) => Returns run
  | JArr (_ :: _) => Raises "AttributeError"
  | JArr [] => Raises "IndexError"
  | JStr (String _ _) => Raises "AttributeError"
  | JStr EmptyString => Raises "IndexError"
  | JObj _ => Raises "KeyError"
  | _ => Raises "TypeError"
  end.

(** [str(run.get(key, ""))] *)
Definition field (repr : json -> string) (run : gmap string json)
    (key : string) : string :=
  str_of repr (default (JStr "") (run !! key)).

(** The loop of [cmd_failing]: [any_reported], or the exception that
    ended the loop; what was printed; the error state.  [loads] is
    [json.loads], raising the [JSONDecodeError] whose text it returns. *)
Fixpoint failing_scan (loads : string -> Outcome json)
    (repr : json -> string) (gh : Path -> RunResult) (dirs : list Path)
    (any_reported : bool) (out : list string) (st : State)
  : Outcome bool * list string * State :=
  match dirs with
  | [] => (Returns any_reported, out, st)
  | d :: rest =>
      if negb (is_git_repo d)
      then failing_scan loads repr gh rest any_reported out st
      else
        let '((code, o, err), st) := run_cmd (gh d) run_list_cmd d st in
        if negb (code =? 0) then
          failing_scan loads repr gh rest any_reported out
            (report_error (Some d) run_list_cmd code err st)
        else
          let text := Py.strip o in
          if negb (Py.truthy_str text)
          then failing_scan loads repr gh rest any_reported out st
          else
            match loads text with
            | Raises exc =>
                failing_scan loads repr gh rest any_reported out
                  (report_error (Some d) run_list_cmd code
                     ("JSON decode error: " +:+ exc) st)
            | Returns data =>
                if negb (NotMine.truthy data)
                then failing_scan loads repr gh rest any_reported out st
                else
                  match first_run data with
                  | Raises exc => (Raises exc, out, st)
                  | Returns run =>
                      let status := field repr run "status" in
                      let conclusion := field repr run "conclusion" in
                      let name_ := field repr run "name" in
                      let branch := field repr run "headBranch" in
                      let sha := field repr run "headSha" in
                      if String.eqb (Py.lower conclusion) "failure" then
                        failing_scan loads repr gh rest true
                          (out ++
                           ["💥 [" +:+ name d
                              +:+ "] Most recent workflow is failing" +:+ nl
                              +:+ "    • Name: " +:+ name_ +:+ nl
                              +:+ "    • Branch: " +:+ branch +:+ nl
                              +:+ "    • SHA: " +:+ sha +:+ nl
                              +:+ "    • Status: " +:+ status +:+ nl
                              +:+ "    • Conclusion: " +:+ conclusion])
                          st
                      else failing_scan loads repr gh rest any_reported out st
                  end
            end
  end.

Definition cmd_failing (loads : string -> Outcome json)
    (repr : json -> string) (gh : Path -> RunResult) (listing : list Path)
    (st : State) : Outcome unit * list string * State :=
  let '(r, out, st) :=
    failing_scan loads repr gh (iter_child_dirs listing) false
      ["🧪 Checking GitHub Actions for failing workflows…"] st in
  match r with
  | Raises exc => (Raises exc, out, st)
  | Returns any_reported =>
      (Returns tt,
       if negb any_reported
       then out ++ ["✅ No failing workflows detected (based on most recent runs)."]
       else out,
       st)
  end.

(** The [choices] of the [command] argument. *)
Inductive Command : Type :=
  | stranded | stranded_commits | pull | push | failing.

(** What [git] and [gh] answer in each child directory. *)
Record Tools : Type := mkTools {
  git_status : Path -> RunResult;
  git_rev_list : Path -> RunResult;
  git_fetch : Path -> RunResult;
  git_pull : Path -> RunResult;
  git_push : Path -> RunResult;
  gh_run_list : Path -> RunResult
}.

(** [main]: standard output, the error state (with standard error) and
    the exit status.  An exception that leaves [cmd_failing] ends the
    run with status 1. *)
Definition main (loads : string -> Outcome json) (repr : json -> string)
    (tools : Tools) (listing : list Path) (command : Command)
    (verbose : bool) : list string * State * Z :=
  let '(r, out, st) :=
    match command with
    | stranded | stranded_commits =>
        let '(out, st) :=
          cmd_stranded (git_status tools) (git_rev_list tools) listing
            verbose initial in
        (Returns tt, out, st)
    | pull =>
        let '(out, st) :=
          cmd_pull (git_fetch tools) (git_pull tools) listing initial in
        (Returns tt, out, st)
    | push =>
        let '(_, out, st) :=
          cmd_push (git_rev_list tools) (git_push tools) listing initial in
        (Returns tt, out, st)
    | failing => cmd_failing loads repr (gh_run_list tools) listing initial
    end in
  match r with
  | Raises _ => (out, st, 1)
  | Returns _ =>
      if HAD_ERRORS st then
        (out,
         mkState true
           (err_lines st
            ++ ["⚠️  Completed with errors. See stderr for details." +:+ nl]),
         1)
      else (out ++ ["✅ Completed successfully."], st, 0)
  end.

End GitItMain.
(** ** github/gha_wrong_python.py: the workflow files of each repository *)

Module GhaMain.
Import GhaWrongPython.

Definition is_git_repo (result : Completed) : bool :=
  (returncode result =? 0) && String.eqb (Py.strip (stdout result)) "true".

(** A file found by [workflows_dir.rglob(pattern)]: [str(wf)],
    [str(wf.relative_to(repo_path))] and what [read_text] gives
    ([None] is [OSError]). *)
Record Workflow : Type := mkWorkflow {
  wf_path : string;
  wf_rel : string;
  wf_text : option string
}.

Definition find_legacy_python_versions_in_file (wf : Workflow)
  : gset string :=
  match wf_text wf with
  | None => ∅
  | Some text => find_legacy_python_versions_in_text text
  end.

(** The two [for] loops over the patterns and the files they match. *)
Definition matching_files (files : list Workflow)
  : list (Workflow * gset string) :=
  flat_map
    (fun wf =>
       let legacy_versions := find_legacy_python_versions_in_file wf in
       if bool_decide (legacy_versions = ∅) then []
       else [(wf, legacy_versions)])
    files.

(** [results[entry] = value] on a dict kept in insertion order; two
    paths are the same key when they are the same path. *)
Fixpoint dict_set {A : Type} (entry : Path) (value : A)
    (results : list (Path * A)) : list (Path * A) :=
  match results with
  | [] => [(entry, value)]
  | (k, v) :: rest =>
      if String.eqb (full_path k) (full_path entry)
      then (k, value) :: rest
      else (k, v) :: dict_set entry value rest
  end.

(** [workflows entry] is [None] when [entry/.github/workflows] is not a
    directory, and otherwise what [rglob] finds there for ["*.yml"] and
    for ["*.yaml"]. *)
Fixpoint scan (rev_parse : Path -> Completed)
    (workflows : Path -> option (list Workflow * list Workflow))
    (listing : list Path)
    (results : list (Path * list (Workflow * gset string)))
  : list (Path * list (Workflow * gset string)) :=
  match listing with
  | [] => results
  | entry :: rest =>
      if negb (is_dir entry) then scan rev_parse workflows rest results
      else if negb (is_git_repo (rev_parse entry))
      then scan rev_parse workflows rest results
      else
        match workflows entry with
        | None => scan rev_parse workflows rest results
        | Some (yml, yaml) =>
            match matching_files (yml ++ yaml) with
            | [] => scan rev_parse workflows rest results
            | files =>
                scan rev_parse workflows rest (dict_set entry files results)
            end
        end
  end.

Definition find_repos_with_legacy_actions (rev_parse : Path -> Completed)
    (workflows : Path -> option (list Workflow * list Workflow))
    (listing : list Path) : list (Path * list (Workflow * gset string)) :=
  scan rev_parse workflows listing [].

(** ['.'.join(map(str, PYTHON_VERSION_THRESHOLD))] *)
Definition threshold_text : string :=
  let '(major, minor, patch) := PYTHON_VERSION_THRESHOLD in
  Py.str_Z major +:+ "." +:+ Py.str_Z minor +:+ "." +:+ Py.str_Z patch.

(** What [main] prints for one repository of the report. *)
Definition report_repo (item : Path * list (Workflow * gset string))
  : list string :=
  let '(repo_path, files) := item in
  ["📁 " +:+ name repo_path]
  ++ flat_map
       (fun '(wf, versions) =>
          if negb (Py.contains "tox" (wf_path wf)) then
            ["   ├─ " +:+ wf_rel wf +:+ " ⚠️ python-version(s): "
               +:+ String.concat ", "
                     (Py.sorted (fun v => v) String.leb (elements versions))]
          else [])
       files
  ++ [""].

Definition main (root : string) (rev_parse : Path -> Completed)
    (workflows : Path -> option (list Workflow * list Workflow))
    (listing : list Path) : list string :=
  let head :=
    ["🔍 Scanning GitHub Actions workflows under repos in: " +:+ root;
     "   Threshold: python-version < " +:+ threshold_text +:+ nl] in
  match find_repos_with_legacy_actions rev_parse workflows listing with
  | [] =>
      head ++ ["✅ No workflows found using python-version below 3.14. 🐍"]
  | repos =>
      let total_files :=
        fold_left (fun n item => (n + length (snd item))%nat) repos 0%nat in
      head
      ++ flat_map report_repo
           (Py.sorted (fun item => Py.lower (name (fst item))) String.leb
              repos)
      ++ ["📊 Summary: " +:+ Py.str_nat (length repos) +:+ " repos, "
            +:+ Py.str_nat total_files
            +:+ " workflow file(s) using python-version < 3.14 🧮"]
  end.

End GhaMain.
(** ** github/not_mine.py: the report *)

Module NotMineMain.
Import NotMine NotMineScan.

(** [parent.get("nameWithOwner") or (f"{...}/{...}" if parent_owner or
    parent else "unknown")] *)
Definition parent_full_name (repr : json -> string)
    (parent parent_owner : json) : Outcome json :=
  name_with_owner ← get parent "nameWithOwner";
  if truthy name_with_owner then Returns name_with_owner
  else if truthy parent_owner || truthy parent then
    login ← get_default parent_owner "login" (JStr "?");
    parent_name ← get_default parent "name" (JStr "?");
    Returns (JStr (str_of repr login +:+ "/" +:+ str_of repr parent_name))
  else Returns (JStr "unknown").

(** The body of the [for path, info in forked_repos] loop: the four
    lines it prints, or the exception it raises before printing. *)
Definition report_fork (repr : json -> string) (path : Path) (info : json)
  : Outcome (list string) :=
  name_ ← get_default info "name" (JStr (name path));
  owner_raw ← get info "owner";
  let owner := or_empty_dict owner_raw in
  parent_raw ← get info "parent";
  let parent := or_empty_dict parent_raw in
  parent_owner_raw ← get parent "owner";
  let parent_owner := or_empty_dict parent_owner_raw in
  owner_login ← get_default owner "login" (JStr "?");
  full_name ← parent_full_name repr parent parent_owner;
  Returns
    ["📁 " +:+ name path;
     "   ├─ Repo: " +:+ str_of repr owner_login +:+ "/" +:+ str_of repr name_;
     "   └─ Forked from: " +:+ str_of repr full_name;
     ""].

Fixpoint report (repr : json -> string) (forked_repos : list (Path * json))
    (out : list string) : Outcome unit * list string :=
  match forked_repos with
  | [] => (Returns tt, out)
  | (path, info) :: rest =>
      match report_fork repr path info with
      | Raises exc => (Raises exc, out)
      | Returns lines => report repr rest (out ++ lines)
      end
  end.

(** [root] is [str(Path.cwd())]. *)
Definition main (root : string) (loads : string -> Outcome json)
    (repr : json -> string) (rev_parse gh : Path -> RunResult)
    (listing : list Path) : Outcome unit * list string :=
  let out := ["🔍 Scanning for forked repos in: " +:+ root] in
  let '(r, out) :=
    find_forked_repos loads rev_parse gh full_path listing GITHUB_USERNAME
      [] out in
  match r with
  | Raises exc => (Raises exc, out)
  | Returns [] =>
      (Returns tt,
       out ++ ["✅ No forks of other users' repos found (owned by you)."])
  | Returns forked_repos =>
      let '(r, out) :=
        report repr forked_repos
          (out ++ [nl +:+ "🍴 Forked repositories of other users (owned by you):"
                     +:+ nl]) in
      match r with
      | Raises exc => (Raises exc, out)
      | Returns _ =>
          (Returns tt,
           out ++ ["📊 Total forked repos of others: "
                     +:+ Py.str_nat (length forked_repos)])
      end
  end.

End NotMineMain.

(** ** github/not_cloned.py *)

Module NotCloned.

(** [p.name] of a directory entry. *)
Definition dir_name (p : Path) : string := name p.

(** [updated_at] is a timezone-aware [datetime], kept as the instant it
    denotes. *)
Record Repo : Type := mkRepo {
  name : string;
  html_url : string;
  updated_at : Z;
  fork : bool;
  archived : bool
}.

(** [run_gh_repos(username)] by what becomes of the call of [gh api]:
    [gh] is not on the path; it exits with an error; a line of its
    output makes [json.loads] or [Repo.from_dict] raise; or every line
    is decoded. *)
Inductive GhRepos : Type :=
  | NotFound
  | Failed (returncode : Z) (stderr : string)
  | Undecodable (exc : string)
  | Decoded (repos : list Repo).

Definition get_local_repo_names (listing : list Path) : gset string :=
  list_to_set (map dir_name (filter (fun p => is_dir p) listing)).

Definition filter_missing_repos (repos : list Repo)
    (local_names : gset string) : list Repo :=
  filter
    (fun repo => negb (fork repo) && negb (archived repo)
                 && negb (bool_decide (name repo ∈ local_names)))
    repos.

(** [main]: the lines printed to standard output and to standard error,
    and the exit status.  [target_dir] is [str(target_dir)], [listing]
    is [target_dir.iterdir()], which raises when the target is not a
    directory, and [isoformat] is [datetime.isoformat]. *)
Definition main (isoformat : Z -> string) (username target_dir : string)
    (target_exists : bool) (gh : GhRepos) (listing : Outcome (list Path))
  : list string * list string * Z :=
  if negb target_exists then
    ([], ["âŒ Target directory does not exist: " +:+ target_dir], 1)
  else
    let out :=
      ["ğŸ›°  Scanning GitHub account: " +:+ username;
       "ğŸ“‚ Local folder: " +:+ target_dir;
       "â³ Fetching repositories via `gh api`..." +:+ nl] in
    match gh with
    | NotFound =>
        (out, ["âŒ `gh` CLI not found on PATH. Install GitHub CLI and try again."], 1)
    | Failed returncode stderr =>
        (out,
         "âŒ Failed to query GitHub via `gh api`." :: (if Py.truthy_str stderr then [stderr] else []),
         returncode)
    | Undecodable _ => (out, [], 1)
    | Decoded repos =>
        match listing with
        | Raises _ => (out, [], 1)
        | Returns listing =>
            let missing :=
              Py.sorted updated_at (fun a b => b <=? a)
                (filter_missing_repos repos (get_local_repo_names listing)) in
            match missing with
            | [] => (out ++ ["âœ… All non-fork, non-archived repos appear to be cloned here."], [], 0)
            | _ =>
                (out
                 ++ ["ğŸš¨ Repositories NOT cloned into this folder (sorted by last update):" +:+ nl]
                 ++ map (fun repo =>
                           "ğŸ“ " +:+ name repo
                             +:+ "  |  ğŸ•’ " +:+ isoformat (updated_at repo)
                             +:+ "  |  ğŸ”— " +:+ html_url repo)
                      missing,
                 [], 0)
            end
        end
    end.

End NotCloned.

(** ** github/find_archives.py: the report *)

Module FindArchivesMain.
Import FindArchives.

Definition format_repo_line (isoformat : Z -> string) (repo : RepoInfo)
  : string :=
  "📦 " +:+ name repo +:+ "  ⏱ " +:+ isoformat (updated_at repo)
    +:+ "  🔗 " +:+ url repo.

(** [main]: whether it returned, and the lines printed.  [root] is
    [str(root)], [listing] is [root.iterdir()], which raises when the
    root is not a directory, and [gh] is what [run_gh_repo_list(user)]
    returns or raises. *)
Definition main (isoformat : Z -> string) (root user : string)
    (listing : Outcome (list Path)) (gh : Outcome (list RepoInfo))
  : Outcome unit * list string :=
  let out := ["🔍 Scanning local path: " +:+ root] in
  match listing with
  | Raises exc => (Raises exc, out)
  | Returns listing =>
      let local_dirs := find_local_dirs listing in
      let out := out ++ ["🌐 Querying GitHub user: " +:+ user] in
      match gh with
      | Raises exc => (Raises exc, out)
      | Returns repos =>
          match compute_uncloned_repos repos local_dirs with
          | [] =>
              (Returns tt,
               out ++ ["✅ All non-fork, non-archived repos appear to be cloned here."])
          | uncloned =>
              (Returns tt,
               out
               ++ [nl +:+ "📋 Repos NOT cloned in this directory (sorted by last update):"
                     +:+ nl]
               ++ map (format_repo_line isoformat) uncloned)
          end
      end
  end.

End FindArchivesMain.

(** ** github/find_the_archives.py: the archived clones and the report *)

Module FindTheArchivesMain.
Import FindTheArchives.

(** [p.name] of a directory entry. *)
Definition dir_name (p : Path) : string := name p.

Record ArchivedClone : Type := mkArchivedClone {
  path : Path;
  owner : string;
  name : string;
  updated_at : Z
}.

(** [remote] is what [git remote get-url origin] answers and [query] is
    [query_github_repo]: [None], or whether the repository is archived
    and when it was last updated, or the exception it lets through. *)
Definition inspect_repo_for_archived_clone (remote : RunResult)
    (query : string -> string -> Outcome (option (bool * Z)))
    (repo_path : Path) (focus_owner : option string)
  : Outcome (option ArchivedClone) :=
  match get_repo_remote_owner_name remote with
  | None => Returns None
  | Some (owner, name) =>
      if match focus_owner with
         | Some focus =>
             negb (String.eqb (Py.lower owner) (Py.lower focus))
         | None => false
         end
      then Returns None
      else
        gh_info ← query owner name;
        match gh_info with
        | None => Returns None
        | Some (is_archived, updated_at) =>
            if negb is_archived then Returns None
            else Returns (Some (mkArchivedClone repo_path owner name
                                  updated_at))
        end
  end.

(** The loop of [find_archived_clones]. *)
Fixpoint inspect_all (remote : Path -> RunResult)
    (query : string -> string -> Outcome (option (bool * Z)))
    (repos : list Path) (focus_owner : option string)
    (archived : list ArchivedClone) : Outcome (list ArchivedClone) :=
  match repos with
  | [] => Returns archived
  | repo_path :: rest =>
      result ←
        inspect_repo_for_archived_clone (remote repo_path) query repo_path
          focus_owner;
      match result with
      | Some clone =>
          inspect_all remote query rest focus_owner (archived ++ [clone])
      | None => inspect_all remote query rest focus_owner archived
      end
  end.

Definition find_archived_clones (remote : Path -> RunResult)
    (query : string -> string -> Outcome (option (bool * Z)))
    (listing : list Path) (focus_owner : option string)
  : Outcome (list ArchivedClone) :=
  inspect_all remote query (find_git_repos listing) focus_owner [].

(** [item.path.relative_to(root)] of a child of the root is its name. *)
Definition print_report (isoformat : Z -> string)
    (archived : list ArchivedClone) : list string :=
  match Py.sorted updated_at (fun a b => b <=? a) archived with
  | [] => ["âœ… No local clones of archived GitHub repositories were found."]
  | archived_list =>
      "ðŸ§Š Archived GitHub clones found (sorted by last update):"
      :: map (fun item =>
                "  ðŸ§Š " +:+ owner item +:+ "/" +:+ name item +:+ " "
                  +:+ "ðŸ“ " +:+ dir_name (path item) +:+ " "
                  +:+ "ðŸ•’ updated " +:+ isoformat (updated_at item))
           archived_list
  end.

(** [main]: whether it returned, and the lines printed ([logging]
    writes to standard error).  [listing] is [root.iterdir()], which
    raises when the root is not a directory. *)
Definition main (isoformat : Z -> string) (remote : Path -> RunResult)
    (query : string -> string -> Outcome (option (bool * Z)))
    (listing : Outcome (list Path)) (owner : string)
  : Outcome unit * list string :=
  match listing with
  | Raises exc => (Raises exc, [])
  | Returns listing =>
      match find_archived_clones remote query listing (Some owner) with
      | Raises exc => (Raises exc, [])
      | Returns archived => (Returns tt, print_report isoformat archived)
      end
  end.

End FindTheArchivesMain.

(** ** pypi_tools/py314_support.py: the report *)

Module Py314Main.
Import Py314Support.

Section Packaging.

Context {V : Type}.
Variable Version : string -> option V.
Variable version_leb : V -> V -> bool.
Variable Version_0_0 : V.
Variable contains_prereleases : string -> string -> option bool.
Variable get_project : string -> ProjectResponse.
Variable get_release : string -> string -> ReleaseResponse.

(** [projects] is what [list_user_projects(username)] returns or
    raises; [executor.map] keeps the order of the projects. *)
Definition main (username : string) (projects : Outcome (list string))
  : list string :=
  match projects with
  | Raises e =>
      ["ERROR: Could not enumerate projects via XML-RPC. This endpoint is rate-limited/unsupported and may be removed.";
       "Detail: " +:+ e;
       "Pivot options: libraries.io or pypi.rs (PyPIrs) APIs."]
  | Returns [] => ["No projects found for user: " +:+ username]
  | Returns projects =>
      let results :=
        Py.sorted (fun r => Py.lower (name r)) String.leb
          (map (check_project Version version_leb Version_0_0
                  contains_prereleases get_project get_release)
             projects) in
      let ok := filter (fun r => supported r) results in
      let no := filter (fun r => negb (supported r)) results in
      ["# PyPI projects owned by '" +:+ username
         +:+ "' that declare support for Python " +:+ PY_VERSION_STR;
       "";
       "## Supported"]
      ++ match ok with
         | [] => ["- (none)"]
         | _ =>
             map (fun r =>
                    "- " +:+ name r +:+ ": " +:+ default "None" (version r)
                      +:+ "  (" +:+ reason r +:+ ")")
               ok
         end
      ++ [""; "## Not supported (no 3.14 classifier or compatible requires_python found)"]
      ++ match no with
         | [] => ["- (none)"]
         | _ => map (fun r => "- " +:+ name r) no
         end
  end.

End Packaging.

End Py314Main.

(** ** github/clean_up_actions.py: the log *)

Module CleanUpLog.
Import CleanUpActions.

(** The levels that the [INFO] threshold lets through. *)
Inductive Level : Type := INFO | WARNING | ERROR.

(** A log record: its level and its message. *)
Definition LogRecord : Type := Level * string.

(** [Raised] is the [FileNotFoundError] branch. *)
Definition is_git_repo (rev_parse : RunResult) (path : Path)
  : bool * list LogRecord :=
  if exists_ (dot_git path) then (true, [])
  else
    match rev_parse with
    | Ran result =>
        ((returncode result =? 0)
         && String.eqb (Py.strip (stdout result)) "true", [])
    | Raised _ => (false, [(ERROR, "❌ git not found on PATH.")])
    end.

Definition run_gh (world : RunResult) (cwd : Path)
  : option string * list LogRecord :=
  match world with
  | Raised _ => (None, [(ERROR, "❌ gh CLI not found on PATH.")])
  | Ran result =>
      if negb (returncode result =? 0) then
        (None,
         [(ERROR, "⚠️ gh command failed in " +:+ full_path cwd +:+ ": "
                    +:+ Py.strip (stderr result))])
      else (Some (stdout result), [])
  end.

(** [loads] is [json.loads], raising the [JSONDecodeError] whose text
    it returns. *)
Definition list_precommit_runs (loads : string -> Outcome json)
    (world : RunResult) (repo_path : Path)
  : Outcome (list json) * list LogRecord :=
  let '(stdout, log) := run_gh world repo_path in
  match stdout with
  | None => (Returns [], log)
  | Some stdout =>
      match loads stdout with
      | Raises e =>
          (Returns [],
           log ++ [(ERROR, "⚠️ Failed to parse JSON from gh in "
                             +:+ full_path repo_path +:+ ": " +:+ e)])
      | Returns runs => (l ← iterate runs; matching l [], log)
      end
  end.

(** [delete_run] with [DRY_RUN] as it is set; [gh_delete] is what
    [gh run delete <id>] answers. *)
Definition delete_run (repr : json -> string) (gh_delete : json -> RunResult)
    (repo_path : Path) (run_id title : json) : list LogRecord :=
  if DRY_RUN then
    [(INFO, "🧪 DRY RUN: would delete run " +:+ str_of repr run_id +:+ " ("
              +:+ str_of repr title +:+ ") in " +:+ full_path repo_path)]
  else
    let '(stdout, log) := run_gh (gh_delete run_id) repo_path in
    match stdout with
    | Some _ =>
        log ++ [(INFO, "🗑️ Deleted run " +:+ str_of repr run_id +:+ " ("
                         +:+ str_of repr title +:+ ") in "
                         +:+ full_path repo_path)]
    | None => log
    end.

(** The [for run in runs] loop of [process_repo]; [repr] is Python's
    [repr]. *)
Fixpoint process_runs (repr : json -> string)
    (gh_delete : json -> RunResult) (repo_path : Path) (runs : list json)
    (log : list LogRecord) : Outcome unit * list LogRecord :=
  match runs with
  | [] => (Returns tt, log)
  | run :: rest =>
      match
        (run_id ← NotMine.get run "databaseId";
         title ← NotMine.get_default run "displayTitle" (JStr "<no title>");
         status ← NotMine.get run "status";
         conclusion ← NotMine.get run "conclusion";
         workflow_name ← NotMine.get run "workflowName";
         Returns (run_id, title, status, conclusion, workflow_name))
      with
      | Raises exc => (Raises exc, log)
      | Returns (run_id, title, status, conclusion, workflow_name) =>
          let log :=
            log ++ [(INFO, "➡️  Run " +:+ str_of repr run_id
                             +:+ " | title=" +:+ repr title
                             +:+ " | workflow=" +:+ repr workflow_name
                             +:+ " | status=" +:+ str_of repr status
                             +:+ " | conclusion=" +:+ str_of repr conclusion)] in
          match run_id with
          | JNull =>
              process_runs repr gh_delete repo_path rest
                (log ++ [(WARNING,
                          "⚠️ Skipping run with missing databaseId in "
                            +:+ full_path repo_path)])
          | _ =>
              process_runs repr gh_delete repo_path rest
                (log ++ delete_run repr gh_delete repo_path run_id title)
          end
      end
  end.

Definition process_repo (loads : string -> Outcome json)
    (repr : json -> string) (gh_list : RunResult)
    (gh_delete : json -> RunResult) (repo_path : Path)
  : Outcome unit * list LogRecord :=
  let log := [(INFO, "📦 Scanning repo: " +:+ full_path repo_path)] in
  let '(runs, listed) := list_precommit_runs loads gh_list repo_path in
  let log := log ++ listed in
  match runs with
  | Raises exc => (Raises exc, log)
  | Returns [] =>
      (Returns tt,
       log ++ [(INFO, "✅ No [pre-commit.ci] runs found in "
                        +:+ full_path repo_path)])
  | Returns runs =>
      process_runs repr gh_delete repo_path runs
        (log ++ [(INFO, "🔎 Found " +:+ Py.str_nat (length runs)
                          +:+ " [pre-commit.ci] runs in "
                          +:+ full_path repo_path)])
  end.

(** The loop of [main] over the sorted entries. *)
Fixpoint scan (loads : string -> Outcome json) (repr : json -> string)
    (rev_parse gh_list : Path -> RunResult)
    (gh_delete : Path -> json -> RunResult) (entries : list Path)
    (log : list LogRecord) : Outcome unit * list LogRecord :=
  match entries with
  | [] => (Returns tt, log)
  | entry :: rest =>
      if negb (is_dir entry)
      then scan loads repr rev_parse gh_list gh_delete rest log
      else if Py.startswith (name entry) "."
      then scan loads repr rev_parse gh_list gh_delete rest log
      else
        let '(is_repo, probed) := is_git_repo (rev_parse entry) entry in
        let log := log ++ probed in
        if is_repo then
          let '(r, processed) :=
            process_repo loads repr (gh_list entry) (gh_delete entry) entry in
          let log := log ++ processed in
          match r with
          | Raises exc => (Raises exc, log)
          | Returns _ =>
              scan loads repr rev_parse gh_list gh_delete rest log
          end
        else scan loads repr rev_parse gh_list gh_delete rest log
  end.

(** [main]: whether it returned, and the log.  [base] is [str(base)];
    [sorted(base.iterdir())] orders the children of one directory by
    their names. *)
Definition main (base : string) (loads : string -> Outcome json)
    (repr : json -> string) (rev_parse gh_list : Path -> RunResult)
    (gh_delete : Path -> json -> RunResult) (listing : list Path)
  : Outcome unit * list LogRecord :=
  let log :=
    [(INFO, "🚀 Starting pre-commit.ci cleanup in " +:+ base
              +:+ " (DRY_RUN=" +:+ (if DRY_RUN then "True" else "False")
              +:+ ")")] in
  let '(r, log) :=
    scan loads repr rev_parse gh_list gh_delete
      (Py.sorted (fun p => name p) String.leb listing) log in
  match r with
  | Raises exc => (Raises exc, log)
  | Returns _ => (Returns tt, log ++ [(INFO, "🏁 Done.")])
  end.

End CleanUpLog.

(** ** The exit status of a script *)

(** [if __name__ == "__main__": main()]: the interpreter exits with
    status 0 once [main] has returned, and with status 1 when an
    exception leaves it. *)
Definition exit_status {A : Type} (run : Outcome A) : Z :=
  match run with
  | Returns _ => 0
  | Raises _ => 1
  end.

(** A [main] that always returns, run as a script: what it printed and
    the exit status. *)
Definition script (printed : list string) : list string * Z :=
  (printed, exit_status (Returns printed)).

(** The most recent workflow run that [gh run list] reports in a
    repository is no failure: [gh] succeeded, and it printed nothing,
    or what it printed decodes to a false value or to a list whose
    first element is a dict with a conclusion other than (any
    capitalisation of) "failure". *)
Definition no_failing_run (loads : string -> Outcome json)
    (repr : json -> string) (world : RunResult) : Prop :=
  exists proc,
    world = Ran proc /\ returncode proc = 0 /\
    (Py.strip (stdout proc) = "" \/
     exists data,
       loads (Py.strip (stdout proc)) = Returns data /\
       (~ json_true data \/
        exists run rest,
          data = JArr (JObj run :: rest) /\
          Py.lower (str_of repr (default (JStr "") (run !! "conclusion")))
          <> "failure")).

(** A child directory that [clean_up_actions.main] hands to
    [process_repo]: a directory whose name does not start with a dot
    and that is a git repository. *)
Definition cleaned_up (rev_parse : Path -> RunResult) (entry : Path) : Prop :=
  is_dir entry = true /\ Py.startswith (name entry) "." = false /\
  fst (CleanUpLog.is_git_repo (rev_parse entry) entry) = true.

(** The first character of a line, if it has one. *)
Definition first_char (s : string) : option ascii :=
  match s with String c _ => Some c | EmptyString => None end.

(** ** Facts about the text primitives *)

Section TextFacts.

Lemma is_empty_true (s : string) : Py.is_empty s = true -> s = EmptyString.
Proof. destruct s; [reflexivity | discriminate]. Qed.

Lemma lstrip_with_idem p s :
  Py.lstrip_with p (Py.lstrip_with p s) = Py.lstrip_with p s.
Proof.
  induction s as [|c r IH]; simpl; [reflexivity|].
  destruct (p c) eqn:E; [exact IH|]. simpl. now rewrite E.
Qed.

Lemma rstrip_with_idem p s :
  Py.rstrip_with p (Py.rstrip_with p s) = Py.rstrip_with p s.
Proof.
  induction s as [|c r IH]; simpl; [reflexivity|].
  destruct (p c && Py.is_empty (Py.rstrip_with p r)) eqn:E;
    [reflexivity|].
  simpl. rewrite IH, E. reflexivity.
Qed.

Lemma strip_with_comm p s :
  Py.rstrip_with p (Py.lstrip_with p s)
  = Py.lstrip_with p (Py.rstrip_with p s).
Proof.
  induction s as [|c r IH]; simpl; [reflexivity|].
  destruct (p c) eqn:E; simpl.
  - destruct (Py.is_empty (Py.rstrip_with p r)) eqn:E'.
    + rewrite IH. apply is_empty_true in E'. now rewrite E'.
    + simpl. now rewrite E.
  - now rewrite E.
Qed.

Lemma strip_idem s : Py.strip (Py.strip s) = Py.strip s.
Proof.
  unfold Py.strip, Py.lstrip, Py.rstrip.
  now rewrite strip_with_comm, lstrip_with_idem, rstrip_with_idem.
Qed.

(** Text without a character to strip is left as it is. *)
Lemma rstrip_with_none p s :
  all_chars (fun c => negb (p c)) s = true -> Py.rstrip_with p s = s.
Proof.
  induction s as [|c r IH]; simpl; [reflexivity|].
  intros [Hc Hr]%andb_prop. rewrite (IH Hr).
  apply negb_true_iff in Hc. now rewrite Hc.
Qed.

Lemma lstrip_with_none p s :
  all_chars (fun c => negb (p c)) s = true -> Py.lstrip_with p s = s.
Proof.
  destruct s as [|c r]; simpl; [reflexivity|].
  intros [Hc _]%andb_prop. apply negb_true_iff in Hc. now rewrite Hc.
Qed.

Lemma strip_none s :
  all_chars (fun c => negb (Py.isspace c)) s = true -> Py.strip s = s.
Proof.
  intros H. unfold Py.strip, Py.lstrip, Py.rstrip.
  now rewrite rstrip_with_none, lstrip_with_none.
Qed.

Lemma all_chars_impl (p q : ascii -> bool) s :
  (forall c, p c = true -> q c = true) ->
  all_chars p s = true -> all_chars q s = true.
Proof.
  intros Hpq. induction s as [|c r IH]; simpl; [reflexivity|].
  intros [Hc Hr]%andb_prop. now rewrite (Hpq _ Hc), IH.
Qed.

Lemma all_chars_app p s t :
  all_chars p (s +:+ t) = all_chars p s && all_chars p t.
Proof.
  induction s as [|c r IH]; simpl; [reflexivity|].
  now rewrite IH, andb_assoc.
Qed.

Lemma digit_val_Some c d :
  Py.digit_val c = Some d -> Py.isdigit c = true /\ d = (Py.ord c - 48)%N.
Proof.
  unfold Py.digit_val. destruct (Py.isdigit c); [|discriminate].
  intros [= <-]. split; reflexivity.
Qed.

Lemma digit_val_zero c : Py.digit_val c = Some 0%N -> c = "0"%char.
Proof.
  intros [Hd Hz]%digit_val_Some.
  unfold Py.isdigit, Py.between in Hd.
  apply andb_prop in Hd as [Hlo Hhi].
  apply N.leb_le in Hlo, Hhi.
  rewrite <- (ascii_N_embedding c). unfold Py.ord in *.
  replace (N_of_ascii c) with 48%N by lia. reflexivity.
Qed.

Lemma parse_digits_zero s : forall acc after,
  Py.parse_digits acc after s = Some 0%N ->
  acc = 0%N /\
  all_chars (fun c => Ascii.eqb c "0" || Ascii.eqb c "_") s = true.
Proof.
  induction s as [|c r IH]; simpl; intros acc after H.
  - destruct after; [|discriminate]. now injection H as ->.
  - destruct (Py.digit_val c) as [d|] eqn:Ed.
    + apply IH in H as [Hacc Hr].
      assert (d = 0%N) by lia. subst d.
      apply digit_val_zero in Ed. subst c.
      split; [lia|]. now rewrite Hr.
    + destruct (Ascii.eqb c "_" && after) eqn:Eu; [|discriminate].
      apply andb_prop in Eu as [Eu _].
      apply IH in H as [Hacc Hr].
      split; [assumption|]. now rewrite Eu, Hr, orb_true_r.
Qed.

(** [int] gives 0 on zero literals only. *)
Lemma int_zero s : Py.int s = Some 0 -> zero_literal (Py.strip s) = true.
Proof.
  unfold Py.int, zero_literal.
  destruct (Py.strip s) as [|c r]; [discriminate|].
  destruct (Ascii.eqb c "+") eqn:Ep; cbv beta iota.
  - destruct (Py.parse_digits 0 false r) as [n|] eqn:E; [|discriminate].
    intros [= Hn]. assert (n = 0%N) by lia. subst n.
    now apply parse_digits_zero in E as [_ ->].
  - destruct (Ascii.eqb c "-") eqn:Em; cbv beta iota.
    + destruct (Py.parse_digits 0 false r) as [n|] eqn:E; [|discriminate].
      intros [= Hn]. assert (n = 0%N) by lia. subst n.
      now apply parse_digits_zero in E as [_ ->].
    + destruct (Py.parse_digits 0 false (String c r)) as [n|] eqn:E;
        [|discriminate].
      intros [= Hn]. assert (n = 0%N) by lia. subst n.
      now apply parse_digits_zero in E as [_ E].
Qed.

End TextFacts.

(** ** Git fact collectors (git_it.py, abandoned_repo.py) *)

Module GitFacts.

Lemma run_cmd_Ran proc args cwd st :
  GitIt.run_cmd (Ran proc) args cwd st
  = ((returncode proc, stdout proc, stderr proc), st).
Proof. reflexivity. Qed.

(** C1, as stated, fails on the commit counter: a failed
    [git rev-list --count HEAD] (exit status 128) is reported as the
    integer 0, which is also what a repository answers whose count is
    known to be zero. *)
Lemma commit_count_failure_is_zero :
  let failure := mkCompleted 128 "" "fatal: bad revision 'HEAD'" in
  returncode failure <> 0 /\
  AbandonedRepo.get_commit_count failure = 0 /\
  AbandonedRepo.get_commit_count (mkCompleted 0 ("0" +:+ nl) "") = 0.
Proof. repeat split. discriminate. Qed.

(** C1 (amended): the ahead-of-upstream collector answers [None], and
    raises the error flag, whenever the command fails or prints
    something that is not an integer; it answers 0 only when the
    command succeeded and the stripped output is a zero literal.  The
    commit counter has no sentinel: on the same failures it answers 0,
    as its docstring says. *)
Theorem git_fact_sentinels :
  (forall world path st,
      failed world ->
      fst (GitIt.get_unpushed_commit_count world path st) = None /\
      GitIt.HAD_ERRORS
        (snd (GitIt.get_unpushed_commit_count world path st)) = true) /\
  (forall world path st,
      fst (GitIt.get_unpushed_commit_count world path st) = Some 0 ->
      exists proc,
        world = Ran proc /\ returncode proc = 0 /\
        zero_literal (Py.strip (stdout proc)) = true) /\
  (forall result,
      failed (Ran result) -> AbandonedRepo.get_commit_count result = 0).
Proof.
  split; [|split].
  - intros [proc|exc] path st Hf; simpl in Hf.
    + unfold GitIt.get_unpushed_commit_count. rewrite run_cmd_Ran.
      destruct (returncode proc =? 0) eqn:E; simpl; [|now split].
      destruct Hf as [Hrc| ->]; [|now split].
      apply Z.eqb_eq in E. contradiction.
    + now split.
  - intros [proc|exc] path st; [|discriminate].
    unfold GitIt.get_unpushed_commit_count. rewrite run_cmd_Ran.
    destruct (returncode proc =? 0) eqn:E; simpl; [|discriminate].
    destruct (Py.int (Py.strip (stdout proc))) as [n|] eqn:Ei;
      [|discriminate].
    simpl. intros [= ->]. exists proc.
    apply Z.eqb_eq in E. apply int_zero in Ei.
    rewrite strip_idem in Ei. now repeat split.
  - intros result Hf. simpl in Hf. unfold AbandonedRepo.get_commit_count.
    destruct (returncode result =? 0) eqn:E; simpl; [|reflexivity].
    destruct Hf as [Hrc| ->]; [|reflexivity].
    apply Z.eqb_eq in E. contradiction.
Qed.

Lemma git_fact_sentinels_witness :
  fst (GitIt.get_unpushed_commit_count
         (Ran (mkCompleted 128 "" "fatal: no upstream"))
         (mkPath "repo" "/work/repo" true Dir Missing) GitIt.initial) = None /\
  AbandonedRepo.get_commit_count (mkCompleted 0 "many" "") = 0.
Proof.
  split.
  - apply (proj1 git_fact_sentinels). simpl. left. discriminate.
  - apply (proj2 (proj2 git_fact_sentinels)). simpl. right. reflexivity.
Defined.

End GitFacts.

(** ** Clone-URL classification (how_cloned.py) *)

Module CloneFacts.
Import HowCloned.

Lemma web_is_not_ssh s :
  String.prefix "http://" s = true \/ String.prefix "https://" s = true ->
  String.prefix "git@" s = false /\ String.prefix "ssh://" s = false.
Proof.
  destruct s as [|c s]; [cbn; intros [H|H]; discriminate|].
  cbn [String.prefix].
  destruct (ascii_dec "h" c) as [<-|Hc]; [|intros [H|H]; discriminate].
  intros _.
  destruct (ascii_dec "g" "h") as [E|_]; [discriminate E|].
  destruct (ascii_dec "s" "h") as [E|_]; [discriminate E|].
  now split.
Qed.

Lemma add_well_grouped git repo g :
  well_grouped git g ->
  well_grouped git
    (add repo (fst (get_origin_url (git repo) repo)) g).
Proof.
  intros (Hs & Hh & Ho & Hn). unfold add.
  destruct (classify_clone_type (fst (get_origin_url (git repo) repo)))
    eqn:E; repeat split; simpl; try assumption;
    (apply Forall_app; split;
     [assumption | apply Forall_singleton; now split]).
Qed.

Lemma scan_well_grouped git repos : forall g out,
  well_grouped git g -> well_grouped git (fst (scan git repos g out)).
Proof.
  induction repos as [|repo rest IH]; simpl; intros g out Hg;
    [assumption|].
  pose proof (add_well_grouped git repo g Hg) as Hadd.
  destruct (get_origin_url (git repo) repo) as [url printed].
  now apply IH.
Qed.

(** C2: the classifier is total on optional URLs; the lower-cased
    prefix decides between ssh, https and other, an absent URL is
    none, a present one is never none; and the groups of [main] keep
    every URL exactly as git answered it. *)
Theorem classify_clone_type_total :
  (forall url,
      Py.startswith (Py.lower url) "git@" = true
      \/ Py.startswith (Py.lower url) "ssh://" = true ->
      classify_clone_type (Some url) = ssh) /\
  (forall url,
      Py.startswith (Py.lower url) "http://" = true
      \/ Py.startswith (Py.lower url) "https://" = true ->
      classify_clone_type (Some url) = https) /\
  (forall url,
      Py.startswith (Py.lower url) "git@" = false ->
      Py.startswith (Py.lower url) "ssh://" = false ->
      Py.startswith (Py.lower url) "http://" = false ->
      Py.startswith (Py.lower url) "https://" = false ->
      classify_clone_type (Some url) = other) /\
  classify_clone_type None = none /\
  (forall url, classify_clone_type (Some url) <> none) /\
  (forall git repos,
      well_grouped git (fst (scan git repos (mkGroups [] [] [] []) []))).
Proof.
  unfold classify_clone_type, Py.startswith.
  split; [|split; [|split; [|split; [reflexivity|split]]]].
  - intros url [H|H]; rewrite H; [reflexivity|].
    now rewrite orb_true_r.
  - intros url H.
    destruct (web_is_not_ssh _ H) as [-> ->]. cbv beta iota delta [orb].
    destruct H as [->| ->]; [reflexivity|].
    now destruct (String.prefix "http://" (Py.lower url)).
  - intros url H1 H2 H3 H4. now rewrite H1, H2, H3, H4.
  - intros url.
    destruct (_ || _); [discriminate|]. destruct (_ || _); discriminate.
  - intros git repos. apply scan_well_grouped.
    repeat split; constructor.
Qed.

Lemma classify_clone_type_total_witness :
  classify_clone_type (Some "git@github.com:u/r.git") = ssh /\
  classify_clone_type (Some "HTTPS://github.com/u/r") = https /\
  classify_clone_type (Some "ftp://x") = other.
Proof.
  destruct classify_clone_type_total as (Hssh & Hweb & Hother & _).
  split; [|split].
  - apply Hssh. left. reflexivity.
  - apply Hweb. right. reflexivity.
  - apply Hother; reflexivity.
Defined.

End CloneFacts.

(** ** The uncommitted-changes checker (uncommited.py) *)

Module UncommitedFacts.
Import Uncommited.

Lemma probe_errored world repo :
  errored world ->
  exists printed, git_status_porcelain world repo = ((false, []), printed).
Proof.
  destruct world as [proc|exc]; simpl; intros H; [|eauto].
  apply Z.eqb_neq in H. rewrite H. simpl. eauto.
Qed.

(** The probe reports changes exactly when git succeeded and printed a
    line that is not blank. *)
Lemma probe_has_changes world repo :
  fst (fst (git_status_porcelain world repo)) = true <->
  has_local_changes world.
Proof.
  unfold has_local_changes.
  destruct world as [proc|exc]; simpl.
  - destruct (returncode proc =? 0) eqn:E; simpl.
    + apply Z.eqb_eq in E.
      destruct (filter _ (Py.splitlines (stdout proc)))
        as [|line rest] eqn:Ef; simpl.
      * split; [discriminate|].
        intros (proc' & [= <-] & _ & line & Hin & Hline).
        assert (In line []) as [].
        rewrite <- Ef. apply list_elem_of_In, list_elem_of_filter.
        split; [|now apply list_elem_of_In].
        destruct (Py.strip line); [contradiction|reflexivity].
      * split; [intros _|reflexivity].
        exists proc. split; [reflexivity|]. split; [assumption|].
        assert (line ∈ line :: rest) as Hin by constructor.
        rewrite <- Ef in Hin. apply list_elem_of_filter in Hin as [Hp Hin].
        exists line. split; [now apply list_elem_of_In|].
        destruct (Py.strip line); [contradiction|discriminate].
    + apply Z.eqb_neq in E. split; [discriminate|].
      now intros (proc' & [= <-] & Hrc & _).
  - split; [discriminate|]. now intros (proc' & [=] & _).
Qed.

Lemma dirty_entry_nil git repo :
  dirty_entry git repo = [] <-> ~ has_local_changes (git repo).
Proof.
  rewrite <- probe_has_changes with (repo := repo). unfold dirty_entry.
  destruct (git_status_porcelain (git repo) repo)
    as [[has_changes lines] printed]; simpl.
  destruct has_changes; split; intros H.
  - discriminate H.
  - now contradiction H.
  - discriminate.
  - reflexivity.
Qed.

Lemma dirty_entry_cons git repo :
  dirty_entry git repo <> [] -> has_local_changes (git repo).
Proof.
  rewrite <- probe_has_changes with (repo := repo). unfold dirty_entry.
  destruct (git_status_porcelain (git repo) repo)
    as [[has_changes lines] printed]; simpl.
  destruct has_changes; intros H; [reflexivity|now contradiction H].
Qed.

Lemma scan_dirty verbose git repos : forall dirty out,
  fst (scan verbose git repos dirty out)
  = dirty ++ flat_map (dirty_entry git) repos.
Proof.
  induction repos as [|repo rest IH]; simpl; intros dirty out.
  - now rewrite app_nil_r.
  - unfold dirty_entry.
    destruct (git_status_porcelain (git repo) repo)
      as [[has_changes lines] printed].
    destruct has_changes; [|destruct verbose]; rewrite IH;
      [now rewrite <- app_assoc | reflexivity | reflexivity].
Qed.

Lemma scan_out_extends verbose git repos : forall dirty out,
  exists printed, snd (scan verbose git repos dirty out) = out ++ printed.
Proof.
  induction repos as [|repo rest IH]; simpl; intros dirty out.
  - exists []. now rewrite app_nil_r.
  - destruct (git_status_porcelain (git repo) repo)
      as [[has_changes lines] printed].
    destruct has_changes; [|destruct verbose].
    + destruct (IH (dirty ++ [(repo, lines)]) (out ++ printed)) as [p ->].
      exists (printed ++ p). now rewrite app_assoc.
    + destruct (IH dirty
                  ((out ++ printed) ++ ["✅ " +:+ name repo +:+ " is clean."]))
        as [p ->].
      eexists. now rewrite <- !app_assoc.
    + destruct (IH dirty (out ++ printed)) as [p ->].
      exists (printed ++ p). now rewrite app_assoc.
Qed.

Lemma flat_map_nil {A B} (f : A -> list B) l :
  flat_map f l = [] <-> forall x, In x l -> f x = [].
Proof.
  induction l as [|a l IH]; simpl.
  - split; [intros _ x []|reflexivity].
  - split.
    + intros [Ha Hl]%app_eq_nil x [<-|Hx]; [assumption|].
      now apply IH.
    + intros H. rewrite (H a) by now left. simpl.
      apply IH. intros x Hx. apply H. now right.
Qed.

Lemma flat_map_cons {A B} (f : A -> list B) l :
  flat_map f l <> [] -> exists x, In x l /\ f x <> [].
Proof.
  induction l as [|a l IH]; simpl; [intros H; now contradiction H|].
  destruct (f a) as [|b t] eqn:E; simpl.
  - intros (x & Hx & Hf)%IH. exists x. split; [now right|assumption].
  - intros _. exists a. split; [now left|]. now rewrite E.
Qed.

Lemma in_iter_git_repos repo listing :
  In repo (iter_git_repos listing) <->
  In repo listing /\ is_dir repo = true /\ exists_ (dot_git repo) = true.
Proof.
  unfold iter_git_repos.
  rewrite <- !list_elem_of_In, list_elem_of_filter, andb_True.
  rewrite !Is_true_true. tauto.
Qed.

Lemma main_exit verbose git listing :
  snd (main verbose git listing)
  = match flat_map (dirty_entry git) (iter_git_repos listing) with
    | [] => 0
    | _ => 1
    end.
Proof.
  unfold main.
  pose proof (scan_dirty verbose git (iter_git_repos listing) []
                ["🔍 Scanning for git repositories with local changes..."
                   +:+ nl]) as Hd.
  destruct (scan verbose git (iter_git_repos listing) [] _)
    as [dirty out].
  simpl in Hd. rewrite <- Hd. now destruct dirty.
Qed.

(** C6: the exit status is 1 exactly when some scanned repository has
    local changes, and 0 exactly when none has. *)
Theorem main_exit_status verbose git listing :
  let finding :=
    exists repo,
      In repo listing /\ is_dir repo = true /\
      exists_ (dot_git repo) = true /\ has_local_changes (git repo) in
  (snd (main verbose git listing) = 1 <-> finding) /\
  (snd (main verbose git listing) = 0 <-> ~ finding).
Proof.
  intros finding. rewrite main_exit.
  destruct (flat_map (dirty_entry git) (iter_git_repos listing)) eqn:E.
  - assert (~ finding) as Hno.
    { intros (repo & Hin & Hd & Hg & Hc).
      apply (proj1 (dirty_entry_nil git repo)); [|assumption].
      apply (proj1 (flat_map_nil _ _) E), in_iter_git_repos.
      now repeat split. }
    split; split; try discriminate; try reflexivity; tauto.
  - assert finding as Hyes.
    { destruct (flat_map_cons (dirty_entry git) (iter_git_repos listing))
        as (repo & (Hin & Hd & Hg)%in_iter_git_repos & Hc).
      - now rewrite E.
      - exists repo. repeat split; try assumption.
        now apply dirty_entry_cons. }
    split; split; try discriminate; try reflexivity; try tauto.
Qed.

Lemma scan_clean_line git repos : forall repo dirty out,
  In repo repos -> dirty_entry git repo = [] ->
  In ("✅ " +:+ name repo +:+ " is clean.")
     (snd (scan true git repos dirty out)).
Proof.
  induction repos as [|r rest IH]; simpl; intros repo dirty out Hin Hd;
    [contradiction|].
  destruct Hin as [<-|Hin].
  - unfold dirty_entry in Hd.
    destruct (git_status_porcelain (git r) r)
      as [[has_changes lines] printed].
    destruct has_changes; [discriminate|].
    destruct (scan_out_extends true git rest dirty
                ((out ++ printed) ++ ["✅ " +:+ name r +:+ " is clean."]))
      as [p ->].
    apply in_or_app. left. apply in_or_app. right. now left.
  - destruct (git_status_porcelain (git r) r)
      as [[has_changes lines] printed].
    destruct has_changes; now apply IH.
Qed.

Lemma errored_not_changed world : errored world -> ~ has_local_changes world.
Proof.
  destruct world as [proc|exc]; simpl.
  - intros Hrc (proc' & [= <-] & Hz & _). contradiction.
  - intros _ (proc' & [=] & _).
Qed.

Lemma string_length_append (a b : string) :
  String.length (a +:+ b) = (String.length a + String.length b)%nat.
Proof.
  induction a as [|c a IH]; [reflexivity|].
  change (String c a +:+ b) with (String c (a +:+ b)). simpl.
  now rewrite IH.
Qed.

Lemma clean_line_is_not_all_clean (repo_name : string) :
  "✅ " +:+ repo_name +:+ " is clean." <> all_clean.
Proof.
  intros H. unfold all_clean in H.
  change ("✅ " +:+ repo_name +:+ " is clean.")
    with (String "226" (String "156" (String "133" (String " "
            (repo_name +:+ " is clean."))))) in H.
  injection H as H.
  assert (String.length repo_name = 21%nat) as Hlen.
  { apply (f_equal String.length) in H.
    rewrite string_length_append in H. simpl in H. lia. }
  do 21 (destruct repo_name as [|? repo_name]; [discriminate Hlen|];
         injection Hlen as Hlen).
  destruct repo_name; [|discriminate Hlen].
  cbv in H. discriminate H.
Qed.

Lemma error_line_is_not_all_clean (tail : string) :
  "💥 Error inspecting " +:+ tail <> all_clean.
Proof.
  intros H. apply (f_equal first_char) in H. discriminate H.
Qed.

Lemma probe_prints_no_all_clean world repo :
  ~ In all_clean (snd (git_status_porcelain world repo)).
Proof.
  destruct world as [proc|exc]; simpl.
  - destruct (returncode proc =? 0); simpl; [tauto|].
    intros [H|[]]. now apply error_line_is_not_all_clean in H.
  - intros [H|[]]. now apply error_line_is_not_all_clean in H.
Qed.

Lemma scan_prints_no_all_clean verbose git repos : forall dirty out,
  ~ In all_clean out ->
  ~ In all_clean (snd (scan verbose git repos dirty out)).
Proof.
  induction repos as [|repo rest IH]; simpl; intros dirty out Hout;
    [assumption|].
  pose proof (probe_prints_no_all_clean (git repo) repo) as Hp.
  destruct (git_status_porcelain (git repo) repo)
    as [[has_changes lines] printed]. simpl in Hp.
  assert (~ In all_clean (out ++ printed)) as Hnext.
  { intros [H|H]%in_app_or; contradiction. }
  destruct has_changes; [now apply IH|].
  destruct verbose; [|now apply IH].
  apply IH. intros [H|[H|[]]]%in_app_or; [contradiction|].
  now apply clean_line_is_not_all_clean in H.
Qed.

Lemma report_dirty_no_all_clean dirty :
  ~ In all_clean (concat (map report_dirty dirty)).
Proof.
  induction dirty as [|[repo lines] rest IH]; simpl; [tauto|].
  intros [H|[H|H]%in_app_or]; [| |contradiction].
  - apply (f_equal first_char) in H. discriminate H.
  - apply in_map_iff in H as (line & H & _).
    apply (f_equal first_char) in H. discriminate H.
Qed.

(** The all-clean message is printed exactly by the runs without
    [--verbose] that find no local change. *)
Lemma all_clean_printed verbose git listing :
  In all_clean (fst (main verbose git listing)) <->
  verbose = false /\
  flat_map (dirty_entry git) (iter_git_repos listing) = [].
Proof.
  unfold main.
  pose proof (scan_dirty verbose git (iter_git_repos listing) []
                ["🔍 Scanning for git repositories with local changes..."
                   +:+ nl]) as Hd.
  pose proof (scan_prints_no_all_clean verbose git (iter_git_repos listing) []
                ["🔍 Scanning for git repositories with local changes..."
                   +:+ nl]) as Hs.
  destruct (scan verbose git (iter_git_repos listing) [] _)
    as [dirty out].
  simpl in Hd, Hs. rewrite <- Hd.
  assert (~ In all_clean out) as Hout.
  { apply Hs. intros [H|[]]. discriminate H. }
  destruct dirty as [|d rest].
  - destruct verbose; simpl.
    + split; [contradiction|]. now intros [? _].
    + split; [now intros _|intros _]. apply in_or_app. right. now left.
  - cbn [fst]. split; [|now intros [_ ?]].
    intros [H|H]%in_app_or; [contradiction|].
    change (In all_clean
              (["⚠️ Repositories with local changes (would be picked up by `git add -A`):"]
               ++ concat (map report_dirty (d :: rest))
               ++ [nl +:+ "⚠️ Done. At least one repository has local changes."]))
      in H.
    apply in_app_or in H as [[H|[]]|[H|[H|[]]]%in_app_or].
    + discriminate H.
    + now apply report_dirty_no_all_clean in H.
    + apply (f_equal first_char) in H. discriminate H.
Qed.

(** C9, as stated, fails in verbose mode: the run below has one
    repository, for which [git status] exits with 128; it exits 0, but
    it prints no all-clean message; the broken repository is listed as
    clean instead. *)
Lemma errored_verbose_run_lacks_all_clean :
  let repo := mkPath "broken" "/work/broken" true Dir Missing in
  let git := fun _ : Path =>
               Ran (mkCompleted 128 "" "fatal: not a git repository") in
  errored (git repo) /\
  main true git [repo]
  = (["🔍 Scanning for git repositories with local changes..." +:+ nl;
      "💥 Error inspecting /work/broken: fatal: not a git repository";
      "✅ broken is clean."], 0) /\
  ~ In all_clean (fst (main true git [repo])).
Proof.
  split; [discriminate|]. split; [reflexivity|].
  intros [H|[H|[H|[]]]]; discriminate H.
Qed.

(** C9 (amended): a repository for which [git status --porcelain]
    fails (a non-zero exit, or the exception the probe catches) is
    probed as [(False, [])] and stays out of the dirty list; a run in
    which every repository fails exits 0; without [--verbose] its last
    line is the all-clean message; with [--verbose] every failing
    repository is listed as clean and the all-clean message is not
    printed. *)
Theorem errored_repos_count_as_clean verbose git listing :
  (forall repo, In repo (iter_git_repos listing) -> errored (git repo)) ->
  (forall repo,
      In repo (iter_git_repos listing) ->
      fst (git_status_porcelain (git repo) repo) = (false, [])) /\
  (forall dirty out,
      fst (scan verbose git (iter_git_repos listing) dirty out) = dirty) /\
  snd (main verbose git listing) = 0 /\
  (verbose = false ->
   exists printed,
     fst (main verbose git listing) = printed ++ [all_clean]) /\
  (verbose = true ->
   forall repo,
     In repo (iter_git_repos listing) ->
     In ("✅ " +:+ name repo +:+ " is clean.")
        (fst (main verbose git listing))) /\
  (verbose = true -> ~ In all_clean (fst (main verbose git listing))).
Proof.
  intros Herr.
  assert (forall repo, In repo (iter_git_repos listing) ->
                       dirty_entry git repo = []) as Hnil.
  { intros repo Hin. apply dirty_entry_nil, errored_not_changed.
    now apply Herr. }
  apply flat_map_nil in Hnil as Hflat.
  split; [|split; [|split; [|split; [|split]]]].
  - intros repo Hin.
    destruct (probe_errored (git repo) repo (Herr repo Hin)) as [p ->].
    reflexivity.
  - intros dirty out. now rewrite scan_dirty, Hflat, app_nil_r.
  - now rewrite main_exit, Hflat.
  - intros ->. unfold main.
    pose proof (scan_dirty false git (iter_git_repos listing) []
                  ["🔍 Scanning for git repositories with local changes..."
                     +:+ nl]) as Hd.
    destruct (scan false git (iter_git_repos listing) [] _)
      as [dirty out].
    simpl in Hd. rewrite Hflat in Hd. subst dirty. simpl. now exists out.
  - intros -> repo Hin. unfold main.
    pose proof (scan_dirty true git (iter_git_repos listing) []
                  ["🔍 Scanning for git repositories with local changes..."
                     +:+ nl]) as Hd.
    pose proof (scan_clean_line git (iter_git_repos listing) repo []
                  ["🔍 Scanning for git repositories with local changes..."
                     +:+ nl] Hin (Hnil repo Hin)) as Hline.
    destruct (scan true git (iter_git_repos listing) [] _)
      as [dirty out].
    simpl in Hd, Hline. rewrite Hflat in Hd. subst dirty. exact Hline.
  - intros -> [Hv _]%all_clean_printed. discriminate Hv.
Qed.

Lemma errored_repos_count_as_clean_witness :
  let broken := mkPath "broken" "/work/broken" true Dir Missing in
  let git := fun _ : Path =>
               Ran (mkCompleted 128 "" "fatal: not a git repository") in
  snd (main false git [broken]) = 0 /\
  ~ In all_clean (fst (main true git [broken])).
Proof.
  intros broken git.
  assert (forall repo, In repo (iter_git_repos [broken]) ->
                       errored (git repo)) as Herr.
  { intros repo _. simpl. discriminate. }
  split.
  - apply (errored_repos_count_as_clean false git [broken] Herr).
  - apply (errored_repos_count_as_clean true git [broken] Herr).
    reflexivity.
Defined.

End UncommitedFacts.

(** ** Fork classification (not_mine.py) *)

Module ForkFacts.
Import NotMine.

Lemma eq_str_true v s : eq_str v s = true <-> v = JStr s.
Proof.
  destruct v; simpl; try (split; discriminate).
  rewrite String.eqb_eq. split; [now intros ->|now intros [= ->]].
Qed.

Lemma eq_str_false v s : eq_str v s = false <-> v <> JStr s.
Proof.
  rewrite <- eq_str_true. now destruct (eq_str v s).
Qed.

(** The function in terms of the three facts it reads. *)
Lemma is_fork_of_other_user_unfold repo_info username :
  is_fork_of_other_user repo_info username
  = (ol ← owner_login repo_info;
     if negb (truthy (dict_get repo_info "isFork")) then Returns false
     else pl ← parent_owner_login repo_info;
          Returns (eq_str ol username && negb (eq_str pl username))).
Proof.
  unfold is_fork_of_other_user, owner_login, parent_owner_login, login_of.
  destruct (get_default _ "login" (JStr "")) as [ol|exc]; simpl;
    [|reflexivity].
  destruct (truthy (dict_get repo_info "isFork")); simpl; [|reflexivity].
  now destruct (get _ "owner") as [po|exc]; simpl.
Qed.

Lemma get_default_or_empty_obj m key dflt :
  get_default (or_empty_dict (JObj m)) key dflt
  = Returns (default dflt (m !! key)).
Proof.
  unfold or_empty_dict, truthy.
  destruct (bool_decide (m = ∅)) eqn:E; simpl; [|reflexivity].
  apply bool_decide_eq_true in E. subst m. now rewrite lookup_empty.
Qed.

Lemma truthy_json_true v : truthy v = true <-> json_true v.
Proof.
  destruct v as [|b|z|m e|s|l|m]; simpl.
  - split; [discriminate|contradiction].
  - reflexivity.
  - rewrite negb_true_iff. apply Z.eqb_neq.
  - rewrite negb_true_iff. apply Z.eqb_neq.
  - destruct s; cbv; split; intros H; try discriminate; try congruence.
  - destruct l; split; intros H; try discriminate; try congruence.
  - rewrite negb_true_iff, bool_decide_eq_false. reflexivity.
Qed.

Lemma login_of_false v :
  truthy v = false -> login_of v = Returns (JStr "").
Proof.
  unfold login_of, or_empty_dict. intros ->. simpl.
  now rewrite lookup_empty.
Qed.

Lemma login_of_not_object v :
  truthy v = true -> (forall m, v <> JObj m) ->
  exists exc, login_of v = Raises exc.
Proof.
  unfold login_of, or_empty_dict. intros -> Hv.
  destruct v; simpl; eauto. now contradiction (Hv m).
Qed.

Lemma login_of_field field login :
  login_of (default JNull field) = Returns login <-> field_login field login.
Proof.
  destruct field as [v|]; simpl.
  - destruct v as [|b|z|m e|s|l|m];
      try (match goal with
           | |- login_of ?v = _ <-> _ =>
               pose proof (truthy_json_true v) as Ht;
               pose proof (login_of_false v) as Hf;
               pose proof (login_of_not_object v) as Hr;
               destruct (truthy v)
           end;
           [destruct Hr as [exc ->]; [reflexivity|discriminate|];
            split; [discriminate|intros [Hn _]; contradiction Hn; now apply Ht]
           |rewrite Hf by reflexivity;
            split; [intros [= <-]; split;
                      [intros Hn%Ht; discriminate Hn|reflexivity]
                   |now intros [_ ->]]]).
    unfold login_of. rewrite get_default_or_empty_obj.
    destruct (m !! "login"); simpl; split; congruence.
  - rewrite login_of_false by reflexivity. split; congruence.
Qed.

Lemma parent_owner_login_field repo_info login :
  parent_owner_login repo_info = Returns login <->
  exists parent_owner,
    parent_owner_field (repo_info !! "parent") parent_owner /\
    field_login parent_owner login.
Proof.
  unfold parent_owner_login, dict_get, get.
  destruct (repo_info !! "parent") as [v|]; simpl.
  - destruct v as [|b|z|m e|s|l|m];
      try (unfold or_empty_dict;
           match goal with
           | |- context [truthy ?v] =>
               pose proof (truthy_json_true v) as Ht;
               destruct (truthy v); simpl
           end;
           [split; [discriminate
                   |intros (po & [Hn _] & _); contradiction Hn; now apply Ht]
           |rewrite lookup_empty; simpl;
            rewrite (login_of_field None);
            split; [intros Hl; exists None; split; [split|]; try easy;
                    intros Hn%Ht; discriminate Hn
                   |now intros (po & [_ ->] & Hl)]]).
    rewrite get_default_or_empty_obj. simpl.
    rewrite login_of_field.
    split; [intros Hl; now exists (m !! "owner")|now intros (po & -> & Hl)].
  - unfold or_empty_dict. simpl. rewrite lookup_empty. simpl.
    rewrite (login_of_field None).
    split; [intros Hl; now exists None|now intros (po & -> & Hl)].
Qed.

Lemma reports_fork_field repo_info :
  reports_fork repo_info <->
  exists flag, repo_info !! "isFork" = Some flag /\ json_true flag.
Proof.
  unfold reports_fork, dict_get. rewrite truthy_json_true.
  destruct (repo_info !! "isFork") as [v|]; simpl.
  - split; [intros Hv; now exists v|now intros (flag & [= <-] & Hv)].
  - split; [contradiction|now intros (flag & [=] & _)].
Qed.

Lemma is_fork_of_other_user_facts repo_info username :
  is_fork_of_other_user repo_info username = Returns true <->
  reports_fork repo_info /\
  owner_login repo_info = Returns (JStr username) /\
  exists login,
    parent_owner_login repo_info = Returns login /\
    login <> JStr username.
Proof.
  rewrite is_fork_of_other_user_unfold.
  unfold reports_fork.
  destruct (owner_login repo_info) as [ol|exc]; simpl.
  - destruct (truthy (dict_get repo_info "isFork")); simpl.
    + destruct (parent_owner_login repo_info) as [pl|exc]; simpl.
      * split.
        -- intros [= [Ho Hp]%andb_prop].
           apply eq_str_true in Ho as ->.
           apply negb_true_iff, eq_str_false in Hp.
           split; [reflexivity|]. split; [reflexivity|]. now exists pl.
        -- intros (_ & [= ->] & login & [= <-] & Hne).
           apply eq_str_false in Hne. rewrite Hne.
           now rewrite (proj2 (eq_str_true _ _) eq_refl).
      * split; [discriminate|].
        now intros (_ & _ & login & [=] & _).
    + split; [discriminate|]. now intros ([=] & _).
  - split; [discriminate|]. now intros (_ & [=] & _).
Qed.

(** C4: the classifier answers true exactly when the record's
    ["isFork"] field is true, the login of its ["owner"] field is the
    username, and the login of the owner of its ["parent"] field is
    something else; on a record with all six fields present it returns
    [isFork and owner == username and parent owner != username]; a fork
    of one's own repository is not reported, a fork of somebody else's
    is, and a repository that is not a fork is not. *)
Theorem is_fork_of_other_user_iff :
  (forall repo_info username,
      is_fork_of_other_user repo_info username = Returns true <->
      (exists flag, repo_info !! "isFork" = Some flag /\ json_true flag) /\
      field_login (repo_info !! "owner") (JStr username) /\
      exists parent_owner login,
        parent_owner_field (repo_info !! "parent") parent_owner /\
        field_login parent_owner login /\
        login <> JStr username) /\
  (forall repo_info username is_fork owner owner_name
          parent parent_owner parent_owner_name,
      repo_info !! "isFork" = Some (JBool is_fork) ->
      repo_info !! "owner" = Some (JObj owner) ->
      owner !! "login" = Some (JStr owner_name) ->
      repo_info !! "parent" = Some (JObj parent) ->
      parent !! "owner" = Some (JObj parent_owner) ->
      parent_owner !! "login" = Some (JStr parent_owner_name) ->
      is_fork_of_other_user repo_info username
      = Returns (is_fork && String.eqb owner_name username
                 && negb (String.eqb parent_owner_name username))) /\
  is_fork_of_other_user (fork_record "alice" "alice") "alice"
  = Returns false /\
  is_fork_of_other_user (fork_record "alice" "bob") "alice"
  = Returns true /\
  is_fork_of_other_user (own_record "alice" "bob") "alice"
  = Returns false /\
  is_fork_of_other_user (delete "isFork" (fork_record "alice" "bob")) "alice"
  = Returns false.
Proof.
  split; [|split; [|repeat split; vm_compute; reflexivity]].
  - intros repo_info username.
    rewrite is_fork_of_other_user_facts, reports_fork_field.
    unfold owner_login, dict_get. rewrite login_of_field.
    split.
    + intros (Hf & Ho & login & (po & Hp & Hl)%parent_owner_login_field & Hne).
      split; [assumption|]. split; [assumption|]. now exists po, login.
    + intros (Hf & Ho & po & login & Hp & Hl & Hne).
      split; [assumption|]. split; [assumption|]. exists login.
      split; [|assumption]. apply parent_owner_login_field. now exists po.
  - intros repo_info username is_fork owner owner_name parent parent_owner
      parent_owner_name Hfork Howner Hlogin Hparent Hpo Hpl.
    unfold is_fork_of_other_user, dict_get, get.
    rewrite Hfork, Howner, Hparent. simpl.
    rewrite !get_default_or_empty_obj, Hlogin. simpl.
    destruct is_fork; simpl; [|reflexivity].
    rewrite Hpo. simpl. rewrite get_default_or_empty_obj, Hpl. reflexivity.
Qed.

Lemma is_fork_of_other_user_iff_witness :
  is_fork_of_other_user (own_record "alice" "bob") "alice"
  = Returns (false && String.eqb "alice" "alice"
             && negb (String.eqb "bob" "alice")).
Proof.
  apply (proj1 (proj2 is_fork_of_other_user_iff)
           (own_record "alice" "bob") "alice" false
           {[ "id" := JStr "U_1"; "login" := JStr "alice" ]} "alice"
           {[ "name" := JStr "project";
              "owner" := JObj {[ "login" := JStr "bob" ]} ]}
           {[ "login" := JStr "bob" ]} "bob");
    vm_compute; reflexivity.
Defined.

Lemma lacks_parent_owner_login_empty repo_info :
  lacks_parent_owner_login repo_info ->
  parent_owner_login repo_info = Returns (JStr "").
Proof.
  unfold lacks_parent_owner_login, parent_owner_login, login_of, dict_get.
  unfold get.
  destruct (repo_info !! "parent") as [[| | | | | |parent]|];
    simpl; try contradiction; try reflexivity.
  rewrite get_default_or_empty_obj. simpl.
  destruct (parent !! "owner") as [[| | | | | |owner]|];
    simpl; try contradiction; try reflexivity.
  intros Hlogin. rewrite get_default_or_empty_obj. now rewrite Hlogin.
Qed.

(** C10: a fork owned by the configured user whose parent metadata is
    missing, null, or without an owner login is reported: the parent's
    owner login is then the empty string, which a (non-empty) username
    never equals. *)
Theorem fork_without_parent_is_reported repo_info username :
  username <> "" ->
  reports_fork repo_info ->
  owner_login repo_info = Returns (JStr username) ->
  lacks_parent_owner_login repo_info ->
  parent_owner_login repo_info = Returns (JStr "") /\
  is_fork_of_other_user repo_info username = Returns true.
Proof.
  intros Hname Hfork Howner Hparent.
  apply lacks_parent_owner_login_empty in Hparent.
  split; [assumption|].
  rewrite is_fork_of_other_user_unfold, Howner. simpl.
  unfold reports_fork in Hfork. rewrite Hfork, Hparent. simpl.
  rewrite String.eqb_refl.
  destruct username; [now contradiction Hname|reflexivity].
Qed.

Lemma fork_without_parent_is_reported_witness :
  is_fork_of_other_user
    (<[ "parent" := JNull ]> (fork_record GITHUB_USERNAME "upstream"))
    GITHUB_USERNAME
  = Returns true.
Proof.
  apply (fork_without_parent_is_reported
           (<[ "parent" := JNull ]> (fork_record GITHUB_USERNAME "upstream"))
           GITHUB_USERNAME).
  - discriminate.
  - vm_compute. reflexivity.
  - vm_compute. reflexivity.
  - vm_compute. exact I.
Defined.

End ForkFacts.

(** ** The stable sort *)

Section SortFacts.

Context {A K : Type} (key : A -> K) (leb : K -> K -> bool).
Hypothesis leb_total : forall a b, leb a b = true \/ leb b a = true.

Let key_le (x y : A) : Prop := leb (key x) (key y) = true.

Lemma insert_front_perm x l :
  Permutation (Py.insert_front key leb x l) (x :: l).
Proof.
  induction l as [|y l IH]; simpl; [reflexivity|].
  destruct (leb (key x) (key y)); [reflexivity|].
  rewrite IH. apply perm_swap.
Qed.

Lemma sorted_perm l : Permutation (Py.sorted key leb l) l.
Proof.
  induction l as [|x l IH]; simpl; [reflexivity|].
  unfold Py.sorted in *. simpl. now rewrite insert_front_perm, IH.
Qed.

Lemma insert_front_HdRel a x l :
  key_le a x -> HdRel key_le a l ->
  HdRel key_le a (Py.insert_front key leb x l).
Proof.
  intros Hax Hal. destruct l as [|y l]; simpl; [now constructor|].
  destruct (leb (key x) (key y)); constructor; [assumption|].
  now inversion Hal.
Qed.

Lemma insert_front_Sorted x l :
  Sorted key_le l -> Sorted key_le (Py.insert_front key leb x l).
Proof.
  induction l as [|y l IH]; simpl; intros Hs.
  - repeat constructor.
  - destruct (leb (key x) (key y)) eqn:E.
    + constructor; [assumption|]. now constructor.
    + inversion Hs as [|? ? Hl Hhd]; subst.
      constructor; [now apply IH|].
      apply insert_front_HdRel; [|assumption].
      destruct (leb_total (key x) (key y)) as [H|H]; [congruence|exact H].
Qed.

Lemma sorted_Sorted l : Sorted key_le (Py.sorted key leb l).
Proof.
  induction l as [|x l IH]; [constructor|].
  unfold Py.sorted in *. simpl. now apply insert_front_Sorted.
Qed.

Hypothesis leb_trans :
  forall a b c, leb a b = true -> leb b c = true -> leb a c = true.

Lemma sorted_StronglySorted l : StronglySorted key_le (Py.sorted key leb l).
Proof.
  apply Sorted_StronglySorted; [|apply sorted_Sorted].
  intros x y z. unfold key_le. apply leb_trans.
Qed.

End SortFacts.

Lemma strongly_sorted_impl {A} (R R' : A -> A -> Prop) l :
  (forall x y, R x y -> R' x y) ->
  StronglySorted R l -> StronglySorted R' l.
Proof.
  intros Himpl. induction 1 as [|x l _ IH Hall]; constructor;
    [assumption|].
  revert Hall. apply List.Forall_impl. exact (Himpl x).
Qed.

(** ** Directory enumeration *)

Module EnumFacts.

Lemma string_compare_trans a : forall b c,
  String.compare a b <> Gt -> String.compare b c <> Gt ->
  String.compare a c <> Gt.
Proof.
  induction a as [|x a IH]; intros [|y b] [|z c]; simpl;
    try congruence.
  unfold Ascii.compare.
  destruct (N.compare_spec (N_of_ascii x) (N_of_ascii y)) as [Exy|Lxy|Gxy];
    destruct (N.compare_spec (N_of_ascii y) (N_of_ascii z)) as [Eyz|Lyz|Gyz];
    try congruence.
  - rewrite Exy, Eyz, N.compare_refl. apply IH.
  - intros _ _. rewrite Exy, (proj2 (N.compare_lt_iff _ _) Lyz).
    cbv iota. discriminate.
  - intros _ _. rewrite <- Eyz, (proj2 (N.compare_lt_iff _ _) Lxy).
    cbv iota. discriminate.
  - intros _ _.
    rewrite (proj2 (N.compare_lt_iff _ _) (N.lt_trans _ _ _ Lxy Lyz)).
    cbv iota. discriminate.
Qed.

Lemma string_leb_trans a b c :
  String.leb a b = true -> String.leb b c = true -> String.leb a c = true.
Proof.
  unfold String.leb. intros Hab Hbc.
  pose proof (string_compare_trans a b c) as H.
  destruct (String.compare a b), (String.compare b c),
    (String.compare a c); cbv iota in *; try reflexivity;
    try discriminate; exfalso; apply H; first [discriminate | reflexivity].
Qed.

Lemma find_small_repos_sublist rev_parse rev_list listing min_commits :
  map fst
    (AbandonedRepo.find_small_repos rev_parse rev_list listing min_commits)
  `sublist_of` listing.
Proof.
  induction listing as [|entry rest IH]; simpl; [constructor|].
  destruct (negb (is_dir entry)); [now constructor|].
  destruct (negb (AbandonedRepo.is_git_repo (rev_parse entry)));
    [now constructor|].
  destruct (_ <? min_commits); [|now constructor].
  simpl. now constructor.
Qed.

(** C5, as stated, fails for the enumerators that do not sort: the
    clone-type scanner walks the entries in the order the directory
    listing gives them, here [beta] before [alpha], while
    [iter_child_dirs] of [git_it.py] puts [alpha] first. *)
Lemma listing_order_is_kept :
  let beta := mkPath "beta" "/work/beta" true Dir Missing in
  let alpha := mkPath "alpha" "/work/alpha" true Dir Missing in
  HowCloned.iter_git_repos [beta; alpha] = [beta; alpha] /\
  ~ name_le beta alpha /\
  GitIt.iter_child_dirs [beta; alpha] = [alpha; beta].
Proof.
  split; [reflexivity|]. split; [|reflexivity].
  unfold name_le. vm_compute. discriminate.
Qed.

(** C5 (amended): [iter_child_dirs] of [git_it.py] returns the immediate
    child directories ordered by lower-cased name.  The enumerators of
    [how_cloned.py] and [abandoned_repo.py] return the child directories
    that are git repositories (with fewer commits than asked, for the
    latter) in the order of the directory listing. *)
Theorem enumerators listing :
  Permutation (GitIt.iter_child_dirs listing)
    (filter (fun p => is_dir p) listing) /\
  StronglySorted name_le (GitIt.iter_child_dirs listing) /\
  HowCloned.iter_git_repos listing `sublist_of` listing /\
  (forall p,
      In p (HowCloned.iter_git_repos listing) <->
      In p listing /\ is_dir p = true /\ exists_ (dot_git p) = true) /\
  (forall rev_parse rev_list min_commits,
      map fst
        (AbandonedRepo.find_small_repos rev_parse rev_list listing
           min_commits)
      `sublist_of` listing).
Proof.
  split; [|split; [|split; [|split]]].
  - apply sorted_perm.
  - apply (sorted_StronglySorted (fun p => Py.lower (name p)) String.leb).
    + apply String.leb_total.
    + apply string_leb_trans.
  - apply sublist_filter.
  - intros p. apply UncommitedFacts.in_iter_git_repos.
  - intros. apply find_small_repos_sublist.
Qed.

End EnumFacts.

(** ** Python 3.14 support on PyPI (py314_support.py) *)

Module PyPIFacts.
Import Py314Support.

Section Scan.

Variable contains_prereleases : string -> string -> option bool.
Variable get_release : string -> string -> ReleaseResponse.

Let supports (name v : string) : Prop :=
  fst (_release_supports contains_prereleases get_release name v) = true.

Lemma release_supports_iff name v :
  supports name v <->
  status_code (get_release name v) = 200 /\
  (In PY_TAG (default [] (classifiers (get_release name v))) \/
   (Py.strip (default "" (requires_python (get_release name v))) <> "" /\
    contains_prereleases
      (Py.strip (default "" (requires_python (get_release name v))))
      PY_VERSION_STR = Some true)).
Proof.
  unfold supports, _release_supports.
  destruct (status_code (get_release name v) =? 200) eqn:Es; simpl.
  - apply Z.eqb_eq in Es.
    destruct (bool_decide _) eqn:Ec; simpl.
    + apply bool_decide_eq_true, list_elem_of_In in Ec. tauto.
    + apply bool_decide_eq_false in Ec. rewrite list_elem_of_In in Ec.
      destruct (Py.strip _) as [|c rp] eqn:Erp; simpl.
      * split; [discriminate|]. intros (_ & [Hin|[Hne _]]); tauto.
      * destruct (contains_prereleases (String c rp) PY_VERSION_STR)
          as [[|]|]; simpl.
        -- split; [intros _|reflexivity].
           split; [assumption|]. right. now split.
        -- split; [discriminate|]. intros (_ & [Hin|[_ [=]]]). tauto.
        -- split; [discriminate|]. intros (_ & [Hin|[_ [=]]]). tauto.
  - apply Z.eqb_neq in Es. split; [discriminate|]. tauto.
Qed.

(** The loop stops at the first release that supports 3.14 and has then
    fetched the releases up to that one, and no other. *)
Lemma scan_first name versions : forall fetched,
  (exists newer v older why,
      versions = newer ++ v :: older /\
      (forall u, In u newer -> ~ supports name u) /\
      supports name v /\
      scan contains_prereleases get_release name versions fetched
      = (mkSupportResult name true (Some v) why,
         fetched ++ newer ++ [v])) \/
  ((forall u, In u versions -> ~ supports name u) /\
   scan contains_prereleases get_release name versions fetched
   = (mkSupportResult name false None "", fetched ++ versions)).
Proof.
  induction versions as [|v rest IH]; intros fetched; simpl.
  - right. split; [intros u []|]. now rewrite app_nil_r.
  - destruct (_release_supports contains_prereleases get_release name v)
      as [ok why] eqn:E.
    destruct ok.
    + left. exists [], v, rest, why. simpl.
      split; [reflexivity|]. split; [intros u []|].
      split; [|reflexivity]. unfold supports. now rewrite E.
    + assert (~ supports name v) as Hv.
      { unfold supports. rewrite E. discriminate. }
      destruct (IH (fetched ++ [v]))
        as [(newer & w & older & why' & -> & Hnewer & Hw & ->)
           |[Hnone ->]].
      * left. exists (v :: newer), w, older, why'.
        split; [reflexivity|].
        split; [intros u [<-|Hu]; [assumption|now apply Hnewer]|].
        split; [assumption|]. now rewrite <- app_assoc.
      * right. split; [intros u [<-|Hu]; [assumption|now apply Hnone]|].
        now rewrite <- app_assoc.
Qed.

End Scan.

(** C7: the releases of a project are scanned from the highest version
    down (in the order of [packaging] on the parsed version strings, an
    unparsable one counting as [0!0]); the first release that supports
    3.14 is the one reported and
    the last one fetched; and a release (whose metadata could be
    fetched) supports 3.14 exactly when its classifiers contain the 3.14
    tag or its requires_python specifier accepts 3.14 with pre-releases
    allowed. *)
Theorem check_project_newest_first {V : Type}
    (Version : string -> option V) (version_leb : V -> V -> bool)
    (Version_0_0 : V)
    (contains_prereleases : string -> string -> option bool)
    (get_project : string -> ProjectResponse)
    (get_release : string -> string -> ReleaseResponse) (name : string) :
  (forall a b, version_leb a b = true \/ version_leb b a = true) ->
  (forall a b c, version_leb a b = true -> version_leb b c = true ->
                 version_leb a c = true) ->
  let versions :=
    _releases_sorted Version version_leb Version_0_0 get_project name in
  let supports (v : string) :=
    fst (_release_supports contains_prereleases get_release name v)
    = true in
  let run :=
    check_project_traced Version version_leb Version_0_0
      contains_prereleases get_project get_release name in
  (project_status (get_project name) = 200 ->
   Permutation versions (releases (get_project name))) /\
  StronglySorted (at_least_as_new Version version_leb Version_0_0)
    versions /\
  ((exists newer v older why,
       versions = newer ++ v :: older /\
       (forall u, In u newer -> ~ supports u) /\
       supports v /\
       run = (mkSupportResult name true (Some v) why, newer ++ [v])) \/
   ((forall u, In u versions -> ~ supports u) /\
    run = (mkSupportResult name false None "", versions))) /\
  (forall v,
      supports v <->
      status_code (get_release name v) = 200 /\
      (In PY_TAG (default [] (classifiers (get_release name v))) \/
       (Py.strip (default "" (requires_python (get_release name v))) <> "" /\
        contains_prereleases
          (Py.strip (default "" (requires_python (get_release name v))))
          PY_VERSION_STR = Some true))).
Proof.
  intros Htotal Htrans versions supports run.
  split; [|split; [|split]].
  - intros Hs. unfold versions, _releases_sorted. rewrite Hs. simpl.
    apply sorted_perm.
  - unfold versions, _releases_sorted.
    destruct (negb _); [constructor|].
    assert (forall a b,
               at_least_as_new Version version_leb Version_0_0 a b <->
               version_leb (key Version Version_0_0 b)
                 (key Version Version_0_0 a) = true) as Hkey.
    { intros a b. unfold at_least_as_new, key.
      now destruct (Version a), (Version b). }
    apply (strongly_sorted_impl
             (fun a b => version_leb (key Version Version_0_0 b)
                           (key Version Version_0_0 a) = true));
      [intros a b; apply Hkey|].
    apply (sorted_StronglySorted (key Version Version_0_0)
             (fun a b => version_leb b a)).
    + intros a b. destruct (Htotal a b); auto.
    + intros a b c Hab Hbc. now apply (Htrans c b a).
  - exact (scan_first contains_prereleases get_release name versions []).
  - intros v. apply release_supports_iff.
Qed.

Lemma check_project_newest_first_witness :
  StronglySorted (at_least_as_new Py.int Z.leb 0)
    (_releases_sorted Py.int Z.leb 0
       (fun _ => mkProjectResponse 200 ["1"; "3"; "2"]) "demo").
Proof.
  assert (forall a b, Z.leb a b = true \/ Z.leb b a = true) as Htotal.
  { intros a b. rewrite !Z.leb_le. lia. }
  assert (forall a b c, Z.leb a b = true -> Z.leb b c = true ->
                        Z.leb a c = true) as Htrans.
  { intros a b c. rewrite !Z.leb_le. lia. }
  destruct (check_project_newest_first Py.int Z.leb 0
              (fun _ _ => None)
              (fun _ => mkProjectResponse 200 ["1"; "3"; "2"])
              (fun _ _ => mkReleaseResponse 404 None None)
              "demo" Htotal Htrans) as (_ & Hsorted & _).
  exact Hsorted.
Defined.

(** A project with releases 1, 3 and 2, of which 2 and 1 carry the tag:
    3 and 2 are fetched, 2 is reported, 1 is never asked for. *)
Example check_project_demo :
  check_project_traced Py.int Z.leb 0 (fun _ _ => None)
    (fun _ => mkProjectResponse 200 ["1"; "3"; "2"])
    (fun _ v =>
       mkReleaseResponse 200
         (if String.eqb v "3" then Some [] else Some [PY_TAG]) None)
    "demo"
  = (mkSupportResult "demo" true (Some "2") "classifier", ["3"; "2"]).
Proof. vm_compute. reflexivity. Qed.

End PyPIFacts.

(** ** The workflow version scanner (gha_wrong_python.py) *)

Module VersionFacts.
Import GhaWrongPython.

Lemma digit_char c :
  Py.isdigit c = true ->
  Py.isspace c = false /\ Ascii.eqb c "." = false /\
  Ascii.eqb c "+" = false /\ Ascii.eqb c "-" = false.
Proof.
  destruct c as [[] [] [] [] [] [] [] []]; vm_compute; intros H;
    first [discriminate H | repeat split].
Qed.

Lemma token_char_not_space c :
  Py.isdigit c || Ascii.eqb c "." = true -> negb (Py.isspace c) = true.
Proof.
  destruct c as [[] [] [] [] [] [] [] []]; vm_compute; intros H;
    first [discriminate H | reflexivity].
Qed.

Lemma append_cons x (a b : string) : String x a +:+ b = String x (a +:+ b).
Proof. reflexivity. Qed.

Lemma append_assoc (a b c : string) : (a +:+ b) +:+ c = a +:+ b +:+ c.
Proof.
  induction a as [|x a IH]; [reflexivity|].
  rewrite !append_cons. now f_equal.
Qed.

Lemma append_empty_r (a : string) : a +:+ "" = a.
Proof.
  induction a as [|x a IH]; [reflexivity|].
  rewrite append_cons. now f_equal.
Qed.

Lemma span_digits_spec s : forall d t,
  span_digits s = (d, t) ->
  s = d +:+ t /\ all_chars Py.isdigit d = true.
Proof.
  induction s as [|c r IH]; simpl; intros d t.
  - intros [= <- <-]. now split.
  - destruct (Py.isdigit c) eqn:Ec.
    + destruct (span_digits r) as [d' t'].
      intros [= <- <-]. destruct (IH d' t' eq_refl) as [-> Hd].
      simpl. now rewrite Ec, Hd.
    + intros [= <- <-]. now split.
Qed.

(** A run of digits is taken whole when what follows is not a digit. *)
Lemma span_digits_app a r :
  all_chars Py.isdigit a = true ->
  match r with
  | EmptyString => True
  | String c _ => Py.isdigit c = false
  end ->
  span_digits (a +:+ r) = (a, r).
Proof.
  intros Ha Hr. induction a as [|c a IH]; simpl in *.
  - destruct r as [|c r]; [reflexivity|]. simpl. now rewrite Hr.
  - apply andb_prop in Ha as [Hc Ha]. now rewrite Hc, (IH Ha).
Qed.

Lemma dot_digits_spec s b r :
  dot_digits s = Some (b, r) ->
  exists d, b = String "." d /\ numeral d /\ s = b +:+ r.
Proof.
  unfold dot_digits. destruct s as [|c s]; [discriminate|].
  destruct (Ascii.eqb_spec c ".") as [->|Hc].
  - destruct (span_digits s) as [d t] eqn:E.
    destruct (Py.is_empty d) eqn:Ee; [discriminate|].
    intros [= <- <-]. apply span_digits_spec in E as [-> Hd].
    exists d. split; [reflexivity|]. split; [|reflexivity].
    split; [assumption|]. now destruct d.
  - intros H. exfalso.
    destruct c as [[] [] [] [] [] [] [] []]; try discriminate H.
    now apply Hc.
Qed.

Lemma match_version_spec s v r :
  match_version s = Some (v, r) -> exists parsed, version_token v parsed.
Proof.
  unfold match_version.
  destruct (span_digits s) as [a r0] eqn:Ea.
  destruct (Py.is_empty a) eqn:Ee; [discriminate|].
  apply span_digits_spec in Ea as [_ Ha].
  assert (numeral a) as Hna by (split; [assumption|now destruct a]).
  destruct (dot_digits r0) as [[b r1]|] eqn:Eb; [|discriminate].
  apply dot_digits_spec in Eb as (minor & -> & Hminor & _).
  destruct (dot_digits r1) as [[c r2]|] eqn:Ec.
  - apply dot_digits_spec in Ec as (patch & -> & Hpatch & _).
    intros [= <- <-].
    exists (value a, value minor, value patch), a, minor.
    split; [assumption|]. split; [assumption|]. right.
    exists patch. split; [assumption|]. split; [|reflexivity].
    simpl. reflexivity.
  - intros [= <- <-].
    exists (value a, value minor, 0), a, minor.
    split; [assumption|]. split; [assumption|]. left. now split.
Qed.

Lemma findall_from_in v s : forall skip,
  In v (findall_from skip s) ->
  exists s' rest, match_at s' = Some (v, rest).
Proof.
  induction s as [|c r IH]; simpl; intros skip; [intros []|].
  destruct skip as [|k]; [|apply IH].
  destruct (match_at (String c r)) as [[w rest]|] eqn:E; [|apply IH].
  intros [<-|Hin]; [eauto|]. now apply IH in Hin.
Qed.

(** Every token that [extract_versions_from_text] returns is a dotted
    pair or triple of numerals. *)
Lemma extracted_is_token fragment ver :
  In ver (extract_versions_from_text fragment) ->
  exists parsed, version_token ver parsed.
Proof.
  intros (s' & rest & Hm)%findall_from_in. unfold match_at in Hm.
  destruct (match_version (skip_quote s')) as [[v r]|] eqn:E;
    [|discriminate].
  injection Hm as <- _. now apply match_version_spec in E.
Qed.

Lemma parse_digits_all s : forall acc after,
  all_chars Py.isdigit s = true ->
  s <> "" \/ after = true ->
  Py.parse_digits acc after s = Some (digits_value acc s).
Proof.
  induction s as [|c r IH]; simpl; intros acc after Hd Hne.
  - destruct Hne as [Hne| ->]; [now contradiction Hne|reflexivity].
  - apply andb_prop in Hd as [Hc Hr].
    unfold Py.digit_val. rewrite Hc. apply IH; [assumption|now right].
Qed.

Lemma numeral_no_space a :
  all_chars Py.isdigit a = true ->
  all_chars (fun c => negb (Py.isspace c)) a = true.
Proof.
  apply all_chars_impl. intros c Hc.
  destruct (digit_char c Hc) as [-> _]. reflexivity.
Qed.

(** [int] reads a numeral as the number it denotes. *)
Lemma int_numeral a : numeral a -> Py.int a = Some (value a).
Proof.
  intros [Hd Hne]. unfold Py.int.
  rewrite (strip_none a (numeral_no_space a Hd)).
  destruct a as [|c r]; [now contradiction Hne|].
  pose proof Hd as Hd'. simpl in Hd'. apply andb_prop in Hd' as [Hc _].
  destruct (digit_char c Hc) as (_ & _ & -> & ->).
  rewrite parse_digits_all; [reflexivity|assumption|now left].
Qed.

Lemma span_digits_all a :
  all_chars Py.isdigit a = true -> span_digits a = (a, "").
Proof.
  intros Ha. rewrite <- (append_empty_r a) at 1.
  now apply span_digits_app.
Qed.

Lemma split_on_digits a : forall cur r,
  all_chars Py.isdigit a = true ->
  Py.split_on "." cur (a +:+ r) = Py.split_on "." (cur +:+ a) r.
Proof.
  induction a as [|c a IH]; intros cur r Ha.
  - now rewrite append_empty_r.
  - simpl in Ha. apply andb_prop in Ha as [Hc Ha].
    rewrite append_cons. simpl.
    destruct (digit_char c Hc) as (_ & -> & _).
    rewrite (IH _ _ Ha), append_assoc. reflexivity.
Qed.

Lemma split_on_last a :
  all_chars Py.isdigit a = true -> Py.split_on "." "" a = [a].
Proof.
  intros Ha. rewrite <- (append_empty_r a) at 1.
  now rewrite split_on_digits.
Qed.

Lemma split_on_dot a r :
  all_chars Py.isdigit a = true ->
  Py.split_on "." "" (a +:+ String "." r) = a :: Py.split_on "." "" r.
Proof. intros Ha. now rewrite split_on_digits. Qed.

Lemma dot_digits_numeral b r :
  numeral b ->
  match r with
  | EmptyString => True
  | String c _ => Py.isdigit c = false
  end ->
  dot_digits (String "." (b +:+ r)) = Some (String "." b, r).
Proof.
  intros [Hb Hne] Hr. unfold dot_digits.
  rewrite (span_digits_app b r Hb Hr).
  destruct b; [now contradiction Hne|reflexivity].
Qed.

Lemma numeral_not_empty a : numeral a -> Py.is_empty a = false.
Proof. intros [_ Hne]. destruct a; [now contradiction Hne|reflexivity]. Qed.

Lemma match_version_two a b :
  numeral a -> numeral b ->
  match_version (a +:+ "." +:+ b) = Some (a +:+ "." +:+ b, "").
Proof.
  intros Ha Hb. unfold match_version.
  change ("." +:+ b) with (String "." b).
  rewrite (span_digits_app a (String "." b)) by (apply Ha || reflexivity).
  rewrite (numeral_not_empty a Ha).
  rewrite <- (append_empty_r b) at 1.
  rewrite (dot_digits_numeral b "" Hb I). reflexivity.
Qed.

Lemma match_version_three a b c :
  numeral a -> numeral b -> numeral c ->
  match_version (a +:+ "." +:+ b +:+ "." +:+ c)
  = Some (a +:+ "." +:+ b +:+ "." +:+ c, "").
Proof.
  intros Ha Hb Hc. unfold match_version.
  change ("." +:+ b +:+ "." +:+ c) with (String "." (b +:+ String "." c)).
  rewrite (span_digits_app a _) by (apply Ha || reflexivity).
  rewrite (numeral_not_empty a Ha).
  rewrite (dot_digits_numeral b (String "." c) Hb eq_refl).
  rewrite <- (append_empty_r c) at 1.
  rewrite (dot_digits_numeral c "" Hc I).
  rewrite append_cons. reflexivity.
Qed.

Lemma token_no_space ver parsed :
  version_token ver parsed -> Py.strip ver = ver.
Proof.
  intros (a & b & [Ha _] & [Hb _] & H).
  apply strip_none.
  apply all_chars_impl with
    (p := fun c => Py.isdigit c || Ascii.eqb c ".");
    [apply token_char_not_space|].
  assert (forall d, all_chars Py.isdigit d = true ->
                    all_chars (fun c => Py.isdigit c || Ascii.eqb c ".") d
                    = true) as Hdig.
  { intros d. apply all_chars_impl. intros c ->. reflexivity. }
  destruct H as [[-> _]|(c & [Hc _] & -> & _)];
    rewrite !all_chars_app, (Hdig a Ha), (Hdig b Hb).
  - reflexivity.
  - now rewrite (Hdig c Hc).
Qed.

(** [parse_version] reads a token as the triple it denotes. *)
Lemma parse_version_token ver parsed :
  version_token ver parsed -> parse_version ver = Some parsed.
Proof.
  intros Htok. unfold parse_version.
  rewrite (token_no_space ver parsed Htok).
  destruct Htok as (a & b & Ha & Hb & [[-> ->]|(c & Hc & -> & ->)]);
    unfold fullmatch_version, Py.split.
  - rewrite (match_version_two a b Ha Hb). simpl.
    change ("." +:+ b) with (String "." b).
    rewrite split_on_dot, split_on_last by (apply Ha || apply Hb).
    simpl. now rewrite (int_numeral a Ha), (int_numeral b Hb).
  - rewrite (match_version_three a b c Ha Hb Hc). simpl.
    change ("." +:+ b +:+ "." +:+ c) with (String "." (b +:+ String "." c)).
    rewrite !split_on_dot, split_on_last
      by (apply Ha || apply Hb || apply Hc).
    simpl.
    now rewrite (int_numeral a Ha), (int_numeral b Hb), (int_numeral c Hc).
Qed.

Lemma tuple_ltb_lt p q : tuple_ltb p q = true <-> tuple_lt p q.
Proof.
  destruct p as [[a b] c], q as [[x y] z]. unfold tuple_ltb, tuple_lt.
  rewrite !orb_true_iff, !andb_true_iff, !orb_true_iff, !andb_true_iff.
  rewrite !Z.ltb_lt, !Z.eqb_eq. reflexivity.
Qed.

Lemma add_legacy_elem fragment legacy_versions ver :
  ver ∈ add_legacy fragment legacy_versions <->
  ver ∈ legacy_versions \/
  (In ver (extract_versions_from_text fragment) /\
   is_legacy_python_version ver = true).
Proof.
  unfold add_legacy.
  generalize (extract_versions_from_text fragment) as tokens.
  intros tokens. revert legacy_versions.
  induction tokens as [|t tokens IH]; intros acc; simpl.
  - split; [now left|]. intros [H|[[] _]]. exact H.
  - rewrite IH. destruct (is_legacy_python_version t) eqn:Et.
    + rewrite elem_of_union, elem_of_singleton. split.
      * intros [[H| ->]|[Hin Hl]]; [now left| |]; right; split; auto.
      * intros [H|[[<-|Hin] Hl]]; [now left; left|now left; right|].
        right. now split.
    + split.
      * intros [H|[Hin Hl]]; [now left|]. right. split; auto.
      * intros [H|[[<-|Hin] Hl]]; [now left|congruence|].
        right. now split.
Qed.

Lemma scan_sound lines : forall block legacy_versions ver,
  (forall v, v ∈ legacy_versions -> is_legacy_python_version v = true) ->
  ver ∈ scan block lines legacy_versions ->
  is_legacy_python_version ver = true.
Proof.
  assert (forall fragment acc,
             (forall v, v ∈ acc -> is_legacy_python_version v = true) ->
             forall v, v ∈ add_legacy fragment acc ->
                       is_legacy_python_version v = true) as Hadd.
  { intros fragment acc Hacc v [H|[_ H]]%add_legacy_elem; auto. }
  induction lines as [|line rest IH]; intros block acc ver Hacc;
    [apply Hacc|].
  simpl.
  assert (ver ∈ (if negb (Py.contains "python-version" line)
                    || negb (Py.contains ":" line)
                 then scan None rest acc
                 else
                   if Py.truthy_str
                        match Py.split_once ":" line with
                        | Some (_, after) => Py.strip after
                        | None => ""
                        end
                   then scan None rest
                          (add_legacy
                             match Py.split_once ":" line with
                             | Some (_, after) => Py.strip after
                             | None => ""
                             end acc)
                   else scan (Some (indent_of line)) rest acc) ->
          is_legacy_python_version ver = true) as Houter.
  { destruct (_ || _); [now apply IH|].
    destruct (Py.truthy_str _); [|now apply IH].
    apply IH. now apply Hadd. }
  destruct block as [indent|]; [|exact Houter].
  destruct (negb (Py.truthy_str (Py.strip line))
            || Py.startswith (Py.strip line) "#"); [now apply IH|].
  destruct (indent_of line <=? indent)%nat; [exact Houter|].
  apply IH. now apply Hadd.
Qed.

(** C3: both versions of the block example are reported, none of the
    inline example; every token the scanner extracts is a dotted pair or
    triple of numerals, is parsed into the triple it denotes with a
    missing patch read as 0, and is legacy exactly when that triple is
    below (3, 14, 0); a token of a scanned fragment enters the result
    exactly when it is legacy, and the result holds legacy versions
    only. *)
Theorem workflow_version_scan :
  find_legacy_python_versions_in_text block_example
  = {[ "3.10"; "3.13.1" ]} /\
  find_legacy_python_versions_in_text indented_block_example
  = {[ "3.10"; "3.13.1" ]} /\
  find_legacy_python_versions_in_text inline_example = ∅ /\
  (forall fragment ver,
      In ver (extract_versions_from_text fragment) ->
      exists parsed,
        version_token ver parsed /\
        parse_version ver = Some parsed /\
        (is_legacy_python_version ver = true <->
         tuple_lt parsed PYTHON_VERSION_THRESHOLD)) /\
  (forall fragment legacy_versions ver,
      ver ∈ add_legacy fragment legacy_versions <->
      ver ∈ legacy_versions \/
      (In ver (extract_versions_from_text fragment) /\
       is_legacy_python_version ver = true)) /\
  (forall text ver,
      ver ∈ find_legacy_python_versions_in_text text ->
      is_legacy_python_version ver = true).
Proof.
  split; [vm_compute; reflexivity|].
  split; [vm_compute; reflexivity|].
  split; [vm_compute; reflexivity|].
  split; [|split].
  - intros fragment ver [parsed Htok]%extracted_is_token.
    exists parsed. split; [assumption|].
    pose proof (parse_version_token ver parsed Htok) as Hp.
    split; [assumption|].
    unfold is_legacy_python_version. rewrite Hp. apply tuple_ltb_lt.
  - apply add_legacy_elem.
  - intros text ver. apply scan_sound. intros v Hv.
    now apply elem_of_empty in Hv.
Qed.

End VersionFacts.

(** * Further properties of the scripts *)

(** ** The stranded and push commands (git_it.py) *)

Module StrandedFacts.
Import GitIt GitItCommands.

Lemma has_uncommitted_fst world d st :
  fst (has_uncommitted_changes world d st) = uncommitted_fact world.
Proof.
  destruct world as [proc|exc]; [|reflexivity].
  unfold has_uncommitted_changes, uncommitted_fact. simpl.
  now destruct (returncode proc =? 0).
Qed.

Lemma get_unpushed_fst world d st :
  fst (get_unpushed_commit_count world d st) = ahead_fact world.
Proof.
  destruct world as [proc|exc]; [|reflexivity].
  unfold get_unpushed_commit_count, ahead_fact. simpl.
  destruct (returncode proc =? 0); simpl; [|reflexivity].
  now destruct (Py.int (Py.strip (stdout proc))).
Qed.

Lemma has_uncommitted_flag world d st :
  HAD_ERRORS (snd (has_uncommitted_changes world d st))
  = HAD_ERRORS st
    || match uncommitted_fact world with None => true | Some _ => false end.
Proof.
  destruct world as [proc|exc]; [|simpl; now rewrite orb_true_r].
  unfold has_uncommitted_changes, uncommitted_fact. simpl.
  destruct (returncode proc =? 0); simpl;
    [now rewrite orb_false_r|now rewrite orb_true_r].
Qed.

Lemma get_unpushed_flag world d st :
  HAD_ERRORS (snd (get_unpushed_commit_count world d st))
  = HAD_ERRORS st
    || match ahead_fact world with None => true | Some _ => false end.
Proof.
  destruct world as [proc|exc]; [|simpl; now rewrite orb_true_r].
  unfold get_unpushed_commit_count, ahead_fact. simpl.
  destruct (returncode proc =? 0); simpl; [|now rewrite orb_true_r].
  destruct (Py.int (Py.strip (stdout proc))); simpl;
    [now rewrite orb_false_r|now rewrite orb_true_r].
Qed.

Lemma uncommitted_fact_None world :
  uncommitted_fact world = None <-> errored world.
Proof.
  destruct world as [proc|exc]; simpl; [|tauto].
  destruct (Z.eqb_spec (returncode proc) 0); split;
    try discriminate; try tauto.
Qed.

Lemma ahead_fact_None world : ahead_fact world = None <-> failed world.
Proof.
  destruct world as [proc|exc]; simpl; [|tauto].
  destruct (Z.eqb_spec (returncode proc) 0); split; tauto.
Qed.

Lemma stranded_scan_rows status rev_list dirs : forall acc st,
  fst (stranded_scan status rev_list dirs acc st)
  = mkStranded
      (uncommitted acc ++ flat_map (row_uncommitted status) dirs)
      (unpushed acc ++ flat_map (row_unpushed rev_list) dirs)
      (clean acc ++ flat_map (row_clean status rev_list) dirs)
      (non_git acc ++ flat_map row_non_git dirs).
Proof.
  induction dirs as [|d rest IH]; intros acc st; simpl.
  - rewrite !app_nil_r. now destruct acc.
  - unfold row_uncommitted, row_unpushed, row_clean, row_non_git.
    destruct (is_git_repo d); simpl.
    + pose proof (has_uncommitted_fst (status d) d st) as Hu.
      destruct (has_uncommitted_changes (status d) d st) as [uncomm st1].
      pose proof (get_unpushed_fst (rev_list d) d st1) as Hp.
      destruct (get_unpushed_commit_count (rev_list d) d st1)
        as [count st2].
      simpl in Hu, Hp. subst uncomm count. rewrite IH. simpl.
      destruct (uncommitted_fact (status d)) as [[|]|];
        (destruct (ahead_fact (rev_list d)) as [n|];
         [destruct (0 <? n), (n =? 0)|]);
        simpl; rewrite <- ?app_assoc; reflexivity.
    + rewrite IH. simpl. now rewrite <- ?app_assoc.
Qed.

Lemma stranded_scan_flag status rev_list dirs : forall acc st,
  HAD_ERRORS (snd (stranded_scan status rev_list dirs acc st)) = true <->
  HAD_ERRORS st = true \/
  exists d, In d dirs /\ is_git_repo d = true /\
            (errored (status d) \/ failed (rev_list d)).
Proof.
  induction dirs as [|d rest IH]; intros acc st; simpl.
  - split; [now left|]. now intros [H|(d & [] & _)].
  - destruct (is_git_repo d) eqn:Eg; simpl.
    + pose proof (has_uncommitted_flag (status d) d st) as Hu.
      destruct (has_uncommitted_changes (status d) d st) as [uncomm st1].
      pose proof (get_unpushed_flag (rev_list d) d st1) as Hp.
      destruct (get_unpushed_commit_count (rev_list d) d st1)
        as [count st2].
      simpl in Hu, Hp. rewrite IH, Hp, Hu, !orb_true_iff.
      split.
      * intros [[[H|H]|H]|(x & Hx & Hg & Hf)].
        -- now left.
        -- right. exists d. split; [now left|]. split; [assumption|].
           left. apply uncommitted_fact_None.
           now destruct (uncommitted_fact (status d)).
        -- right. exists d. split; [now left|]. split; [assumption|].
           right. apply ahead_fact_None.
           now destruct (ahead_fact (rev_list d)).
        -- right. exists x. split; [now right|]. now split.
      * intros [H|(x & [<-|Hx] & Hg & Hf)].
        -- now left; left; left.
        -- left. destruct Hf as [Hf|Hf].
           ++ apply uncommitted_fact_None in Hf. rewrite Hf. now left; right.
           ++ apply ahead_fact_None in Hf. rewrite Hf. now right.
        -- right. exists x. now repeat split.
    + rewrite IH. split.
      * intros [H|(x & Hx & Hg & Hf)]; [now left|].
        right. exists x. split; [now right|]. now split.
      * intros [H|(x & [<-|Hx] & Hg & Hf)]; [now left|congruence|].
        right. exists x. now repeat split.
Qed.

Lemma in_iter_child_dirs d listing :
  In d (iter_child_dirs listing) <-> In d listing /\ is_dir d = true.
Proof.
  unfold iter_child_dirs.
  rewrite <- !list_elem_of_In.
  rewrite (sorted_perm (fun p => Py.lower (name p)) String.leb).
  rewrite list_elem_of_filter, Is_true_true. tauto.
Qed.

Section Members.

Variables (status rev_list : Path -> RunResult) (dirs : list Path).
Variable st : State.

Let r : Stranded :=
  fst (stranded_scan status rev_list dirs (mkStranded [] [] [] []) st).

Lemma in_uncommitted d :
  In d (uncommitted r) <->
  In d dirs /\ is_git_repo d = true /\
  uncommitted_fact (status d) = Some true.
Proof.
  unfold r. rewrite stranded_scan_rows. simpl.
  rewrite in_flat_map. unfold row_uncommitted. split.
  - intros (x & Hx & Hin). destruct (is_git_repo x) eqn:Eg; [|contradiction].
    destruct (uncommitted_fact (status x)) as [[|]|] eqn:Eu;
      try contradiction.
    destruct Hin as [<-|[]]. now repeat split.
  - intros (Hin & Hg & Hu). exists d. rewrite Hg, Hu. split; [assumption|].
    now left.
Qed.

Lemma in_unpushed d n :
  In (d, n) (unpushed r) <->
  In d dirs /\ is_git_repo d = true /\
  ahead_fact (rev_list d) = Some n /\ 0 < n.
Proof.
  unfold r. rewrite stranded_scan_rows. simpl.
  rewrite in_flat_map. unfold row_unpushed. split.
  - intros (x & Hx & Hin). destruct (is_git_repo x) eqn:Eg; [|contradiction].
    destruct (ahead_fact (rev_list x)) as [m|] eqn:Ea; [|contradiction].
    destruct (Z.ltb_spec 0 m); [|contradiction].
    destruct Hin as [[= <- <-]|[]]. now repeat split.
  - intros (Hin & Hg & Ha & Hn). exists d. rewrite Hg, Ha.
    split; [assumption|].
    destruct (Z.ltb_spec 0 n); [now left|lia].
Qed.

Lemma in_clean d :
  In d (clean r) <->
  In d dirs /\ is_git_repo d = true /\
  uncommitted_fact (status d) = Some false /\
  ahead_fact (rev_list d) = Some 0.
Proof.
  unfold r. rewrite stranded_scan_rows. simpl.
  rewrite in_flat_map. unfold row_clean. split.
  - intros (x & Hx & Hin). destruct (is_git_repo x) eqn:Eg; [|contradiction].
    destruct (uncommitted_fact (status x)) as [[|]|] eqn:Eu;
      try contradiction.
    destruct (ahead_fact (rev_list x)) as [m|] eqn:Ea; [|contradiction].
    destruct (Z.eqb_spec m 0); [|contradiction].
    destruct Hin as [<-|[]]. subst m. now repeat split.
  - intros (Hin & Hg & Hu & Ha). exists d. rewrite Hg, Hu, Ha.
    split; [assumption|]. now left.
Qed.

Lemma in_non_git d :
  In d (non_git r) <-> In d dirs /\ is_git_repo d = false.
Proof.
  unfold r. rewrite stranded_scan_rows. simpl.
  rewrite in_flat_map. unfold row_non_git. split.
  - intros (x & Hx & Hin). destruct (is_git_repo x) eqn:Eg; [contradiction|].
    destruct Hin as [<-|[]]. now split.
  - intros (Hin & Hg). exists d. rewrite Hg. split; [assumption|now left].
Qed.

End Members.

(** X1: the four lists of [cmd_stranded].  A repository is listed with
    uncommitted changes when [git status] succeeded and printed
    something; as unpushed when the ahead count is known and positive;
    as clean when both facts are known, the tree is not dirty and the
    count is 0; a directory without [.git] is listed as non-git. *)
Theorem stranded_lists status rev_list dirs st :
  let r :=
    fst (stranded_scan status rev_list dirs (mkStranded [] [] [] []) st) in
  (forall d,
      In d (uncommitted r) <->
      In d dirs /\ is_git_repo d = true /\
      uncommitted_fact (status d) = Some true) /\
  (forall d n,
      In (d, n) (unpushed r) <->
      In d dirs /\ is_git_repo d = true /\
      ahead_fact (rev_list d) = Some n /\ 0 < n) /\
  (forall d,
      In d (clean r) <->
      In d dirs /\ is_git_repo d = true /\
      uncommitted_fact (status d) = Some false /\
      ahead_fact (rev_list d) = Some 0) /\
  (forall d,
      In d (non_git r) <-> In d dirs /\ is_git_repo d = false).
Proof.
  intros r. split; [|split; [|split]].
  - intros d. apply in_uncommitted.
  - intros d n. apply in_unpushed.
  - intros d. apply in_clean.
  - intros d. apply in_non_git.
Qed.

(** X2: a repository that [cmd_stranded] lists as clean is in no other
    list, and neither of its two probes failed: a repository whose
    state could not be determined is never called clean. *)
Theorem clean_means_known status rev_list dirs st d :
  let r :=
    fst (stranded_scan status rev_list dirs (mkStranded [] [] [] []) st) in
  In d (clean r) ->
  ~ In d (uncommitted r) /\
  (forall n, ~ In (d, n) (unpushed r)) /\
  ~ In d (non_git r) /\
  ~ errored (status d) /\
  ~ failed (rev_list d).
Proof.
  intros r.
  intros (Hin & Hg & Hdirty & Hahead)%in_clean.
  split; [|split; [|split; [|split]]].
  - intros (_ & _ & H)%in_uncommitted. congruence.
  - intros n (_ & _ & H & Hpos)%in_unpushed.
    rewrite Hahead in H. injection H as <-. lia.
  - intros (_ & H)%in_non_git. congruence.
  - intros H%uncommitted_fact_None. congruence.
  - intros H%ahead_fact_None. congruence.
Qed.

Lemma clean_means_known_witness :
  ~ errored (Ran (mkCompleted 0 "" "")).
Proof.
  apply (clean_means_known
           (fun _ => Ran (mkCompleted 0 "" ""))
           (fun _ => Ran (mkCompleted 0 ("0" +:+ nl) ""))
           [mkPath "tidy" "/work/tidy" true Dir Missing] initial
           (mkPath "tidy" "/work/tidy" true Dir Missing)).
  vm_compute. now left.
Defined.

(** X3: after [cmd_stranded] the error flag is up exactly when it was
    up before or one of the two probes failed for some repository
    among the child directories. *)
Theorem stranded_error_flag status rev_list listing verbose st :
  HAD_ERRORS (snd (cmd_stranded status rev_list listing verbose st)) = true
  <->
  HAD_ERRORS st = true \/
  exists d,
    In d listing /\ is_dir d = true /\ is_git_repo d = true /\
    (errored (status d) \/ failed (rev_list d)).
Proof.
  unfold cmd_stranded.
  pose proof (stranded_scan_flag status rev_list (iter_child_dirs listing)
                (mkStranded [] [] [] []) st) as H.
  destruct (stranded_scan status rev_list (iter_child_dirs listing) _ st)
    as [r st'].
  simpl in *. rewrite H. split.
  - intros [Hf|(d & [Hin Hd]%in_iter_child_dirs & Hg & He)]; [now left|].
    right. exists d. now repeat split.
  - intros [Hf|(d & Hin & Hd & Hg & He)]; [now left|].
    right. exists d. split; [now apply in_iter_child_dirs|]. now split.
Qed.

Lemma push_scan_rows rev_list push dirs : forall pushed out st,
  fst (fst (push_scan rev_list push dirs pushed out st))
  = pushed ++ flat_map (row_pushed rev_list) dirs.
Proof.
  induction dirs as [|d rest IH]; intros pushed out st; simpl.
  - now rewrite app_nil_r.
  - unfold row_pushed. destruct (is_git_repo d); simpl; [|apply IH].
    pose proof (get_unpushed_fst (rev_list d) d st) as Hp.
    destruct (get_unpushed_commit_count (rev_list d) d st) as [count st1].
    simpl in Hp. subst count.
    destruct (ahead_fact (rev_list d)) as [n|]; [|apply IH].
    destruct (n =? 0); [apply IH|].
    destruct (run_cmd (push d) ["git"; "push"] d st1)
      as [[[code o] err] st2].
    destruct (negb (code =? 0)); [|destruct (Py.truthy_str (Py.strip o))];
      rewrite IH, <- app_assoc; reflexivity.
Qed.

(** X4: [cmd_push] runs [git push] in a child directory exactly when it
    is a repository whose ahead count is known and is not 0; a
    repository whose count could not be determined is skipped. *)
Theorem push_only_when_ahead rev_list push listing st d :
  In d (fst (fst (cmd_push rev_list push listing st))) <->
  In d listing /\ is_dir d = true /\ is_git_repo d = true /\
  exists n, ahead_fact (rev_list d) = Some n /\ n <> 0.
Proof.
  unfold cmd_push. rewrite push_scan_rows. simpl.
  rewrite in_flat_map. unfold row_pushed. split.
  - intros (x & [Hx Hd]%in_iter_child_dirs & Hin).
    destruct (is_git_repo x) eqn:Eg; [|contradiction].
    destruct (ahead_fact (rev_list x)) as [n|] eqn:Ea; [|contradiction].
    destruct (Z.eqb_spec n 0); [contradiction|].
    destruct Hin as [<-|[]]. repeat split; try assumption.
    exists n. now split.
  - intros (Hin & Hd & Hg & n & Ha & Hn). exists d.
    split; [now apply in_iter_child_dirs|]. rewrite Hg, Ha.
    destruct (Z.eqb_spec n 0); [contradiction|now left].
Qed.


End StrandedFacts.

(** ** Reading and grouping origin URLs (how_cloned.py) *)

Module OriginFacts.
Import HowCloned.

Lemma lower_char_idem c : Py.lower_char (Py.lower_char c) = Py.lower_char c.
Proof. destruct c as [[] [] [] [] [] [] [] []]; vm_compute; reflexivity. Qed.

Lemma lower_idem s : Py.lower (Py.lower s) = Py.lower s.
Proof.
  induction s as [|c r IH]; simpl; [reflexivity|].
  now rewrite lower_char_idem, IH.
Qed.

(** X5: the classification does not depend on letter case: two URLs
    with the same lower-case form fall in the same class, and so do a
    URL and its lower-case form. *)
Theorem classify_ignores_case :
  (forall a b,
      Py.lower a = Py.lower b ->
      classify_clone_type (Some a) = classify_clone_type (Some b)) /\
  (forall url,
      classify_clone_type (Some (Py.lower url))
      = classify_clone_type (Some url)).
Proof.
  split.
  - intros a b H. unfold classify_clone_type. now rewrite H.
  - intros url. unfold classify_clone_type. now rewrite lower_idem.
Qed.

(** X6: [get_origin_url] answers with a URL only when git succeeded,
    and the URL is then the stripped output, never empty; in every
    other case it answers [None], which is the one input the
    classifier maps to none. *)
Theorem origin_url_is_stripped_or_absent world repo :
  match fst (get_origin_url world repo) with
  | Some url =>
      url <> "" /\ Py.strip url = url /\
      exists proc,
        world = Ran proc /\ returncode proc = 0 /\
        url = Py.strip (stdout proc)
  | None =>
      errored world \/
      exists proc, world = Ran proc /\ Py.strip (stdout proc) = ""
  end /\
  (classify_clone_type (fst (get_origin_url world repo)) = none <->
   fst (get_origin_url world repo) = None).
Proof.
  split.
  - destruct world as [proc|exc]; simpl; [|now left].
    destruct (Z.eqb_spec (returncode proc) 0) as [Hrc|Hrc]; simpl;
      [|now left].
    destruct (Py.strip (stdout proc)) as [|c r] eqn:E; simpl.
    + right. now exists proc.
    + split; [discriminate|]. split.
      * rewrite <- E. apply strip_idem.
      * exists proc. now rewrite E.
  - destruct (fst (get_origin_url world repo)) as [url|].
    + split; [|discriminate].
      intros H. exfalso. revert H. unfold classify_clone_type.
      destruct (_ || _); [discriminate|]. destruct (_ || _); discriminate.
    + split; reflexivity.
Qed.

Lemma scan_groups git repos : forall g out,
  fst (scan git repos g out)
  = mkGroups
      (ssh_repos g ++ List.filter (is_class ssh) (clone_entries git repos))
      (https_repos g
         ++ List.filter (is_class https) (clone_entries git repos))
      (other_repos g
         ++ List.filter (is_class other) (clone_entries git repos))
      (none_repos g ++ List.filter (is_class none) (clone_entries git repos)).
Proof.
  induction repos as [|repo rest IH]; intros g out; simpl.
  - rewrite !app_nil_r. now destruct g.
  - destruct (get_origin_url (git repo) repo) as [url printed] eqn:E.
    rewrite IH. unfold add, is_class. simpl.
    destruct (classify_clone_type url); simpl;
      rewrite <- ?app_assoc; reflexivity.
Qed.

Lemma class_lengths (l : list (Path * option string)) :
  (length (List.filter (is_class ssh) l)
   + length (List.filter (is_class https) l)
   + length (List.filter (is_class other) l)
   + length (List.filter (is_class none) l) = length l)%nat.
Proof.
  induction l as [|entry l IH]; [reflexivity|].
  unfold is_class in *. simpl.
  destruct (classify_clone_type (snd entry)); simpl; lia.
Qed.

(** X7: [main] puts every repository, paired with the URL git gave for
    it, into the one group of its class, and each group keeps the order
    of the directory listing. *)
Theorem groups_partition git repos out :
  let g := fst (scan git repos (mkGroups [] [] [] []) out) in
  ssh_repos g = List.filter (is_class ssh) (clone_entries git repos) /\
  https_repos g = List.filter (is_class https) (clone_entries git repos) /\
  other_repos g = List.filter (is_class other) (clone_entries git repos) /\
  none_repos g = List.filter (is_class none) (clone_entries git repos) /\
  (length (ssh_repos g) + length (https_repos g)
   + length (other_repos g) + length (none_repos g) = length repos)%nat.
Proof.
  intros g. unfold g. rewrite scan_groups. simpl.
  repeat (split; [reflexivity|]).
  rewrite class_lengths. unfold clone_entries. apply length_map.
Qed.

End OriginFacts.

(** ** What the workflow scanner accepts and where it looks
    (gha_wrong_python.py) *)

Module ScanFacts.
Import GhaWrongPython VersionFacts.

Lemma match_version_numeral a : numeral a -> match_version a = None.
Proof.
  intros Ha. unfold match_version.
  rewrite (span_digits_all a (proj1 Ha)), (numeral_not_empty a Ha).
  reflexivity.
Qed.

Lemma match_version_four a b c d :
  numeral a -> numeral b -> numeral c -> numeral d ->
  match_version (a +:+ "." +:+ b +:+ "." +:+ c +:+ "." +:+ d)
  = Some (a +:+ "." +:+ b +:+ "." +:+ c, String "." d).
Proof.
  intros Ha Hb Hc Hd. unfold match_version.
  change ("." +:+ b +:+ "." +:+ c +:+ "." +:+ d)
    with (String "." (b +:+ String "." (c +:+ String "." d))).
  rewrite (span_digits_app a _) by (apply Ha || reflexivity).
  rewrite (numeral_not_empty a Ha).
  rewrite (dot_digits_numeral b (String "." (c +:+ String "." d)) Hb
             eq_refl).
  rewrite (dot_digits_numeral c (String "." d) Hc eq_refl).
  rewrite append_cons. reflexivity.
Qed.

Lemma digits_are_token_chars d :
  all_chars Py.isdigit d = true ->
  all_chars (fun c => negb (Py.isspace c)) d = true.
Proof. apply numeral_no_space. Qed.

(** X8: a version needs two or three components.  A bare number such
    as a major version alone, and a version of four components, are not
    parsed and are never legacy. *)
Theorem parse_version_arity a b c d :
  numeral a -> numeral b -> numeral c -> numeral d ->
  parse_version a = None /\
  is_legacy_python_version a = false /\
  parse_version (a +:+ "." +:+ b +:+ "." +:+ c +:+ "." +:+ d) = None /\
  is_legacy_python_version (a +:+ "." +:+ b +:+ "." +:+ c +:+ "." +:+ d)
  = false.
Proof.
  intros Ha Hb Hc Hd.
  assert (parse_version a = None) as H1.
  { unfold parse_version, fullmatch_version.
    rewrite (strip_none a (digits_are_token_chars a (proj1 Ha))).
    now rewrite (match_version_numeral a Ha). }
  assert (parse_version (a +:+ "." +:+ b +:+ "." +:+ c +:+ "." +:+ d)
          = None) as H4.
  { unfold parse_version, fullmatch_version.
    rewrite strip_none.
    - now rewrite (match_version_four a b c d Ha Hb Hc Hd).
    - rewrite !all_chars_app.
      rewrite (digits_are_token_chars a (proj1 Ha)),
        (digits_are_token_chars b (proj1 Hb)),
        (digits_are_token_chars c (proj1 Hc)),
        (digits_are_token_chars d (proj1 Hd)).
      reflexivity. }
  unfold is_legacy_python_version. now rewrite H1, H4.
Qed.

Lemma parse_version_arity_witness :
  parse_version "3" = None /\ is_legacy_python_version "3.9.1.2" = false.
Proof.
  assert (numeral "3") as H3 by (split; [reflexivity|discriminate]).
  assert (numeral "9") as H9 by (split; [reflexivity|discriminate]).
  assert (numeral "1") as H1 by (split; [reflexivity|discriminate]).
  assert (numeral "2") as H2 by (split; [reflexivity|discriminate]).
  destruct (parse_version_arity "3" "9" "1" "2" H3 H9 H1 H2)
    as (Ha & _ & _ & Hb).
  split; [exact Ha|exact Hb].
Defined.

Lemma scan_skip pre : forall rest legacy_versions,
  (forall l, In l pre -> key_line l = false) ->
  scan None (pre ++ rest) legacy_versions = scan None rest legacy_versions.
Proof.
  induction pre as [|l pre IH]; intros rest acc Hpre; [reflexivity|].
  simpl. rewrite <- negb_andb.
  change (Py.contains "python-version" l && Py.contains ":" l)
    with (key_line l).
  rewrite (Hpre l) by now left. simpl.
  apply IH. intros x Hx. apply Hpre. now right.
Qed.

Lemma add_legacy_mono fragment legacy_versions ver :
  ver ∈ legacy_versions -> ver ∈ add_legacy fragment legacy_versions.
Proof. intros H. apply add_legacy_elem. now left. Qed.

(** A version that has been found is kept to the end. *)
Lemma scan_mono lines : forall block legacy_versions ver,
  ver ∈ legacy_versions -> ver ∈ scan block lines legacy_versions.
Proof.
  induction lines as [|line rest IH]; intros block acc ver Hin;
    [exact Hin|].
  simpl.
  assert (ver ∈ (if negb (Py.contains "python-version" line)
                    || negb (Py.contains ":" line)
                 then scan None rest acc
                 else
                   if Py.truthy_str
                        match Py.split_once ":" line with
                        | Some (_, after) => Py.strip after
                        | None => ""
                        end
                   then scan None rest
                          (add_legacy
                             match Py.split_once ":" line with
                             | Some (_, after) => Py.strip after
                             | None => ""
                             end acc)
                   else scan (Some (indent_of line)) rest acc)) as Houter.
  { destruct (_ || _); [now apply IH|].
    destruct (Py.truthy_str _); [|now apply IH].
    apply IH. now apply add_legacy_mono. }
  destruct block as [indent|]; [|exact Houter].
  destruct (negb (Py.truthy_str (Py.strip line))
            || Py.startswith (Py.strip line) "#"); [now apply IH|].
  destruct (indent_of line <=? indent)%nat; [exact Houter|].
  apply IH. now apply add_legacy_mono.
Qed.

(** X9: a workflow without a line that holds both [python-version] and
    a colon has no legacy version, whatever numbers it contains. *)
Theorem no_key_no_versions text :
  (forall line, In line (Py.splitlines text) -> key_line line = false) ->
  find_legacy_python_versions_in_text text = ∅.
Proof.
  intros H. unfold find_legacy_python_versions_in_text.
  rewrite <- (app_nil_r (Py.splitlines text)).
  now rewrite scan_skip.
Qed.

Lemma no_key_no_versions_witness :
  find_legacy_python_versions_in_text "node-version: 3.9" = ∅.
Proof.
  apply no_key_no_versions.
  intros line [<-|[]]. reflexivity.
Defined.

(** X10: the first [python-version] line of a workflow, when it carries
    its value on the same line, is honoured: every legacy version in
    that value is in the result. *)
Theorem first_inline_key_is_scanned text pre line post ver :
  Py.splitlines text = pre ++ line :: post ->
  (forall l, In l pre -> key_line l = false) ->
  key_line line = true ->
  inline_value line <> "" ->
  In ver (extract_versions_from_text (inline_value line)) ->
  is_legacy_python_version ver = true ->
  ver ∈ find_legacy_python_versions_in_text text.
Proof.
  intros Hlines Hpre Hkey Hval Hin Hleg.
  unfold find_legacy_python_versions_in_text.
  rewrite Hlines, (scan_skip pre _ _ Hpre). simpl.
  rewrite <- negb_andb.
  change (Py.contains "python-version" line && Py.contains ":" line)
    with (key_line line).
  rewrite Hkey. simpl.
  change (match Py.split_once ":" line with
          | Some (_, after) => Py.strip after
          | None => ""
          end) with (inline_value line).
  destruct (inline_value line) as [|c r] eqn:E; [now contradiction Hval|].
  simpl. apply scan_mono, add_legacy_elem. right. now split.
Qed.

Lemma first_inline_key_is_scanned_witness :
  "3.9" ∈ find_legacy_python_versions_in_text
             ("name: ci" +:+ nl +:+ "  python-version: 3.9").
Proof.
  apply (first_inline_key_is_scanned _ ["name: ci"]
           "  python-version: 3.9" [] "3.9").
  - reflexivity.
  - intros l [<-|[]]. reflexivity.
  - reflexivity.
  - discriminate.
  - vm_compute. now left.
  - reflexivity.
Defined.

Lemma scan_block_members members : forall indent post legacy_versions m ver,
  (forall l, In l members ->
             Py.strip l <> "" /\
             Py.startswith (Py.strip l) "#" = false /\
             (indent < indent_of l)%nat) ->
  In m members ->
  In ver (extract_versions_from_text m) ->
  is_legacy_python_version ver = true ->
  ver ∈ scan (Some indent) (members ++ post) legacy_versions.
Proof.
  induction members as [|l members IH];
    intros indent post acc m ver Hall Hm Hin Hleg; [destruct Hm|].
  destruct (Hall l (or_introl eq_refl)) as (Hne & Hcomment & Hind).
  assert (negb (Py.truthy_str (Py.strip l))
          || Py.startswith (Py.strip l) "#" = false) as Hmember.
  { rewrite Hcomment. destruct (Py.strip l); [now contradiction Hne|].
    reflexivity. }
  assert ((indent_of l <=? indent)%nat = false) as Hdeeper
    by (apply Nat.leb_gt; exact Hind).
  cbn [app scan]. rewrite Hmember, Hdeeper.
  destruct Hm as [<-|Hm].
  - apply scan_mono, add_legacy_elem. right. now split.
  - apply (IH indent post _ m ver); try assumption.
    intros x Hx. apply Hall. now right.
Qed.

(** X11: the first [python-version] line of a workflow, when its value
    is a block, is honoured: every legacy version on the lines that
    follow it, as long as they are indented deeper than the key and are
    neither blank nor comments, is in the result. *)
Theorem first_block_key_is_scanned text pre line members post m ver :
  Py.splitlines text = pre ++ line :: members ++ post ->
  (forall l, In l pre -> key_line l = false) ->
  key_line line = true ->
  inline_value line = "" ->
  (forall l, In l members ->
             Py.strip l <> "" /\
             Py.startswith (Py.strip l) "#" = false /\
             (indent_of line < indent_of l)%nat) ->
  In m members ->
  In ver (extract_versions_from_text m) ->
  is_legacy_python_version ver = true ->
  ver ∈ find_legacy_python_versions_in_text text.
Proof.
  intros Hlines Hpre Hkey Hval Hall Hm Hin Hleg.
  unfold find_legacy_python_versions_in_text.
  rewrite Hlines, (scan_skip pre _ _ Hpre).
  cbn [scan]. rewrite <- negb_andb.
  change (Py.contains "python-version" line && Py.contains ":" line)
    with (key_line line).
  rewrite Hkey.
  change (match Py.split_once ":" line with
          | Some (_, after) => Py.strip after
          | None => ""
          end) with (inline_value line).
  rewrite Hval. cbn [negb orb Py.truthy_str Py.is_empty].
  now apply (scan_block_members members _ post _ m ver).
Qed.

Lemma first_block_key_is_scanned_witness :
  "3.10" ∈ find_legacy_python_versions_in_text block_example.
Proof.
  apply (first_block_key_is_scanned block_example []
           "python-version:"
           ["  - " +:+ dquote +:+ "3.10" +:+ dquote;
            "  - " +:+ dquote +:+ "3.13.1" +:+ dquote]
           []
           ("  - " +:+ dquote +:+ "3.10" +:+ dquote) "3.10").
  - vm_compute. reflexivity.
  - intros l [].
  - reflexivity.
  - reflexivity.
  - intros l [<-|[<-|[]]]; vm_compute; repeat split; try discriminate; lia.
  - now left.
  - vm_compute. now left.
  - reflexivity.
Defined.

End ScanFacts.

(** ** When fork classification answers and when it raises
    (not_mine.py) *)

Module ForkEdgeFacts.
Import NotMine.





End ForkEdgeFacts.

(** ** What [check_project] reports (py314_support.py) *)

Module SupportFacts.
Import Py314Support.

Lemma strongly_sorted_after {A} (R : A -> A -> Prop) l1 x l2 y :
  StronglySorted R (l1 ++ x :: l2) -> In y l2 -> R x y.
Proof.
  induction l1 as [|a l1 IH]; simpl; intros Hs Hy.
  - inversion Hs as [|? ? _ Hall]; subst.
    rewrite List.Forall_forall in Hall. now apply Hall.
  - inversion Hs; subst. now apply IH.
Qed.

Section Reported.

Context {V : Type}.
Variable Version : string -> option V.
Variable version_leb : V -> V -> bool.
Variable Version_0_0 : V.
Variable contains_prereleases : string -> string -> option bool.
Variable get_project : string -> ProjectResponse.
Variable get_release : string -> string -> ReleaseResponse.

Let run (name : string) : SupportResult * list string :=
  check_project_traced Version version_leb Version_0_0
    contains_prereleases get_project get_release name.

Let supports (name v : string) : Prop :=
  fst (_release_supports contains_prereleases get_release name v) = true.

Lemma releases_sorted_in name v :
  In v (_releases_sorted Version version_leb Version_0_0 get_project name)
  <->
  project_status (get_project name) = 200 /\
  In v (releases (get_project name)).
Proof.
  unfold _releases_sorted.
  destruct (Z.eqb_spec (project_status (get_project name)) 200) as [E|E];
    simpl.
  - rewrite <- !list_elem_of_In.
    rewrite (sorted_perm (key Version Version_0_0)
               (fun a b => version_leb b a)).
    tauto.
  - split; [intros []|tauto].
Qed.

Lemma release_reason name v ok why :
  _release_supports contains_prereleases get_release name v = (ok, why) ->
  (ok = true ->
   (why = "classifier" /\
    In PY_TAG (default [] (classifiers (get_release name v)))) \/
   (why = "requires_python" /\
    ~ In PY_TAG (default [] (classifiers (get_release name v))))) /\
  (ok = false -> why = "").
Proof.
  unfold _release_supports.
  destruct (negb (status_code (get_release name v) =? 200));
    [intros [= <- <-]; split; [discriminate|reflexivity]|].
  destruct (bool_decide _) eqn:Ec.
  - apply bool_decide_eq_true, list_elem_of_In in Ec.
    intros [= <- <-]. split; [|discriminate]. intros _. left. now split.
  - apply bool_decide_eq_false in Ec. rewrite list_elem_of_In in Ec.
    destruct (Py.truthy_str _);
      [|intros [= <- <-]; split; [discriminate|reflexivity]].
    destruct (contains_prereleases _ PY_VERSION_STR) as [[|]|];
      intros [= <- <-]; split; try discriminate; try reflexivity.
    intros _. right. now split.
Qed.

Lemma scan_result name versions : forall fetched,
  let r := fst (scan contains_prereleases get_release name versions fetched)
  in
  Py314Support.name r = name /\
  (supported r = true <-> exists v, version r = Some v) /\
  (supported r = false -> version r = None /\ reason r = "") /\
  (forall v,
      version r = Some v ->
      In v versions /\ supports name v /\
      ((reason r = "classifier" /\
        In PY_TAG (default [] (classifiers (get_release name v)))) \/
       (reason r = "requires_python" /\
        ~ In PY_TAG (default [] (classifiers (get_release name v)))))).
Proof.
  induction versions as [|v rest IH]; intros fetched; simpl.
  - split; [reflexivity|]. split; [split; [discriminate|now intros [v H]]|].
    split; [now split|]. discriminate.
  - destruct (_release_supports contains_prereleases get_release name v)
      as [ok why] eqn:E.
    destruct (release_reason name v ok why E) as [Hyes Hno].
    destruct ok; simpl.
    + split; [reflexivity|]. split; [split; eauto|].
      split; [discriminate|].
      intros w [= <-]. split; [now left|].
      split; [unfold supports; now rewrite E|]. now apply Hyes.
    + destruct (IH (fetched ++ [v])) as (Hn & Hs & Hu & Hv).
      split; [assumption|]. split; [assumption|]. split; [assumption|].
      intros w Hw. destruct (Hv w Hw) as (Hin & Hsup & Hr).
      split; [now right|]. now split.
Qed.

(** X13: the result of [check_project] is consistent: it is marked
    supported exactly when it names a version; the version it names is
    a release of the project, supports 3.14, and the reason is
    [classifier] when that release carries the tag and
    [requires_python] otherwise; an unsupported result names no version
    and gives no reason; and a project whose page cannot be fetched is
    unsupported without any release being asked for. *)
Theorem check_project_result name :
  let r := fst (run name) in
  Py314Support.name r = name /\
  (supported r = true <-> exists v, version r = Some v) /\
  (supported r = false -> version r = None /\ reason r = "") /\
  (forall v,
      version r = Some v ->
      project_status (get_project name) = 200 /\
      In v (releases (get_project name)) /\
      supports name v /\
      ((reason r = "classifier" /\
        In PY_TAG (default [] (classifiers (get_release name v)))) \/
       (reason r = "requires_python" /\
        ~ In PY_TAG (default [] (classifiers (get_release name v)))))) /\
  (project_status (get_project name) <> 200 ->
   run name = (mkSupportResult name false None "", [])).
Proof.
  intros r. unfold r, run, check_project_traced.
  destruct (scan_result name
              (_releases_sorted Version version_leb Version_0_0
                 get_project name) [])
    as (Hn & Hs & Hu & Hv).
  split; [assumption|]. split; [assumption|]. split; [assumption|].
  split.
  - intros v Hver. destruct (Hv v Hver) as ([H200 Hin]%releases_sorted_in
                                            & Hsup & Hr).
    now repeat split.
  - intros Hne. unfold _releases_sorted.
    apply Z.eqb_neq in Hne. now rewrite Hne.
Qed.

Hypothesis leb_total :
  forall a b, version_leb a b = true \/ version_leb b a = true.
Hypothesis leb_trans :
  forall a b c, version_leb a b = true -> version_leb b c = true ->
                version_leb a c = true.

Lemma leb_refl a : version_leb a a = true.
Proof. now destruct (leb_total a a). Qed.

(** X14: the version that [check_project] reports is the highest one
    that supports 3.14: no release of the project that supports 3.14
    has a higher version. *)
Theorem reported_version_is_newest name v u :
  version (fst (run name)) = Some v ->
  In u (releases (get_project name)) ->
  supports name u ->
  version_leb (key Version Version_0_0 u) (key Version Version_0_0 v)
  = true.
Proof.
  intros Hver Hu Hsup. unfold run, check_project_traced in Hver.
  pose proof (sorted_StronglySorted (key Version Version_0_0)
                (fun a b => version_leb b a)
                (fun a b => leb_total b a)
                (fun a b c Hab Hbc => leb_trans c b a Hbc Hab)
                (releases (get_project name))) as Hsorted.
  assert (project_status (get_project name) = 200) as H200.
  { destruct (scan_result name
                (_releases_sorted Version version_leb Version_0_0
                   get_project name) []) as (_ & _ & _ & Hv).
    now destruct (Hv v Hver) as ([H _]%releases_sorted_in & _). }
  assert (In u (_releases_sorted Version version_leb Version_0_0
                  get_project name)) as Hu'
    by now apply releases_sorted_in.
  unfold _releases_sorted in Hver, Hu'.
  apply Z.eqb_eq in H200. rewrite H200 in Hver, Hu'. simpl in Hver, Hu'.
  destruct (PyPIFacts.scan_first contains_prereleases get_release name
              (Py.sorted (key Version Version_0_0)
                 (fun a b => version_leb b a)
                 (releases (get_project name))) [])
    as [(newer & w & older & why & Hsplit & Hnewer & Hw & Hscan)
       |[_ Hscan]];
    rewrite Hscan in Hver; simpl in Hver; [|discriminate].
  injection Hver as <-.
  rewrite Hsplit in Hsorted, Hu'.
  apply in_app_or in Hu' as [Hin|[<-|Hin]].
  - now contradiction (Hnewer u Hin).
  - apply leb_refl.
  - exact (strongly_sorted_after _ newer w older u Hsorted Hin).
Qed.

End Reported.

Lemma reported_version_is_newest_witness :
  Z.leb (key Py.int 0 "1") (key Py.int 0 "2") = true.
Proof.
  assert (forall a b, Z.leb a b = true \/ Z.leb b a = true) as Htotal.
  { intros a b. rewrite !Z.leb_le. lia. }
  assert (forall a b c, Z.leb a b = true -> Z.leb b c = true ->
                        Z.leb a c = true) as Htrans.
  { intros a b c. rewrite !Z.leb_le. lia. }
  apply (reported_version_is_newest Py.int Z.leb 0 (fun _ _ => None)
           (fun _ => mkProjectResponse 200 ["1"; "3"; "2"])
           (fun _ v =>
              mkReleaseResponse 200
                (if String.eqb v "3" then Some [] else Some [PY_TAG]) None)
           Htotal Htrans "demo" "2" "1").
  - vm_compute. reflexivity.
  - now left.
  - vm_compute. reflexivity.
Defined.

End SupportFacts.

(** ** Parsing GitHub remote URLs (find_the_archives.py) *)

Module RemoteFacts.
Import FindTheArchives VersionFacts.

Lemma split_on_sep sep cur r :
  Py.split_on sep cur (String sep r) = cur :: Py.split_on sep "" r.
Proof. simpl. now rewrite Ascii.eqb_refl. Qed.

Lemma split_on_nosep sep a : forall cur r,
  all_chars (fun c => negb (Ascii.eqb c sep)) a = true ->
  Py.split_on sep cur (a +:+ r) = Py.split_on sep (cur +:+ a) r.
Proof.
  induction a as [|c a IH]; intros cur r Ha.
  - now rewrite append_empty_r.
  - simpl in Ha. apply andb_prop in Ha as [Hc Ha].
    apply negb_true_iff in Hc.
    rewrite append_cons. simpl. rewrite Hc.
    rewrite (IH _ _ Ha), append_assoc. reflexivity.
Qed.

Lemma split_last a :
  slash_free a -> Py.split_on "/" "" a = [a].
Proof.
  intros Ha. rewrite <- (append_empty_r a) at 1.
  now rewrite split_on_nosep.
Qed.

Lemma split_three a b c :
  slash_free a -> slash_free b -> slash_free c ->
  Py.split "/" (a +:+ "/" +:+ b +:+ "/" +:+ c) = [a; b; c].
Proof.
  intros Ha Hb Hc. unfold Py.split.
  change ("/" +:+ b +:+ "/" +:+ c) with (String "/" (b +:+ String "/" c)).
  rewrite (split_on_nosep "/" a "" _ Ha), split_on_sep.
  rewrite (split_on_nosep "/" b "" _ Hb), split_on_sep.
  now rewrite (split_last c Hc).
Qed.

Lemma length_append a b :
  String.length (a +:+ b) = (String.length a + String.length b)%nat.
Proof.
  induction a as [|c a IH]; [reflexivity|].
  rewrite append_cons. simpl. now rewrite IH.
Qed.

Lemma take_append a b : take (String.length a) (a +:+ b) = a.
Proof.
  induction a as [|c a IH]; [now destruct b|].
  rewrite append_cons. simpl. now rewrite IH.
Qed.

Lemma endswith_append a suffix : endswith (a +:+ suffix) suffix = true.
Proof.
  induction a as [|c a IH].
  - change ("" +:+ suffix) with suffix.
    destruct suffix; simpl; [reflexivity|].
    now rewrite Ascii.eqb_refl, String.eqb_refl.
  - rewrite append_cons. cbn [endswith]. rewrite IH. apply orb_true_r.
Qed.

Lemma drop_last_git a : drop_last 4 (a +:+ ".git") = a.
Proof.
  unfold drop_last. rewrite length_append. simpl String.length.
  rewrite Nat.add_sub. apply take_append.
Qed.

Lemma segment_parts s :
  url_segment s ->
  all_chars (fun c => negb (Py.isspace c)) s = true /\
  slash_free s /\
  all_chars (fun c => negb (Ascii.eqb c ":")) s = true.
Proof.
  intros H. repeat split; revert H; apply all_chars_impl; intros c Hc;
    apply andb_prop in Hc as [Hc H3]; apply andb_prop in Hc as [H1 H2];
    assumption.
Qed.

Lemma lstrip_colon owner rest :
  url_segment owner ->
  Py.lstrip_with (fun c => Ascii.eqb c ":") (owner +:+ String "/" rest)
  = owner +:+ String "/" rest.
Proof.
  intros (_ & _ & Hc)%segment_parts.
  destruct owner as [|c owner]; [reflexivity|].
  rewrite append_cons. simpl in *.
  apply andb_prop in Hc as [Hc _]. apply negb_true_iff in Hc.
  now rewrite Hc.
Qed.

(** Once the URL has been brought to the form [github.com/owner/last],
    the owner and the last part are returned. *)
Lemma parse_normalized owner last url :
  Py.strip url = url ->
  Py.contains "github.com" url = true ->
  (if Py.contains ":" url && Py.startswith url "git@github.com"
   then
     match split_once_str "git@github.com" url with
     | Some (_, after) =>
         "github.com/" +:+ Py.lstrip_with (fun c => Ascii.eqb c ":") after
     | None => url
     end
   else strip_protocol ["https://"; "http://"; "ssh://"; "git://"] url)
  = "github.com" +:+ "/" +:+ owner +:+ "/" +:+ last ->
  slash_free owner -> slash_free last ->
  parse_github_remote url
  = Some (owner, if endswith last ".git" then drop_last 4 last else last).
Proof.
  intros Hstrip Hcontains Hnorm Howner Hlast.
  unfold parse_github_remote. rewrite Hstrip, Hcontains.
  cbv beta iota zeta delta [negb]. rewrite Hnorm.
  rewrite (split_three "github.com" owner last eq_refl Howner Hlast).
  reflexivity.
Qed.

Lemma url_no_space (prefix owner sep repo suffix : string) :
  all_chars (fun c => negb (Py.isspace c)) prefix = true ->
  all_chars (fun c => negb (Py.isspace c)) sep = true ->
  all_chars (fun c => negb (Py.isspace c)) suffix = true ->
  url_segment owner -> url_segment repo ->
  Py.strip (prefix +:+ owner +:+ sep +:+ repo +:+ suffix)
  = prefix +:+ owner +:+ sep +:+ repo +:+ suffix.
Proof.
  intros Hp Hs Hx (Ho & _)%segment_parts (Hr & _)%segment_parts.
  apply strip_none. now rewrite !all_chars_app, Hp, Ho, Hs, Hr, Hx.
Qed.

Lemma slash_free_git repo : slash_free repo -> slash_free (repo +:+ ".git").
Proof.
  unfold slash_free. intros H. now rewrite all_chars_app, H.
Qed.

(** X15: the remote URL forms that are recognised.  For an owner and a
    repository name without white space, slash or colon, the scp-like
    and the https URL give back exactly that owner and name, with the
    [.git] suffix dropped when it is there. *)
Theorem parse_github_remote_round_trip owner repo :
  url_segment owner -> url_segment repo ->
  parse_github_remote
    ("git@github.com:" +:+ owner +:+ "/" +:+ repo +:+ ".git")
  = Some (owner, repo) /\
  parse_github_remote
    ("https://github.com/" +:+ owner +:+ "/" +:+ repo +:+ ".git")
  = Some (owner, repo) /\
  (endswith repo ".git" = false ->
   parse_github_remote ("git@github.com:" +:+ owner +:+ "/" +:+ repo)
   = Some (owner, repo) /\
   parse_github_remote ("https://github.com/" +:+ owner +:+ "/" +:+ repo)
   = Some (owner, repo)).
Proof.
  intros Ho Hr.
  destruct (segment_parts owner Ho) as (_ & Hso & _).
  destruct (segment_parts repo Hr) as (_ & Hsr & _).
  assert (forall suffix,
             slash_free (repo +:+ suffix) ->
             all_chars (fun c => negb (Py.isspace c)) suffix = true ->
             parse_github_remote
               ("git@github.com:" +:+ owner +:+ "/" +:+ repo +:+ suffix)
             = Some (owner,
                     if endswith (repo +:+ suffix) ".git"
                     then drop_last 4 (repo +:+ suffix)
                     else repo +:+ suffix)) as Hscp.
  { intros suffix Hfree Hspace.
    apply parse_normalized; try assumption.
    - now apply url_no_space.
    - vm_compute. reflexivity.
    - assert (Py.contains ":"
                ("git@github.com:" +:+ owner +:+ "/" +:+ repo +:+ suffix)
              && Py.startswith
                   ("git@github.com:" +:+ owner +:+ "/" +:+ repo +:+ suffix)
                   "git@github.com" = true) as ->
        by (destruct owner; vm_compute; reflexivity).
      assert (split_once_str "git@github.com"
                ("git@github.com:" +:+ owner +:+ "/" +:+ repo +:+ suffix)
              = Some ("", String ":"
                            (owner +:+ String "/" (repo +:+ suffix))))
        as -> by (vm_compute; reflexivity).
      cbn [Py.lstrip_with].
      change (Ascii.eqb ":" ":") with true. cbv iota.
      now rewrite (lstrip_colon owner _ Ho). }
  assert (forall suffix,
             slash_free (repo +:+ suffix) ->
             all_chars (fun c => negb (Py.isspace c)) suffix = true ->
             parse_github_remote
               ("https://github.com/" +:+ owner +:+ "/" +:+ repo +:+ suffix)
             = Some (owner,
                     if endswith (repo +:+ suffix) ".git"
                     then drop_last 4 (repo +:+ suffix)
                     else repo +:+ suffix)) as Hweb.
  { intros suffix Hfree Hspace.
    apply parse_normalized; try assumption.
    - now apply url_no_space.
    - vm_compute. reflexivity.
    - vm_compute. reflexivity. }
  split; [|split].
  - rewrite (Hscp ".git" (slash_free_git repo Hsr) eq_refl).
    now rewrite endswith_append, drop_last_git.
  - rewrite (Hweb ".git" (slash_free_git repo Hsr) eq_refl).
    now rewrite endswith_append, drop_last_git.
  - intros Hnogit.
    assert (slash_free (repo +:+ "")) as Hfree
      by now rewrite append_empty_r.
    pose proof (Hscp "" Hfree eq_refl) as H1.
    pose proof (Hweb "" Hfree eq_refl) as H2.
    rewrite append_empty_r, Hnogit in H1, H2. now split.
Qed.

Lemma parse_github_remote_round_trip_witness :
  parse_github_remote ("git@github.com:" +:+ "octo" +:+ "/" +:+ "cat" +:+ ".git")
  = Some ("octo", "cat").
Proof.
  apply (parse_github_remote_round_trip "octo" "cat"); reflexivity.
Defined.

(** X16: an [ssh://] URL that names the [git] user is not recognised:
    the user stays glued to the host, so no part of the URL equals
    [github.com] and the answer is [None]. *)
Theorem ssh_url_with_user_is_not_parsed owner repo :
  url_segment owner -> url_segment repo ->
  owner <> "github.com" -> repo <> "github.com" ->
  parse_github_remote ("ssh://git@github.com/" +:+ owner +:+ "/" +:+ repo)
  = None.
Proof.
  intros Ho Hr Hno Hnr.
  destruct (segment_parts owner Ho) as (_ & Hso & _).
  destruct (segment_parts repo Hr) as (_ & Hsr & _).
  unfold parse_github_remote.
  pose proof (url_no_space "ssh://git@github.com/" owner "/" repo ""
                eq_refl eq_refl eq_refl Ho Hr) as Hstrip.
  rewrite append_empty_r in Hstrip. rewrite Hstrip.
  assert (Py.contains "github.com"
            ("ssh://git@github.com/" +:+ owner +:+ "/" +:+ repo) = true)
    as -> by (vm_compute; reflexivity).
  assert (Py.contains ":"
            ("ssh://git@github.com/" +:+ owner +:+ "/" +:+ repo)
          && Py.startswith
               ("ssh://git@github.com/" +:+ owner +:+ "/" +:+ repo)
               "git@github.com" = false) as ->
    by (vm_compute; reflexivity).
  assert (strip_protocol ["https://"; "http://"; "ssh://"; "git://"]
            ("ssh://git@github.com/" +:+ owner +:+ "/" +:+ repo)
          = "git@github.com" +:+ "/" +:+ owner +:+ "/" +:+ repo) as ->
    by (vm_compute; reflexivity).
  cbv beta iota zeta delta [negb].
  rewrite (split_three "git@github.com" owner repo eq_refl Hso Hsr).
  cbn [index].
  apply String.eqb_neq in Hno, Hnr. rewrite Hno, Hnr. reflexivity.
Qed.

Lemma ssh_url_with_user_is_not_parsed_witness :
  parse_github_remote ("ssh://git@github.com/" +:+ "octo" +:+ "/" +:+ "cat.git")
  = None.
Proof.
  apply (ssh_url_with_user_is_not_parsed "octo" "cat.git");
    first [reflexivity | discriminate].
Defined.

Lemma split_on_slash_free s : forall cur,
  slash_free cur -> Forall slash_free (Py.split_on "/" cur s).
Proof.
  induction s as [|c r IH]; intros cur Hcur; simpl.
  - now constructor.
  - destruct (Ascii.eqb c "/") eqn:Ec.
    + constructor; [assumption|]. now apply IH.
    + apply IH. unfold slash_free in *.
      rewrite all_chars_app, Hcur. simpl. now rewrite Ec.
Qed.

Lemma take_slash_free n : forall s, slash_free s -> slash_free (take n s).
Proof.
  unfold slash_free.
  induction n as [|n IH]; intros [|c s]; simpl; try reflexivity.
  intros [Hc Hs]%andb_prop. now rewrite Hc, IH.
Qed.

(** X17: whatever the URL, an answer of [parse_github_remote] was read
    off a URL that mentions [github.com], and neither the owner nor the
    repository name in it contains a slash. *)
Theorem parsed_remote_shape url owner repo :
  parse_github_remote url = Some (owner, repo) ->
  Py.contains "github.com" (Py.strip url) = true /\
  slash_free owner /\ slash_free repo.
Proof.
  unfold parse_github_remote.
  destruct (Py.contains "github.com" (Py.strip url)); [|discriminate].
  cbv beta iota zeta delta [negb].
  set (normalized := if _ && _ then _ else _).
  pose proof (split_on_slash_free normalized "" eq_refl) as Hparts.
  fold (Py.split "/" normalized) in Hparts.
  destruct (index "github.com" (Py.split "/" normalized)) as [idx|];
    [|discriminate].
  destruct (_ <? _)%nat; [discriminate|].
  destruct (Py.split "/" normalized !! (idx + 1)%nat) as [o|] eqn:Eo;
    [|discriminate].
  destruct (Py.split "/" normalized !! (idx + 2)%nat) as [r|] eqn:Er;
    [|discriminate].
  intros [= <- <-]. split; [reflexivity|].
  rewrite List.Forall_forall in Hparts.
  apply list_elem_of_lookup_2, list_elem_of_In, Hparts in Eo, Er.
  split; [assumption|].
  destruct (endswith r ".git"); [|assumption].
  now apply take_slash_free.
Qed.

Lemma parsed_remote_shape_witness :
  slash_free "octo" /\ slash_free "cat".
Proof.
  apply (parsed_remote_shape "https://github.com/octo/cat/issues").
  vm_compute. reflexivity.
Defined.

(** X18: [find_git_repos] of [find_the_archives.py] and
    [find_non_git_repos] of [not_repo.py] split the child directories
    between them: each is in exactly one of the two lists.  The
    enumerator of [how_cloned.py] is wider: a directory whose [.git] is
    a file is a repository for it and a non-git directory for
    [not_repo.py]. *)
Theorem git_and_non_git_split listing p :
  In p listing -> is_dir p = true ->
  (In p (find_git_repos listing)
   \/ In p (NotRepo.find_non_git_repos listing)) /\
  ~ (In p (find_git_repos listing)
     /\ In p (NotRepo.find_non_git_repos listing)) /\
  (In p (HowCloned.iter_git_repos listing)
   /\ In p (NotRepo.find_non_git_repos listing)
   <-> dot_git p = File).
Proof.
  intros Hin Hd.
  unfold find_git_repos, NotRepo.find_non_git_repos,
    HowCloned.iter_git_repos.
  rewrite <- !list_elem_of_In, !list_elem_of_filter, !andb_True.
  rewrite list_elem_of_In, Hd.
  destruct (dot_git p); simpl; intuition (try discriminate; auto).
Qed.

Lemma git_and_non_git_split_witness :
  In (mkPath "sub" "/work/sub" true File Missing)
     (HowCloned.iter_git_repos [mkPath "sub" "/work/sub" true File Missing])
  /\ In (mkPath "sub" "/work/sub" true File Missing)
        (NotRepo.find_non_git_repos [mkPath "sub" "/work/sub" true File Missing]).
Proof.
  apply (git_and_non_git_split [mkPath "sub" "/work/sub" true File Missing]
           (mkPath "sub" "/work/sub" true File Missing)).
  - now left.
  - reflexivity.
  - reflexivity.
Defined.


End RemoteFacts.

(** ** Small repositories (abandoned_repo.py) *)

Module SmallRepoFacts.
Import AbandonedRepo.

Lemma find_small_repos_in rev_parse rev_list listing min_commits d n :
  In (d, n) (find_small_repos rev_parse rev_list listing min_commits) <->
  In d listing /\ is_dir d = true /\ is_git_repo (rev_parse d) = true /\
  n = get_commit_count (rev_list d) /\ n < min_commits.
Proof.
  induction listing as [|entry rest IH]; simpl; [tauto|].
  destruct (is_dir entry) eqn:Ed; simpl.
  - destruct (is_git_repo (rev_parse entry)) eqn:Eg; simpl.
    + destruct (Z.ltb_spec (get_commit_count (rev_list entry)) min_commits)
        as [Hlt|Hge]; simpl; rewrite IH; split.
      * intros [[= <- <-]|H]; [now repeat split; auto|].
        destruct H as (H & ?). split; [now right|assumption].
      * intros ([<-|Hin] & Hd & Hg & -> & Hn); [now left|].
        right. now repeat split.
      * intros (H & ?). split; [now right|assumption].
      * intros ([<-|Hin] & Hd & Hg & -> & Hn); [lia|]. now repeat split.
    + rewrite IH. split.
      * intros (H & ?). split; [now right|assumption].
      * intros ([<-|Hin] & Hd & Hg & Hn); [congruence|]. now split.
  - rewrite IH. split.
    + intros (H & ?). split; [now right|assumption].
    + intros ([<-|Hin] & Hd & Hg); [congruence|]. now split.
Qed.

(** X19: the scan reports a directory with a count exactly when it is a
    git repository, the count is what [get_commit_count] gives and it
    is below the threshold; so a repository whose count could not be
    determined is reported, with 0 commits, under every positive
    threshold. *)
Theorem small_repos_reported rev_parse rev_list listing min_commits :
  (forall d n,
      In (d, n) (find_small_repos rev_parse rev_list listing min_commits)
      <->
      In d listing /\ is_dir d = true /\ is_git_repo (rev_parse d) = true /\
      n = get_commit_count (rev_list d) /\ n < min_commits) /\
  (forall d,
      In d listing -> is_dir d = true ->
      is_git_repo (rev_parse d) = true ->
      failed (Ran (rev_list d)) -> 0 < min_commits ->
      In (d, 0) (find_small_repos rev_parse rev_list listing min_commits)).
Proof.
  split; [intros d n; apply find_small_repos_in|].
  intros d Hin Hd Hg Hf Hmin. apply find_small_repos_in.
  repeat split; try assumption.
  symmetry. unfold get_commit_count. simpl in Hf.
  destruct (Z.eqb_spec (returncode (rev_list d)) 0) as [E|E]; simpl;
    [|reflexivity].
  destruct Hf as [Hf| ->]; [contradiction|reflexivity].
Qed.

Lemma small_repos_reported_witness :
  In (mkPath "empty" "/work/empty" true Dir Missing, 0)
     (find_small_repos
        (fun _ => mkCompleted 0 ("true" +:+ nl) "")
        (fun _ => mkCompleted 128 "" "fatal: bad revision")
        [mkPath "empty" "/work/empty" true Dir Missing] MIN_COMMITS).
Proof.
  apply (proj2 (small_repos_reported
                  (fun _ => mkCompleted 0 ("true" +:+ nl) "")
                  (fun _ => mkCompleted 128 "" "fatal: bad revision")
                  [mkPath "empty" "/work/empty" true Dir Missing] MIN_COMMITS)).
  - now left.
  - reflexivity.
  - reflexivity.
  - simpl. left. discriminate.
  - reflexivity.
Defined.

End SmallRepoFacts.

(** ** Counting virtual environments (py14.py) *)

Module VenvFacts.
Import Py14.

Lemma scan_counts probe listing : forall good bad,
  (fst (scan probe listing good bad)
   + length (snd (scan probe listing good bad))
   = good + length bad
     + length (List.filter
                 (fun p => is_dir p && exists_ (dot_venv p)) listing))%nat.
Proof.
  induction listing as [|p rest IH]; intros good bad; simpl; [lia|].
  destruct (is_dir p); simpl; [|apply IH].
  destruct (exists_ (dot_venv p)); simpl; [|apply IH].
  destruct (get_python_version (probe p)) as [version|].
  - destruct (Py.contains "3.14" version); rewrite IH;
      rewrite ?length_app; simpl; lia.
  - rewrite IH, length_app. simpl. lia.
Qed.

(** X20: every child directory with a [.venv] is counted once, as good
    or as bad: the good count plus the number of reported environments
    is the number of such directories. *)
Theorem every_venv_is_counted probe listing :
  (fst (scan probe listing 0 [])
   + length (snd (scan probe listing 0 []))
   = length (List.filter
               (fun p => is_dir p && exists_ (dot_venv p)) listing))%nat.
Proof. rewrite scan_counts. simpl. lia. Qed.

End VenvFacts.

(** ** The lines of a porcelain status (uncommited.py) *)

Module StatusLineFacts.
Import Uncommited.

Lemma linebreak_chars c :
  (Py.ord c =? 13)%N = true \/ (Py.ord c =? 10)%N = true ->
  Py.is_linebreak c = true.
Proof.
  destruct c as [[] [] [] [] [] [] [] []]; vm_compute; intros [H|H];
    first [discriminate H | reflexivity].
Qed.

Lemma no_break_snoc cur c :
  no_break cur -> Py.is_linebreak c = false ->
  no_break (cur +:+ String c "").
Proof.
  unfold no_break. intros Hcur Hc.
  rewrite all_chars_app, Hcur. simpl. now rewrite Hc.
Qed.

Lemma splitlines_from_no_break s :
  (forall cur, no_break cur -> Forall no_break (Py.splitlines_from cur s)) /\
  (forall c cur,
      no_break cur -> Forall no_break (Py.splitlines_from cur (String c s))).
Proof.
  induction s as [|c' r [IH1 IH2]].
  - split.
    + intros cur Hcur. simpl. destruct (Py.is_empty cur); now repeat constructor.
    + intros c cur Hcur. simpl.
      destruct (Py.ord c =? 13)%N; [now repeat constructor|].
      destruct (Py.is_linebreak c) eqn:Ec; [now repeat constructor|].
      destruct (Py.is_empty _) eqn:Ee; [constructor|].
      constructor; [|constructor]. now apply no_break_snoc.
  - split; [intros cur Hcur; now apply IH2|].
    intros c cur Hcur. cbn [Py.splitlines_from].
    destruct (Py.ord c =? 13)%N.
    + destruct (Py.ord c' =? 10)%N.
      * constructor; [assumption|]. now apply IH1.
      * constructor; [assumption|]. now apply IH2.
    + destruct (Py.is_linebreak c) eqn:Ec.
      * constructor; [assumption|]. now apply IH2.
      * apply IH2. now apply no_break_snoc.
Qed.

Lemma splitlines_no_break s : Forall no_break (Py.splitlines s).
Proof. now apply (proj1 (splitlines_from_no_break s)). Qed.

Lemma rstrip_newline_id line : no_break line -> Py.rstrip_newline line = line.
Proof.
  intros H. apply rstrip_with_none. revert H. apply all_chars_impl.
  intros c Hc. apply negb_true_iff in Hc. apply negb_true_iff.
  destruct (Py.ord c =? 10)%N eqn:E; [|reflexivity].
  rewrite linebreak_chars in Hc by now right. discriminate.
Qed.

(** X21: when [git status --porcelain] succeeds, the lines the probe
    returns are exactly the non-blank lines of the output, unchanged:
    none is blank, none contains a line break (stripping the newline is
    a no-op), and changes are reported exactly when there is such a
    line. *)
Theorem status_lines proc repo :
  returncode proc = 0 ->
  let answer := fst (git_status_porcelain (Ran proc) repo) in
  snd answer
  = filter (fun line => Py.truthy_str (Py.strip line))
      (Py.splitlines (stdout proc)) /\
  Forall (fun line => Py.strip line <> "" /\ no_break line) (snd answer) /\
  (fst answer = true <-> snd answer <> []).
Proof.
  intros Hrc. simpl. rewrite Hrc. simpl.
  pose proof (splitlines_no_break (stdout proc)) as Hall.
  assert (Forall no_break
            (filter (fun line => Py.truthy_str (Py.strip line))
               (Py.splitlines (stdout proc)))) as Hkept.
  { rewrite List.Forall_forall in *. intros l Hl. apply Hall.
    apply list_elem_of_In. apply list_elem_of_In in Hl.
    now apply list_elem_of_filter in Hl as [_ Hl]. }
  assert (map Py.rstrip_newline
            (filter (fun line => Py.truthy_str (Py.strip line))
               (Py.splitlines (stdout proc)))
          = filter (fun line => Py.truthy_str (Py.strip line))
              (Py.splitlines (stdout proc))) as Hmap.
  { induction Hkept as [|l ls Hl _ IH]; [reflexivity|].
    simpl. now rewrite (rstrip_newline_id l Hl), IH. }
  rewrite Hmap. split; [reflexivity|]. split.
  - rewrite List.Forall_forall in *. intros l Hl. split; [|now apply Hkept].
    apply list_elem_of_In, list_elem_of_filter in Hl as [Hl _].
    destruct (Py.strip l); [contradiction|discriminate].
  - destruct (filter _ _); simpl; split; try discriminate; try reflexivity.
    intros H. now contradiction H.
Qed.

Lemma status_lines_witness :
  snd (fst (git_status_porcelain
              (Ran (mkCompleted 0 (" M a.py" +:+ nl +:+ nl) ""))
              (mkPath "repo" "/work/repo" true Dir Missing)))
  = filter (fun line => Py.truthy_str (Py.strip line))
      (Py.splitlines (" M a.py" +:+ nl +:+ nl)).
Proof.
  apply (status_lines (mkCompleted 0 (" M a.py" +:+ nl +:+ nl) "")
           (mkPath "repo" "/work/repo" true Dir Missing)).
  reflexivity.
Defined.

End StatusLineFacts.

(** ** Repositories that are not cloned (find_archives.py) *)

Module UnclonedFacts.

Lemma in_find_local_dirs listing n :
  n ∈ FindArchives.find_local_dirs listing <->
  exists p, In p listing /\ is_dir p = true /\ name p = n.
Proof.
  unfold FindArchives.find_local_dirs, FindArchives.dir_name.
  rewrite elem_of_list_to_set, list_elem_of_In, in_map_iff.
  split.
  - intros (p & <- & Hp).
    apply list_elem_of_In, list_elem_of_filter in Hp as [Hd Hp].
    exists p. split; [now apply list_elem_of_In|].
    split; [now apply Is_true_true|reflexivity].
  - intros (p & Hp & Hd & <-). exists p. split; [reflexivity|].
    apply list_elem_of_In, list_elem_of_filter.
    split; [now apply Is_true_true|now apply list_elem_of_In].
Qed.

(** X22: the report of [find_archives.py] holds exactly the
    repositories that are not forks, not archived and have no child
    directory of their name, the most recently updated first. *)
Theorem uncloned_report repos listing :
  let report :=
    FindArchives.compute_uncloned_repos repos
      (FindArchives.find_local_dirs listing) in
  (forall r,
      In r report <->
      In r repos /\
      FindArchives.is_fork r = false /\
      FindArchives.is_archived r = false /\
      ~ exists p, In p listing /\ is_dir p = true /\
                  name p = FindArchives.name r) /\
  StronglySorted
    (fun a b => FindArchives.updated_at b <= FindArchives.updated_at a)
    report /\
  (length report <= length repos)%nat.
Proof.
  intros report. unfold report, FindArchives.compute_uncloned_repos.
  split; [|split].
  - intros r. rewrite <- !list_elem_of_In.
    rewrite (sorted_perm FindArchives.updated_at (fun a b => b <=? a)).
    rewrite list_elem_of_filter, !andb_True, !negb_True.
    rewrite <- in_find_local_dirs.
    destruct (FindArchives.is_fork r), (FindArchives.is_archived r);
      simpl; rewrite bool_decide_spec; intuition discriminate.
  - apply (strongly_sorted_impl
             (fun a b =>
                (FindArchives.updated_at b <=? FindArchives.updated_at a)
                = true)).
    + intros x y. apply Z.leb_le.
    + apply (sorted_StronglySorted FindArchives.updated_at
               (fun a b => b <=? a)).
      * intros a b. rewrite !Z.leb_le. lia.
      * intros a b c. rewrite !Z.leb_le. lia.
  - rewrite (Permutation_length
               (sorted_perm FindArchives.updated_at (fun a b => b <=? a) _)).
    apply length_filter.
Qed.

End UnclonedFacts.

(** ** Which workflow runs are deleted (clean_up_actions.py) *)

Module CleanUpFacts.
Import CleanUpActions.

Lemma matching_kept runs : forall matches result run,
  matching runs matches = Returns result ->
  In run result ->
  In run matches \/ (In run runs /\ precommit_run run).
Proof.
  induction runs as [|r rest IH]; intros matches result run; simpl.
  - intros [= <-]. now left.
  - unfold NotMine.get, NotMine.get_default.
    destruct r; try discriminate. simpl.
    set (raw := default JNull (m !! "displayTitle")).
    destruct (startswith (if NotMine.truthy raw then raw else JStr "")
                "[pre-commit.ci]") as [hit|exc] eqn:Es; [|discriminate].
    destruct hit.
    + intros Hm Hin. destruct (IH _ _ _ Hm Hin) as [Hacc|[Hrest Hp]].
      * apply in_app_or in Hacc as [Hacc|[<-|[]]]; [now left|].
        right. split; [now left|].
        unfold raw in Es.
        destruct (m !! "displayTitle") as [t|] eqn:Et; simpl in Es;
          [|discriminate].
        destruct (NotMine.truthy t) eqn:Etr; [|discriminate].
        destruct t; try discriminate. injection Es as Es.
        exists m, s. now repeat split.
      * right. split; [now right|assumption].
    + intros Hm Hin. destruct (IH _ _ _ Hm Hin) as [Hacc|[Hrest Hp]];
        [now left|].
      right. split; [now right|assumption].
Qed.

Lemma deletions_from runs run_id :
  In run_id (fst (deletions runs)) ->
  exists m,
    In (JObj m) runs /\ m !! "databaseId" = Some run_id /\ run_id <> JNull.
Proof.
  induction runs as [|r rest IH]; simpl; [intros []|].
  unfold NotMine.get, NotMine.get_default.
  destruct r; try (intros []). simpl.
  destruct (deletions rest) as [more exc]. simpl in *.
  assert (In run_id more ->
          exists m0,
            (JObj m = JObj m0 \/ In (JObj m0) rest) /\
            m0 !! "databaseId" = Some run_id /\ run_id <> JNull) as Hmore.
  { intros (m0 & Hin & Hid)%IH. exists m0. split; [now right|assumption]. }
  destruct (m !! "databaseId") as [v|] eqn:Ev; simpl; [|exact Hmore].
  destruct v; try exact Hmore;
    (intros [<-|Hin]; [|now apply Hmore]);
    exists m; (split; [now left|]); (split; [assumption|discriminate]).
Qed.

(** X23: [process_repo] deletes a run only if it is one of the runs
    that [gh run list] printed, its [displayTitle] is a string that
    starts with the pre-commit.ci tag, and its [databaseId] is not
    null; when [gh] fails or prints no valid JSON nothing is deleted. *)
Theorem only_precommit_runs_are_deleted loads world :
  (forall run_id,
      In run_id (fst (process_repo loads world)) ->
      exists out runs listed m title,
        run_gh world = Some out /\ loads out = Some runs /\
        iterate runs = Returns listed /\ In (JObj m) listed /\
        m !! "databaseId" = Some run_id /\ run_id <> JNull /\
        m !! "displayTitle" = Some (JStr title) /\
        Py.startswith title "[pre-commit.ci]" = true) /\
  ((run_gh world = None \/
    exists out, run_gh world = Some out /\ loads out = None) ->
   process_repo loads world = ([], None)).
Proof.
  unfold process_repo, list_precommit_runs. split.
  - intros run_id.
    destruct (run_gh world) as [out|] eqn:Eg; [|intros []].
    destruct (loads out) as [runs|] eqn:El; [|intros []].
    destruct (iterate runs) as [listed|exc] eqn:Ei; [|intros []]. simpl.
    destruct (matching listed []) as [kept|exc] eqn:Em; [|intros []].
    intros (m & Hin & Hid & Hnull)%deletions_from.
    destruct (matching_kept listed [] kept (JObj m) Em Hin)
      as [[]|[Hlisted (m' & title & [= <-] & Htitle & Hpre)]].
    exists out, runs, listed, m, title. now repeat split.
  - intros [->|(out & -> & ->)]; reflexivity.
Qed.

End CleanUpFacts.

(** ** The sort is stable *)

Section StableFacts.

Context {A K : Type} `{EqDecision K} (key : A -> K) (leb : K -> K -> bool).
Hypothesis leb_refl : forall k, leb k k = true.

Lemma insert_front_same k x l :
  filter (fun y => key y = k) (Py.insert_front key leb x l)
  = filter (fun y => key y = k) (x :: l).
Proof.
  induction l as [|a l IH]; simpl; [reflexivity|].
  destruct (leb (key x) (key a)) eqn:E; [reflexivity|].
  rewrite (filter_cons _ a), IH, !(filter_cons _ x), (filter_cons _ a).
  destruct (decide (key a = k)) as [Ha|Ha];
    destruct (decide (key x = k)) as [Hx|Hx]; try reflexivity.
  rewrite Hx, Ha, leb_refl in E. discriminate.
Qed.

Lemma sorted_stable k l :
  filter (fun y => key y = k) (Py.sorted key leb l)
  = filter (fun y => key y = k) l.
Proof.
  induction l as [|x l IH]; [reflexivity|].
  unfold Py.sorted in *. simpl.
  now rewrite insert_front_same, !(filter_cons _ x), IH.
Qed.

End StableFacts.

Module StableEnumFacts.

(** X24: [iter_child_dirs] keeps directories whose names differ only in
    letter case in the order of the directory listing: the child
    directories with a given lower-cased name appear in its result in
    the order in which the listing has them. *)
Theorem iter_child_dirs_is_stable listing k :
  filter (fun p => Py.lower (name p) = k) (GitIt.iter_child_dirs listing)
  = filter (fun p => Py.lower (name p) = k)
      (filter (fun p => is_dir p) listing).
Proof.
  unfold GitIt.iter_child_dirs. apply sorted_stable.
  intros s. destruct (String.leb_total s s); assumption.
Qed.

End StableEnumFacts.

(** ** Scanning for forks (not_mine.py) *)

Module ForkScanFacts.
Import NotMine NotMineScan.

Lemma gh_repo_view_some loads world path entry info :
  fst (gh_repo_view loads world path entry) = Some info ->
  exists result,
    world = Ran result /\ returncode result = 0 /\
    loads (stdout result) = Returns info.
Proof.
  destruct world as [result|exc]; simpl; [|discriminate].
  destruct (Z.eqb_spec (returncode result) 0) as [E|E]; simpl;
    [|discriminate].
  destruct (loads (stdout result)) as [data|exc] eqn:El; simpl;
    [|discriminate].
  intros [= <-]. now exists result.
Qed.

Lemma find_forked_repos_spec loads rev_parse gh str_of username listing :
  forall results out found entry info,
    fst (find_forked_repos loads rev_parse gh str_of listing username
           results out) = Returns found ->
    In (entry, info) found ->
    In (entry, info) results \/
    (In entry listing /\ is_dir entry = true /\
     is_git_repo (rev_parse entry) = true /\
     (exists result,
         gh entry = Ran result /\ returncode result = 0 /\
         loads (stdout result) = Returns info) /\
     classify info username = Returns true).
Proof.
  induction listing as [|e rest IH]; intros results out found entry info;
    simpl.
  - intros [= <-]. now left.
  - assert (forall results' out',
               fst (find_forked_repos loads rev_parse gh str_of rest username
                      results' out') = Returns found ->
               In (entry, info) found ->
               (In (entry, info) results' ->
                In (entry, info) results \/
                (In entry (e :: rest) /\ is_dir entry = true /\
                 is_git_repo (rev_parse entry) = true /\
                 (exists result,
                     gh entry = Ran result /\ returncode result = 0 /\
                     loads (stdout result) = Returns info) /\
                 classify info username = Returns true)) ->
               In (entry, info) results \/
               (In entry (e :: rest) /\ is_dir entry = true /\
                is_git_repo (rev_parse entry) = true /\
                (exists result,
                    gh entry = Ran result /\ returncode result = 0 /\
                    loads (stdout result) = Returns info) /\
                classify info username = Returns true)) as Hstep.
    { intros results' out' Hf Hin Hacc.
      destruct (IH results' out' found entry info Hf Hin)
        as [H|(H & Hrest)]; [now apply Hacc|].
      right. split; [now right|assumption]. }
    destruct (is_dir e) eqn:Ed; simpl;
      [|intros Hf Hin; apply (Hstep _ _ Hf Hin); now left].
    destruct (is_git_repo (rev_parse e)) eqn:Eg; simpl;
      [|intros Hf Hin; apply (Hstep _ _ Hf Hin); now left].
    pose proof (gh_repo_view_some loads (gh e) (str_of e) e) as Hview.
    destruct (gh_repo_view loads (gh e) (str_of e) e) as [repo_info printed].
    simpl in Hview.
    destruct repo_info as [data|];
      [|intros Hf Hin; apply (Hstep _ _ Hf Hin); now left].
    destruct (truthy data); simpl;
      [|intros Hf Hin; apply (Hstep _ _ Hf Hin); now left].
    destruct (classify data username) as [[|]|exc] eqn:Ec;
      [| intros Hf Hin; apply (Hstep _ _ Hf Hin); now left
       | discriminate].
    intros Hf Hin. apply (Hstep _ _ Hf Hin).
    intros [H|[[= <- <-]|[]]]%in_app_or; [now left|].
    right. split; [now left|]. repeat split; try assumption.
    now apply Hview.
Qed.

(** X25: every entry that [find_forked_repos] returns is a child
    directory that is a git repository, for which [gh repo view]
    succeeded with valid JSON, and which the classifier answered True
    for; a directory for which [gh] is missing, fails or prints invalid
    JSON is skipped and never reported. *)
Theorem forked_repos_are_classified loads rev_parse gh str_of listing
    username found entry info :
  fst (find_forked_repos loads rev_parse gh str_of listing username [] [])
  = Returns found ->
  In (entry, info) found ->
  In entry listing /\ is_dir entry = true /\
  is_git_repo (rev_parse entry) = true /\
  (exists result,
      gh entry = Ran result /\ returncode result = 0 /\
      loads (stdout result) = Returns info) /\
  classify info username = Returns true.
Proof.
  intros Hf Hin.
  destruct (find_forked_repos_spec loads rev_parse gh str_of username
              listing [] [] found entry info Hf Hin) as [[]|H].
  exact H.
Qed.

Lemma forked_repos_are_classified_witness :
  classify (JObj (fork_record "alice" "bob")) "alice" = Returns true.
Proof.
  apply (forked_repos_are_classified
           (fun _ => Returns (JObj (fork_record "alice" "bob")))
           (fun _ => Ran (mkCompleted 0 ("true" +:+ nl) ""))
           (fun _ => Ran (mkCompleted 0 "{...}" ""))
           (fun p => "/work/" +:+ name p)
           [mkPath "project" "/work/project" true Dir Missing] "alice"
           [(mkPath "project" "/work/project" true Dir Missing,
             JObj (fork_record "alice" "bob"))]
           (mkPath "project" "/work/project" true Dir Missing)
           (JObj (fork_record "alice" "bob"))).
  - vm_compute. reflexivity.
  - now left.
Defined.

End ForkScanFacts.

(** ** Reports of runs that find nothing *)

Module EmptyReports.

Lemma filter_none {A} (P : A -> Prop) `{forall x, Decision (P x)} l :
  (forall x, In x l -> ~ P x) -> filter P l = [].
Proof.
  induction l as [|a l IH]; intros Hno; [reflexivity|].
  rewrite filter_cons_False by (apply Hno; now left).
  apply IH. intros x Hx. apply Hno. now right.
Qed.

(** *** git_it *)

Lemma known_uncommitted world d st b :
  uncommitted_fact world = Some b ->
  GitItCommands.has_uncommitted_changes world d st = (Some b, st).
Proof.
  destruct world as [proc|exc]; [|discriminate].
  unfold GitItCommands.has_uncommitted_changes, uncommitted_fact. simpl.
  destruct (returncode proc =? 0); simpl; [|discriminate].
  now intros [= <-].
Qed.

Lemma known_ahead world d st n :
  ahead_fact world = Some n ->
  GitIt.get_unpushed_commit_count world d st = (Some n, st).
Proof.
  destruct world as [proc|exc]; [|discriminate].
  unfold GitIt.get_unpushed_commit_count, ahead_fact. simpl.
  destruct (returncode proc =? 0); simpl; [|discriminate].
  now intros ->.
Qed.

Lemma stranded_scan_quiet status rev_list dirs :
  (forall d, In d dirs -> GitIt.is_git_repo d = true ->
             uncommitted_fact (status d) = Some false /\
             ahead_fact (rev_list d) = Some 0) ->
  forall acc st,
    exists clean non_git,
      GitItCommands.stranded_scan status rev_list dirs acc st
      = (GitItCommands.mkStranded (GitItCommands.uncommitted acc)
           (GitItCommands.unpushed acc) clean non_git, st).
Proof.
  induction dirs as [|d rest IH]; intros Hq acc st; simpl.
  - exists (GitItCommands.clean acc), (GitItCommands.non_git acc).
    now destruct acc.
  - destruct (GitIt.is_git_repo d) eqn:Eg; simpl.
    + destruct (Hq d (or_introl eq_refl) Eg) as [Hu Ha].
      rewrite (known_uncommitted _ d st _ Hu), (known_ahead _ d st _ Ha).
      simpl.
      destruct (IH (fun x Hx => Hq x (or_intror Hx))
                  (GitItCommands.mkStranded (GitItCommands.uncommitted acc)
                     (GitItCommands.unpushed acc)
                     (GitItCommands.clean acc ++ [d])
                     (GitItCommands.non_git acc)) st)
        as (c & n & ->).
      now exists c, n.
    + destruct (IH (fun x Hx => Hq x (or_intror Hx))
                  (GitItCommands.mkStranded (GitItCommands.uncommitted acc)
                     (GitItCommands.unpushed acc) (GitItCommands.clean acc)
                     (GitItCommands.non_git acc ++ [d])) st)
        as (c & n & ->).
      now exists c, n.
Qed.

Lemma push_scan_quiet rev_list push dirs :
  (forall d, In d dirs -> GitIt.is_git_repo d = true ->
             ahead_fact (rev_list d) = Some 0) ->
  forall pushed out st,
    GitItCommands.push_scan rev_list push dirs pushed out st
    = (pushed, out, st).
Proof.
  induction dirs as [|d rest IH]; intros Hq pushed out st; simpl;
    [reflexivity|].
  destruct (GitIt.is_git_repo d) eqn:Eg; simpl.
  - rewrite (known_ahead _ d st _ (Hq d (or_introl eq_refl) Eg)). simpl.
    apply IH. intros x Hx. apply Hq. now right.
  - apply IH. intros x Hx. apply Hq. now right.
Qed.

Lemma pull_scan_none fetch pull dirs :
  (forall d, In d dirs -> GitIt.is_git_repo d = false) ->
  forall out st, GitItMain.pull_scan fetch pull dirs out st = (out, st).
Proof.
  induction dirs as [|d rest IH]; intros Hq out st; simpl; [reflexivity|].
  rewrite (Hq d) by now left. simpl.
  apply IH. intros x Hx. apply Hq. now right.
Qed.

Lemma failing_scan_quiet loads repr gh dirs :
  (forall d, In d dirs -> GitIt.is_git_repo d = true ->
             no_failing_run loads repr (gh d)) ->
  forall any_reported out st,
    GitItMain.failing_scan loads repr gh dirs any_reported out st
    = (Returns any_reported, out, st).
Proof.
  induction dirs as [|d rest IH]; intros Hq any_reported out st; simpl;
    [reflexivity|].
  assert (forall a o s,
             GitItMain.failing_scan loads repr gh rest a o s
             = (Returns a, o, s)) as Hrest.
  { apply IH. intros x Hx. apply Hq. now right. }
  destruct (GitIt.is_git_repo d) eqn:Eg; simpl; [|apply Hrest].
  destruct (Hq d (or_introl eq_refl) Eg) as (proc & -> & Hrc & Hout).
  simpl. rewrite Hrc. simpl.
  destruct Hout as [->|(data & -> & Hdata)]; [apply Hrest|].
  destruct (Py.truthy_str (Py.strip (stdout proc))); simpl; [|apply Hrest].
  destruct Hdata as [Hfalse|(run & more & -> & Hc)].
  - destruct (NotMine.truthy data) eqn:Et; simpl; [|apply Hrest].
    contradiction Hfalse. now apply ForkFacts.truthy_json_true.
  - simpl. unfold GitItMain.field.
    destruct (String.eqb_spec
                (Py.lower (str_of repr (default (JStr "") (run !! "conclusion"))))
                "failure") as [E|_]; [contradiction|].
    apply Hrest.
Qed.

(** *** clean_up_actions *)

Lemma clean_up_scan_quiet loads repr rev_parse gh_list gh_delete entries :
  (forall entry, In entry entries -> cleaned_up rev_parse entry ->
                 fst (CleanUpLog.list_precommit_runs loads (gh_list entry)
                        entry) = Returns []) ->
  forall log,
    exists added,
      CleanUpLog.scan loads repr rev_parse gh_list gh_delete entries log
      = (Returns tt, log ++ added) /\
      forall entry, In entry entries -> cleaned_up rev_parse entry ->
        In (CleanUpLog.INFO,
            "✅ No [pre-commit.ci] runs found in " +:+ full_path entry)
           added.
Proof.
  induction entries as [|e rest IH]; intros Hq log.
  - exists []. split; [now rewrite app_nil_r|intros entry []].
  - assert (forall l,
               exists added,
                 CleanUpLog.scan loads repr rev_parse gh_list gh_delete
                   rest l = (Returns tt, l ++ added) /\
                 forall entry, In entry rest -> cleaned_up rev_parse entry ->
                   In (CleanUpLog.INFO,
                       "✅ No [pre-commit.ci] runs found in "
                         +:+ full_path entry) added) as Hrest.
    { apply IH. intros x Hx. apply Hq. now right. }
    pose proof (Hq e (or_introl eq_refl)) as He.
    unfold cleaned_up in *. simpl.
    destruct (is_dir e) eqn:Ed; simpl.
    + destruct (Py.startswith (name e) ".") eqn:Es; simpl.
      * destruct (Hrest log) as (added & -> & Hin).
        exists added. split; [reflexivity|].
        intros entry [<-|Hx] Hc; [|now apply Hin].
        destruct Hc as (_ & Hdot & _). congruence.
      * destruct (CleanUpLog.is_git_repo (rev_parse e) e)
          as [is_repo probed] eqn:Eg.
        destruct is_repo.
        -- assert (fst (CleanUpLog.list_precommit_runs loads (gh_list e) e)
                   = Returns []) as Hruns.
           { apply He. now repeat split. }
           unfold CleanUpLog.process_repo.
           destruct (CleanUpLog.list_precommit_runs loads (gh_list e) e)
             as [runs listed].
           simpl in Hruns. subst runs.
           destruct (Hrest
                       ((log ++ probed)
                        ++ ([(CleanUpLog.INFO,
                              "📦 Scanning repo: " +:+ full_path e)]
                            ++ listed)
                        ++ [(CleanUpLog.INFO,
                             "✅ No [pre-commit.ci] runs found in "
                               +:+ full_path e)]))
             as (added & -> & Hin).
           exists (probed
                   ++ ([(CleanUpLog.INFO,
                         "📦 Scanning repo: " +:+ full_path e)] ++ listed)
                   ++ [(CleanUpLog.INFO,
                        "✅ No [pre-commit.ci] runs found in "
                          +:+ full_path e)]
                   ++ added).
           split; [now rewrite <- !app_assoc|].
           intros entry [<-|Hx] Hc; rewrite !in_app_iff.
           ++ right. right. left. now left.
           ++ right. right. right. now apply Hin.
        -- destruct (Hrest (log ++ probed)) as (added & -> & Hin).
           exists (probed ++ added). split; [now rewrite app_assoc|].
           intros entry [<-|Hx] Hc.
           ++ destruct Hc as (_ & _ & Hg). rewrite Eg in Hg. discriminate.
           ++ apply in_or_app. right. now apply Hin.
    + destruct (Hrest log) as (added & -> & Hin).
      exists added. split; [reflexivity|].
      intros entry [<-|Hx] Hc; [|now apply Hin].
      destruct Hc as (Hd & _). congruence.
Qed.


(** *** The reports of one finder each *)

Lemma py14_scan_all_good probe listing :
  (forall p, In p listing -> is_dir p = true ->
             exists_ (dot_venv p) = true ->
             exists version,
               Py14.get_python_version (probe p) = Some version /\
               Py.contains "3.14" version = true) ->
  forall good bad,
    Py14.scan probe listing good bad
    = ((good + length (List.filter
                         (fun p => is_dir p && exists_ (dot_venv p))
                         listing))%nat,
       bad).
Proof.
  induction listing as [|p rest IH]; intros Hgood good bad; simpl.
  - now rewrite Nat.add_0_r.
  - assert (forall g b,
               Py14.scan probe rest g b
               = ((g + length (List.filter
                                 (fun p => is_dir p && exists_ (dot_venv p))
                                 rest))%nat, b)) as Hrest.
    { apply IH. intros q Hq. apply Hgood. now right. }
    destruct (is_dir p) eqn:Ed; simpl; [|apply Hrest].
    destruct (exists_ (dot_venv p)) eqn:Ev; simpl; [|apply Hrest].
    destruct (Hgood p (or_introl eq_refl) Ed Ev) as (version & -> & ->).
    rewrite Hrest. f_equal. lia.
Qed.

Lemma small_repos_none rev_parse rev_list listing min_commits :
  (forall p, In p listing -> is_dir p = true ->
             AbandonedRepo.is_git_repo (rev_parse p) = true ->
             min_commits <= AbandonedRepo.get_commit_count (rev_list p)) ->
  AbandonedRepo.find_small_repos rev_parse rev_list listing min_commits
  = [].
Proof.
  induction listing as [|p rest IH]; intros Hno; [reflexivity|].
  simpl. rewrite IH by (intros q Hq; apply Hno; now right).
  destruct (is_dir p) eqn:Ed; simpl; [|reflexivity].
  destruct (AbandonedRepo.is_git_repo (rev_parse p)) eqn:Eg; simpl;
    [|reflexivity].
  pose proof (Hno p (or_introl eq_refl) Ed Eg) as Hp.
  destruct (Z.ltb_spec (AbandonedRepo.get_commit_count (rev_list p))
              min_commits); [lia|reflexivity].
Qed.

Lemma matching_files_none files :
  (forall wf, In wf files ->
              GhaMain.find_legacy_python_versions_in_file wf = ∅) ->
  GhaMain.matching_files files = [].
Proof.
  induction files as [|wf rest IH]; intros Hno; [reflexivity|].
  unfold GhaMain.matching_files. simpl.
  rewrite (Hno wf) by now left.
  rewrite bool_decide_eq_true_2 by reflexivity. simpl.
  apply IH. intros x Hx. apply Hno. now right.
Qed.

Lemma gha_scan_none rev_parse workflows listing :
  (forall entry, In entry listing -> is_dir entry = true ->
                 GhaMain.is_git_repo (rev_parse entry) = true ->
                 forall yml yaml wf,
                   workflows entry = Some (yml, yaml) ->
                   In wf (yml ++ yaml) ->
                   GhaMain.find_legacy_python_versions_in_file wf = ∅) ->
  forall results, GhaMain.scan rev_parse workflows listing results = results.
Proof.
  induction listing as [|entry rest IH]; intros Hno results; simpl;
    [reflexivity|].
  assert (forall r, GhaMain.scan rev_parse workflows rest r = r) as Hrest.
  { apply IH. intros x Hx. apply Hno. now right. }
  destruct (is_dir entry) eqn:Ed; simpl; [|apply Hrest].
  destruct (GhaMain.is_git_repo (rev_parse entry)) eqn:Eg; simpl;
    [|apply Hrest].
  destruct (workflows entry) as [[yml yaml]|] eqn:Ew; [|apply Hrest].
  rewrite matching_files_none; [apply Hrest|].
  intros wf Hwf.
  now apply (Hno entry (or_introl eq_refl) Ed Eg yml yaml wf).
Qed.

Lemma find_forked_repos_none loads rev_parse gh listing username :
  (forall entry, In entry listing -> is_dir entry = true ->
                 NotMineScan.is_git_repo (rev_parse entry) = true ->
                 forall info,
                   fst (NotMineScan.gh_repo_view loads (gh entry)
                          (full_path entry) entry) = Some info ->
                   NotMine.truthy info = true ->
                   NotMineScan.classify info username = Returns false) ->
  forall results out,
    exists warnings,
      NotMineScan.find_forked_repos loads rev_parse gh full_path listing
        username results out
      = (Returns results, out ++ warnings).
Proof.
  induction listing as [|entry rest IH]; intros Hno results out; simpl.
  - exists []. now rewrite app_nil_r.
  - assert (forall r o,
               exists warnings,
                 NotMineScan.find_forked_repos loads rev_parse gh full_path
                   rest username r o = (Returns r, o ++ warnings)) as Hrest.
    { apply IH. intros x Hx. apply Hno. now right. }
    destruct (is_dir entry) eqn:Ed; simpl; [|apply Hrest].
    destruct (NotMineScan.is_git_repo (rev_parse entry)) eqn:Eg; simpl;
      [|apply Hrest].
    pose proof (Hno entry (or_introl eq_refl) Ed Eg) as He.
    destruct (NotMineScan.gh_repo_view loads (gh entry) (full_path entry)
                entry) as [repo_info printed].
    simpl in He.
    assert (exists warnings,
               NotMineScan.find_forked_repos loads rev_parse gh full_path
                 rest username results (out ++ printed)
               = (Returns results, out ++ warnings)) as Hskip.
    { destruct (Hrest results (out ++ printed)) as (w & ->).
      exists (printed ++ w). now rewrite app_assoc. }
    destruct repo_info as [info|]; [|exact Hskip].
    destruct (NotMine.truthy info) eqn:Et; simpl; [|exact Hskip].
    now rewrite (He info eq_refl Et).
Qed.

Lemma inspect_all_none remote query repos focus_owner :
  (forall p, In p repos ->
             FindTheArchivesMain.inspect_repo_for_archived_clone (remote p)
               query p focus_owner = Returns None) ->
  forall archived,
    FindTheArchivesMain.inspect_all remote query repos focus_owner archived
    = Returns archived.
Proof.
  induction repos as [|p rest IH]; intros Hno archived; simpl;
    [reflexivity|].
  rewrite (Hno p) by now left. simpl.
  apply IH. intros x Hx. apply Hno. now right.
Qed.

(** C8, as stated, fails twice.  The uncommitted-changes checker run
    with [--verbose] in a directory without repositories prints only
    its scanning banner.  And [git_it stranded] in a directory whose
    one repository has no upstream branch finds nothing, says so, and
    exits with status 1, since the ahead count could not be read. *)
Lemma verbose_run_without_repos_prints_banner_only :
  (Uncommited.iter_git_repos [] = [] /\
   Uncommited.main true (fun _ => Raised "unused") []
   = (["🔍 Scanning for git repositories with local changes..." +:+ nl],
      0) /\
   ~ In Uncommited.all_clean
       (fst (Uncommited.main true (fun _ => Raised "unused") []))) /\
  (let tools :=
     GitItMain.mkTools
       (fun _ => Ran (mkCompleted 0 "" ""))
       (fun _ => Ran (mkCompleted 128 ""
                        "fatal: no upstream configured for branch 'main'"))
       (fun _ => Raised "unused") (fun _ => Raised "unused")
       (fun _ => Raised "unused") (fun _ => Raised "unused") in
   let run :=
     GitItMain.main (fun _ => Raises "unused") (fun _ => "unused") tools
       [mkPath "solo" "/work/solo" true Dir Missing]
       GitItMain.stranded false in
   fst (fst run)
   = ["🔍 Checking for stranded work…";
      "✏️ No repos with uncommitted changes found.";
      "📤 No repos with unpushed commits found (for branches with an upstream)."]
   /\ snd run = 1).
Proof.
  split; [split; [reflexivity|split; [reflexivity|]]|].
  - intros [H|[]]. discriminate H.
  - vm_compute. split; reflexivity.
Qed.

(** C8 (amended): a run that finds nothing prints a confirmation and
    exits with status 0, for every script.  The uncommitted-changes
    checker ends with the all-clean message without [--verbose]; with
    [--verbose] it never prints that message and lists every clean
    repository instead.  The venv checker prints its count line; the
    small-repository, non-git, Poetry, clone-type, workflow, fork,
    not-cloned (two scripts), archived-clone and PyPI reports print
    their fixed none-found lines; [git_it] prints the none-found lines
    of its command and, as whenever it exits with status 0, ends with
    the line that it completed successfully; the clean-up script logs a
    none-found line for every repository it scans and then that it is
    done. *)
Theorem reports_on_empty :
  (* uncommited.py *)
  (forall verbose git listing,
      (forall repo, In repo (Uncommited.iter_git_repos listing) ->
                    ~ has_local_changes (git repo)) ->
      snd (Uncommited.main verbose git listing) = 0 /\
      (verbose = false ->
       exists printed,
         fst (Uncommited.main verbose git listing)
         = printed ++ [Uncommited.all_clean]) /\
      (verbose = true ->
       ~ In Uncommited.all_clean (fst (Uncommited.main verbose git listing))
       /\
       forall repo,
         In repo (Uncommited.iter_git_repos listing) ->
         In ("✅ " +:+ name repo +:+ " is clean.")
            (fst (Uncommited.main verbose git listing)))) /\
  (* py14.py *)
  (forall probe listing,
      (forall p, In p listing -> is_dir p = true ->
                 exists_ (dot_venv p) = true ->
                 exists version,
                   Py14.get_python_version (probe p) = Some version /\
                   Py.contains "3.14" version = true) ->
      script (Py14.main probe listing)
      = ([nl
          +:+ Py.str_nat
                (length (List.filter
                           (fun p => is_dir p && exists_ (dot_venv p))
                           listing))
          +:+ " good repos"], 0)) /\
  (* abandoned_repo.py *)
  (forall root rev_parse rev_list listing,
      (forall p, In p listing -> is_dir p = true ->
                 AbandonedRepo.is_git_repo (rev_parse p) = true ->
                 AbandonedRepo.MIN_COMMITS
                 <= AbandonedRepo.get_commit_count (rev_list p)) ->
      script (AbandonedRepo.main root rev_parse rev_list listing)
      = (["🔍 Scanning for repos with < 10 commits in: " +:+ root;
          "✅ No repositories with fewer than 10 commits found."], 0)) /\
  (* not_repo.py *)
  (forall listing,
      (forall p, In p listing -> is_dir p = true -> dot_git p = Dir) ->
      script (NotRepo.main listing)
      = (["✔️ All subfolders are git repositories."], 0)) /\
  (* still_poetry.py *)
  (forall root rev_parse poetry_lock pyproject listing,
      (forall p, In p listing -> is_dir p = true ->
                 StillPoetry.is_git_repo (rev_parse p) = true ->
                 StillPoetry.uses_poetry (poetry_lock p) (pyproject p)
                 = false) ->
      script (StillPoetry.main root rev_parse poetry_lock pyproject listing)
      = (["🔍 Scanning for Poetry-based repos in: " +:+ root;
          "✅ No Poetry-based repos found among immediate subdirectories."],
         0)) /\
  (* how_cloned.py *)
  (forall show_urls git listing,
      (forall p, In p listing -> is_dir p = true ->
                 exists_ (dot_git p) = false) ->
      HowCloned.main show_urls git listing
      = (["🔍 Scanning git repositories for clone type..." +:+ nl;
          "🔐 SSH clones:"; "   • (none)";
          "🌐 HTTPS clones:"; "   • (none)";
          "⚙️ Other/unknown URL schemes:"; "   • (none)";
          "❓ No origin remote configured:"; "   • (none)";
          "✅ Done."], 0)) /\
  (* git_it.py: every command *)
  (forall loads repr tools listing command verbose,
      let run := GitItMain.main loads repr tools listing command verbose in
      snd run = 0 ->
      GitIt.HAD_ERRORS (snd (fst run)) = false /\
      exists printed,
        fst (fst run) = printed ++ ["✅ Completed successfully."]) /\
  (* git_it.py stranded, stranded-commits *)
  (forall loads repr tools listing command verbose,
      command = GitItMain.stranded \/ command = GitItMain.stranded_commits ->
      (forall d, In d listing -> is_dir d = true ->
                 GitIt.is_git_repo d = true ->
                 uncommitted_fact (GitItMain.git_status tools d) = Some false
                 /\ ahead_fact (GitItMain.git_rev_list tools d) = Some 0) ->
      exists details,
        GitItMain.main loads repr tools listing command verbose
        = (["🔍 Checking for stranded work…";
            "✏️ No repos with uncommitted changes found.";
            "📤 No repos with unpushed commits found (for branches with an upstream)."]
           ++ details ++ ["✅ Completed successfully."],
           GitIt.initial, 0) /\
        (verbose = false -> details = [])) /\
  (* git_it.py pull *)
  (forall loads repr tools listing verbose,
      (forall d, In d listing -> is_dir d = true ->
                 GitIt.is_git_repo d = false) ->
      GitItMain.main loads repr tools listing GitItMain.pull verbose
      = (["⬇️  Fetching and pulling all repositories…";
          "✅ Completed successfully."], GitIt.initial, 0)) /\
  (* git_it.py push *)
  (forall loads repr tools listing verbose,
      (forall d, In d listing -> is_dir d = true ->
                 GitIt.is_git_repo d = true ->
                 ahead_fact (GitItMain.git_rev_list tools d) = Some 0) ->
      GitItMain.main loads repr tools listing GitItMain.push verbose
      = (["⬆️  Pushing repositories with unpushed commits…";
          "✅ Completed successfully."], GitIt.initial, 0)) /\
  (* git_it.py failing *)
  (forall loads repr tools listing verbose,
      (forall d, In d listing -> is_dir d = true ->
                 GitIt.is_git_repo d = true ->
                 no_failing_run loads repr (GitItMain.gh_run_list tools d)) ->
      GitItMain.main loads repr tools listing GitItMain.failing verbose
      = (["🧪 Checking GitHub Actions for failing workflows…";
          "✅ No failing workflows detected (based on most recent runs).";
          "✅ Completed successfully."], GitIt.initial, 0)) /\
  (* gha_wrong_python.py *)
  (forall root rev_parse workflows listing,
      (forall entry, In entry listing -> is_dir entry = true ->
                     GhaMain.is_git_repo (rev_parse entry) = true ->
                     forall yml yaml wf,
                       workflows entry = Some (yml, yaml) ->
                       In wf (yml ++ yaml) ->
                       GhaMain.find_legacy_python_versions_in_file wf = ∅) ->
      script (GhaMain.main root rev_parse workflows listing)
      = (["🔍 Scanning GitHub Actions workflows under repos in: " +:+ root;
          "   Threshold: python-version < 3.14.0" +:+ nl;
          "✅ No workflows found using python-version below 3.14. 🐍"], 0)) /\
  (* not_mine.py *)
  (forall root loads repr rev_parse gh listing,
      (forall entry, In entry listing -> is_dir entry = true ->
                     NotMineScan.is_git_repo (rev_parse entry) = true ->
                     forall info,
                       fst (NotMineScan.gh_repo_view loads (gh entry)
                              (full_path entry) entry) = Some info ->
                       NotMine.truthy info = true ->
                       NotMineScan.classify info NotMine.GITHUB_USERNAME
                       = Returns false) ->
      let run := NotMineMain.main root loads repr rev_parse gh listing in
      exit_status (fst run) = 0 /\
      exists warnings,
        snd run
        = ["🔍 Scanning for forked repos in: " +:+ root] ++ warnings
          ++ ["✅ No forks of other users' repos found (owned by you)."]) /\
  (* not_cloned.py *)
  (forall isoformat username target_dir repos listing,
      (forall repo, In repo repos ->
                    NotCloned.fork repo = true \/
                    NotCloned.archived repo = true \/
                    exists p, In p listing /\ is_dir p = true /\
                              name p = NotCloned.name repo) ->
      NotCloned.main isoformat username target_dir true
        (NotCloned.Decoded repos) (Returns listing)
      = (["ğŸ›°  Scanning GitHub account: " +:+ username;
          "ğŸ“‚ Local folder: " +:+ target_dir;
          "â³ Fetching repositories via `gh api`..." +:+ nl;
          "âœ… All non-fork, non-archived repos appear to be cloned here."],
         [], 0)) /\
  (* find_archives.py *)
  (forall isoformat root user repos listing,
      (forall repo, In repo repos ->
                    FindArchives.is_fork repo = true \/
                    FindArchives.is_archived repo = true \/
                    exists p, In p listing /\ is_dir p = true /\
                              name p = FindArchives.name repo) ->
      let run :=
        FindArchivesMain.main isoformat root user (Returns listing)
          (Returns repos) in
      snd run
      = ["🔍 Scanning local path: " +:+ root;
         "🌐 Querying GitHub user: " +:+ user;
         "✅ All non-fork, non-archived repos appear to be cloned here."] /\
      exit_status (fst run) = 0) /\
  (* find_the_archives.py *)
  (forall isoformat remote query listing owner,
      (forall p, In p listing -> is_dir p = true -> dot_git p = Dir ->
                 FindTheArchivesMain.inspect_repo_for_archived_clone
                   (remote p) query p (Some owner) = Returns None) ->
      let run :=
        FindTheArchivesMain.main isoformat remote query (Returns listing)
          owner in
      snd run = ["âœ… No local clones of archived GitHub repositories were found."] /\
      exit_status (fst run) = 0) /\
  (* py314_support.py *)
  (forall (V : Type) (Version : string -> option V) version_leb Version_0_0
          contains_prereleases get_project get_release username,
      script (Py314Main.main Version version_leb Version_0_0
                contains_prereleases get_project get_release username
                (Returns []))
      = (["No projects found for user: " +:+ username], 0)) /\
  (* clean_up_actions.py *)
  (forall base loads repr rev_parse gh_list gh_delete listing,
      (forall entry,
          In entry listing -> cleaned_up rev_parse entry ->
          fst (CleanUpLog.list_precommit_runs loads (gh_list entry) entry)
          = Returns []) ->
      let run :=
        CleanUpLog.main base loads repr rev_parse gh_list gh_delete listing in
      exit_status (fst run) = 0 /\
      (exists log, snd run = log ++ [(CleanUpLog.INFO, "🏁 Done.")]) /\
      forall entry,
        In entry listing -> cleaned_up rev_parse entry ->
        In (CleanUpLog.INFO,
            "✅ No [pre-commit.ci] runs found in " +:+ full_path entry)
           (snd run)).
Proof.
  repeat apply conj.
  - (* uncommited.py *)
    intros verbose git listing Hclean.
    assert (flat_map (dirty_entry git) (Uncommited.iter_git_repos listing)
            = []) as Hflat.
    { apply UncommitedFacts.flat_map_nil. intros repo Hin.
      now apply UncommitedFacts.dirty_entry_nil, Hclean. }
    split; [now rewrite UncommitedFacts.main_exit, Hflat|]. split.
    + intros ->.
      destruct (in_split Uncommited.all_clean
                  (fst (Uncommited.main false git listing)))
        as (before & after & Heq).
      { now apply UncommitedFacts.all_clean_printed. }
      revert Heq. unfold Uncommited.main.
      pose proof (UncommitedFacts.scan_dirty false git
                    (Uncommited.iter_git_repos listing) []
                    ["🔍 Scanning for git repositories with local changes..."
                       +:+ nl]) as Hd.
      destruct (Uncommited.scan false git _ [] _) as [dirty out].
      simpl in Hd. rewrite Hflat in Hd. subst dirty. simpl. now exists out.
    + intros ->. split.
      * intros [Hv _]%UncommitedFacts.all_clean_printed. discriminate Hv.
      * intros repo Hin. unfold Uncommited.main.
        pose proof (UncommitedFacts.scan_dirty true git
                      (Uncommited.iter_git_repos listing) []
                      ["🔍 Scanning for git repositories with local changes..."
                         +:+ nl]) as Hd.
        pose proof (UncommitedFacts.scan_clean_line git
                      (Uncommited.iter_git_repos listing) repo []
                      ["🔍 Scanning for git repositories with local changes..."
                         +:+ nl] Hin
                      (proj1 (UncommitedFacts.flat_map_nil _ _) Hflat repo Hin))
          as Hline.
        destruct (Uncommited.scan true git _ [] _) as [dirty out].
        simpl in Hd, Hline. rewrite Hflat in Hd. subst dirty. exact Hline.
  - (* py14.py *)
    intros probe listing Hgood. unfold Py14.main.
    now rewrite py14_scan_all_good.
  - (* abandoned_repo.py *)
    intros root rev_parse rev_list listing Hnone.
    unfold AbandonedRepo.main. now rewrite small_repos_none.
  - (* not_repo.py *)
    intros listing Hgit. unfold NotRepo.main, NotRepo.find_non_git_repos.
    rewrite filter_none; [reflexivity|].
    intros p Hin [Hd Hg]%andb_True.
    apply Is_true_true in Hd. rewrite (Hgit p Hin Hd) in Hg. exact Hg.
  - (* still_poetry.py *)
    intros root rev_parse poetry_lock pyproject listing Hno.
    unfold StillPoetry.main, StillPoetry.find_poetry_repos.
    rewrite filter_none; [reflexivity|].
    intros p Hin [[Hd Hg]%andb_True Hp]%andb_True.
    apply Is_true_true in Hd, Hg, Hp.
    rewrite (Hno p Hin Hd Hg) in Hp. discriminate.
  - (* how_cloned.py *)
    intros show_urls git listing Hno.
    unfold HowCloned.main, HowCloned.iter_git_repos.
    rewrite filter_none; [reflexivity|].
    intros p Hin [Hd Hg]%andb_True.
    apply Is_true_true in Hd, Hg. rewrite (Hno p Hin Hd) in Hg.
    discriminate.
  - (* git_it.py: every command *)
    intros loads repr tools listing command verbose run. subst run.
    unfold GitItMain.main.
    destruct (match command with
              | GitItMain.stranded | GitItMain.stranded_commits => _
              | GitItMain.pull => _
              | GitItMain.push => _
              | GitItMain.failing => _
              end) as [[r out] st].
    destruct r as [[]|exc]; [|discriminate].
    destruct (GitIt.HAD_ERRORS st) eqn:E; [discriminate|].
    intros _. simpl. rewrite E. split; [reflexivity|]. now exists out.
  - (* git_it.py stranded *)
    intros loads repr tools listing command verbose Hcmd Hquiet.
    assert (forall d, In d (GitIt.iter_child_dirs listing) ->
                      GitIt.is_git_repo d = true ->
                      uncommitted_fact (GitItMain.git_status tools d)
                      = Some false /\
                      ahead_fact (GitItMain.git_rev_list tools d) = Some 0)
      as Hdirs.
    { intros d [Hin Hd]%StrandedFacts.in_iter_child_dirs. now apply Hquiet. }
    destruct (stranded_scan_quiet _ _ _ Hdirs
                (GitItCommands.mkStranded [] [] [] []) GitIt.initial)
      as (clean & non_git & Hscan).
    exists (if verbose then
              match clean with
              | [] => []
              | _ => "✅ Clean repos (no uncommitted or unpushed work):"
                       :: GitItCommands.list_names clean
              end
              ++ match non_git with
                 | [] => []
                 | _ => "📁 Non-git directories:"
                          :: GitItCommands.list_names non_git
                 end
            else []).
    split; [|now intros ->].
    unfold GitItMain.main, GitItCommands.cmd_stranded.
    destruct Hcmd as [-> | ->]; rewrite Hscan; simpl;
      rewrite <- ?app_assoc; reflexivity.
  - (* git_it.py pull *)
    intros loads repr tools listing verbose Hnone.
    unfold GitItMain.main, GitItMain.cmd_pull.
    rewrite pull_scan_none; [reflexivity|].
    intros d [Hin Hd]%StrandedFacts.in_iter_child_dirs. now apply Hnone.
  - (* git_it.py push *)
    intros loads repr tools listing verbose Hquiet.
    unfold GitItMain.main, GitItCommands.cmd_push.
    rewrite push_scan_quiet; [reflexivity|].
    intros d [Hin Hd]%StrandedFacts.in_iter_child_dirs. now apply Hquiet.
  - (* git_it.py failing *)
    intros loads repr tools listing verbose Hquiet.
    unfold GitItMain.main, GitItMain.cmd_failing.
    rewrite failing_scan_quiet; [reflexivity|].
    intros d [Hin Hd]%StrandedFacts.in_iter_child_dirs. now apply Hquiet.
  - (* gha_wrong_python.py *)
    intros root rev_parse workflows listing Hnone.
    unfold GhaMain.main, GhaMain.find_repos_with_legacy_actions.
    now rewrite gha_scan_none.
  - (* not_mine.py *)
    intros root loads repr rev_parse gh listing Hnone run.
    subst run. unfold NotMineMain.main.
    destruct (find_forked_repos_none loads rev_parse gh listing
                NotMine.GITHUB_USERNAME Hnone []
                ["🔍 Scanning for forked repos in: " +:+ root])
      as (warnings & ->).
    split; [reflexivity|]. now exists warnings.
  - (* not_cloned.py *)
    intros isoformat username target_dir repos listing Hnone.
    unfold NotCloned.main, NotCloned.filter_missing_repos. simpl.
    rewrite filter_none; [reflexivity|].
    intros repo Hin [[Hf Ha]%andb_True Hl]%andb_True.
    apply negb_True in Hf, Ha, Hl. rewrite Is_true_true in Hf, Ha.
    destruct (Hnone repo Hin) as [H|[H|(p & Hp & Hd & Hn)]];
      [congruence|congruence|].
    apply Hl, bool_decide_spec. unfold NotCloned.get_local_repo_names.
    apply elem_of_list_to_set, list_elem_of_fmap.
    exists p. split; [now rewrite <- Hn|].
    apply list_elem_of_filter. split; [now apply Is_true_true|].
    now apply list_elem_of_In.
  - (* find_archives.py *)
    intros isoformat root user repos listing Hnone run. subst run.
    unfold FindArchivesMain.main, FindArchives.compute_uncloned_repos.
    rewrite filter_none; [now split|].
    intros repo Hin [[Hf Ha]%andb_True Hl]%andb_True.
    apply negb_True in Hf, Ha, Hl. rewrite Is_true_true in Hf, Ha.
    destruct (Hnone repo Hin) as [H|[H|(p & Hp & Hd & Hn)]];
      [congruence|congruence|].
    apply Hl, bool_decide_spec. unfold FindArchives.find_local_dirs.
    apply elem_of_list_to_set, list_elem_of_fmap.
    exists p. split; [now rewrite <- Hn|].
    apply list_elem_of_filter. split; [now apply Is_true_true|].
    now apply list_elem_of_In.
  - (* find_the_archives.py *)
    intros isoformat remote query listing owner Hnone run. subst run.
    unfold FindTheArchivesMain.main, FindTheArchivesMain.find_archived_clones.
    rewrite inspect_all_none; [now split|].
    intros p Hp. unfold FindTheArchives.find_git_repos in Hp.
    apply list_elem_of_In, list_elem_of_filter in Hp as [[Hd Hg]%andb_True Hp].
    apply Is_true_true in Hd. apply list_elem_of_In in Hp.
    apply Hnone; try assumption.
    now destruct (dot_git p).
  - (* py314_support.py *)
    reflexivity.
  - (* clean_up_actions.py *)
    intros base loads repr rev_parse gh_list gh_delete listing Hquiet run.
    subst run. unfold CleanUpLog.main.
    destruct (clean_up_scan_quiet loads repr rev_parse gh_list gh_delete
                (Py.sorted (fun p => name p) String.leb listing))
      with (log := [(CleanUpLog.INFO,
                     "🚀 Starting pre-commit.ci cleanup in " +:+ base
                       +:+ " (DRY_RUN="
                       +:+ (if CleanUpActions.DRY_RUN then "True" else "False")
                       +:+ ")")])
      as (added & Hscan & Hin).
    { intros entry Hentry. apply Hquiet.
      apply list_elem_of_In. apply list_elem_of_In in Hentry.
      now rewrite (sorted_perm (fun p => name p) String.leb) in Hentry. }
    rewrite Hscan. simpl. split; [reflexivity|]. split; [now eexists (_ :: added)|].
    intros entry Hentry Hc. right. apply in_or_app. left.
    apply Hin; [|assumption].
    apply list_elem_of_In. apply list_elem_of_In in Hentry.
    now rewrite (sorted_perm (fun p => name p) String.leb).
Qed.

Lemma reports_on_empty_witness :
  let tidy := mkPath "tidy" "/work/tidy" true Dir Missing in
  (~ In Uncommited.all_clean
       (fst (Uncommited.main true (fun _ => Ran (mkCompleted 0 "" ""))
               [tidy])) /\
   In "✅ tidy is clean."
      (fst (Uncommited.main true (fun _ => Ran (mkCompleted 0 "" ""))
              [tidy]))) /\
  script (AbandonedRepo.main "/work"
            (fun _ => mkCompleted 0 ("true" +:+ nl) "")
            (fun _ => mkCompleted 0 ("50" +:+ nl) "") [tidy])
  = (["🔍 Scanning for repos with < 10 commits in: /work";
      "✅ No repositories with fewer than 10 commits found."], 0) /\
  script (NotRepo.main [tidy])
  = (["✔️ All subfolders are git repositories."], 0) /\
  snd (GitItMain.main (fun _ => Raises "unused") (fun _ => "unused")
         (GitItMain.mkTools
            (fun _ => Ran (mkCompleted 0 "" ""))
            (fun _ => Ran (mkCompleted 0 ("0" +:+ nl) ""))
            (fun _ => Raised "unused") (fun _ => Raised "unused")
            (fun _ => Raised "unused") (fun _ => Raised "unused"))
         [tidy] GitItMain.stranded false) = 0.
Proof.
  intros tidy.
  destruct reports_on_empty
    as (Hunc & _ & Hsmall & Hnot & _ & _ & _ & Hstranded & _).
  split; [|split; [|split]].
  - destruct (Hunc true (fun _ => Ran (mkCompleted 0 "" "")) [tidy])
      as (_ & _ & Hverbose).
    + intros repo _ (proc & [= <-] & _ & line & [] & _).
    + destruct (Hverbose eq_refl) as [Hno Hlines].
      split; [exact Hno|]. apply (Hlines tidy). now left.
  - apply Hsmall. intros p [<-|[]] _ _. vm_compute. discriminate.
  - apply Hnot. intros p [<-|[]] _. reflexivity.
  - destruct (Hstranded (fun _ => Raises "unused") (fun _ => "unused")
                (GitItMain.mkTools
                   (fun _ => Ran (mkCompleted 0 "" ""))
                   (fun _ => Ran (mkCompleted 0 ("0" +:+ nl) ""))
                   (fun _ => Raised "unused") (fun _ => Raised "unused")
                   (fun _ => Raised "unused") (fun _ => Raised "unused"))
                [tidy] GitItMain.stranded false)
      as (details & -> & _).
    + now left.
    + intros d [<-|[]] _ _. split; reflexivity.
    + reflexivity.
Defined.

End EmptyReports.
